(* ===== verification/_CoqProject ===== *)
-Q . S2P
Prelude.v
PyBase.v
Json.v
Wire.v
JsonFacts.v
Schema.v
Store.v
Auth.v
Domain.v
Transfer.v
DomainHandler.v
Contact.v
Router.v
Logging.v
TestServer.v
Reserved.v
TransferProgress.v
Scenarios.v
