(* ===== verification/Prelude.v ===== *)
(** * RPP-Afnic registry: a verification development of [src/registry.py]

    The program is a WSGI application ([dispatch], lines 523-599) in front
    of a PostgreSQL database reached through ONE global psycopg2 connection
    opened with [autocommit=False] at READ COMMITTED (lines 613-616); the
    test server of [src/test-server.py] hands it one request after the
    other.  [dispatch] decodes the path and the Basic credentials and calls
    [handle_domain] (domains and transfers), [handle_contact] (contacts) or
    [list_domains]; the handlers call the functions that issue the SQL
    statements, and [send] writes the reply as JSON.  The files of this
    library, in dependency order:

    - [Prelude] (this file): the state and exception monad [ST] in which
      every Python function is written ([Ok]/[Raise] outcomes, the state
      kept on both), [try_except] for [try/except], [preserves] for
      invariants and [returns] for what every returned value satisfies,
      their laws, list and range lemmas ([forall_range] checks a
      boolean property on every byte by evaluation), the tactics and the
      hint database [rpp].
    - [PyBase]: Python values ([pyval]), the exceptions the code raises and
      catches ([exn]), dicts as ordered association lists, the [str]
      methods, [%s]/[%r] formatting, [==] between values, truthiness, and
      the string equations ([String.append] does not reduce by [simpl]).
    - [Json]: [json.loads] for the JSON subset the registry exchanges and
      [json.dumps] as [send] calls it.
    - [Wire]: CPython's [int()], [base64.b64decode], UTF-8 encoding and
      decoding, as [dispatch] uses them on the environ.
    - [JsonFacts]: [json.dumps] writes ASCII, the parser's fuel, and the
      round trip [json.loads(json.dumps(v))].
    - [Schema]: [validate_json] (lines 200-217), [jsonschema.validate] as
      an interpreter of the keywords the documents use, the three schema
      documents (files outside the repository, written from the spec's
      body shapes), their loading at start-up (lines 620-625), and the
      lemmas that each document accepts exactly its shape.
    - [Store]: the connection.  A [conn] holds the committed tables, the
      open transaction's working copy, the serial sequences, the clock and
      PostgreSQL's aborted flag: a failing statement ([fail]) aborts the
      transaction, every later statement ([stmt]) then raises
      [InFailedSqlTransaction], and only [connection.rollback()] (or a
      commit, which rolls back an aborted transaction) clears it.  Each SQL
      statement of the code is one operation; the class [Query] states what
      a read-only statement returns, [strict]/[inert] what every statement
      does on an aborted connection.
    - [Auth]: [auth_registrar] (lines 181-187).
    - [Domain]: [head_domain], [info_domain], [list_domains],
      [patch_domain], [store_domain], [delete_domain], [registerable],
      [availability_domain] (lines 65-241).
    - [Transfer]: [transfer_domain] (lines 243-316), the spec's transfer
      machine [tstep] and the refinement of the latter by the former.
    - [DomainHandler]: [handle_domain] (lines 318-456).
    - [Contact]: [head_contact], [info_contact], [store_contact],
      [delete_contact], [handle_contact] (lines 74-101, 148-179, 458-521).
    - [Router]: [send] (44-62), [dispatch] with [parse_auth] and
      [split_domain], and [serve], the server's loop over a list of
      requests ([src/test-server.py]).
    - [Logging]: the [RPP] logger, its file handler and formatter (lines
      21, 601-610), the start-up record (617) and the record [send] writes
      for every reply (57); [serve_logged] is [serve] with the log file.
    - [TestServer]: [src/test-server.py]: its constants, the [Server]
      string, the banner, and [main]: the import of [registry] (its
      start-up, schema files included, which may stop it) followed by the
      requests.
    - [Reserved]: the safety invariant that [nic.example] is never
      removed, by every statement, handler and request.
    - [TransferProgress]: the request with which a sponsor ends a pending
      transfer, carried through [dispatch], [handle_domain] and
      [transfer_domain].
    - [Scenarios]: concrete stores and requests, and for every theorem with
      hypotheses a lemma that applies it where the hypotheses are checked
      by evaluation.

    Each Python function is a Rocq definition of the same name with its
    branches and early returns in the source's order; an exception that
    escapes [dispatch] is a [Raise] outcome, with the connection left as
    the request left it.  A handler returns the code's pair (status,
    output dict).

    The theorems (claim ids of the manifest in brackets):
    - domain creation, read, delete and patch on every branch, errors
      included (C1-C4, C12-C14, C17, C18), with the create-then-read round
      trip (C2), the availability check against the spec's creation rule
      (C34), and the divergence between them: a name the availability
      check refuses is created by PUT (C15);
    - transfers: request, approval, rejection and cancellation (C5-C8,
      C10), the refinement of the abstract machine (C9), and the failure of
      approval with two pending rows (C19, C20);
    - invariants over any sequence of requests: at most one pending
      transfer per domain (C11) and the two quotas (C16), each proved by
      [preserves] lemmas for every statement, function and handler;
    - contacts (C21, C23-C25) and the aborted transaction one bad contact
      handle leaves behind for every later request (C22);
    - the router: credentials (C26, C28), the path and header divergences
      (C27, C29), replies whose [Content-Length] is their byte count (C33,
      a type property of [send]: the body is 7-bit), and the reply
      envelope a client decodes: [status_code], [status_message] and the
      handler's output (C35);
    - safety: [nic.example] survives every sequence of requests (C30);
    - liveness: a pending transfer can always be ended by its sponsor with
      one request through the whole stack (C31);
    - equivalence: a request on a name and on its lower-case form behave
      the same (C32);
    - the log: logging changes no reply and no table, and the file gets
      one line per reply carrying its [RPP-Svtrid] (C36).
    The models of the library functions come with their own lemmas, which
    the theorems above use: base64 decoding reads back the standard
    encoding, [json.loads] reads back what [json.dumps] writes, and the
    parser's fuel is enough.

    Bounds and fuel.  Integers are [Z]; [MAX_DOMAINS] and [MAX_CONTACTS]
    are 5000, PostgreSQL's [int4] range bounds contact handles, and [int()]
    reads at most 4300 digits.  [json_loads] gives its parser a fuel of
    the input's length plus one; every call of the parser is made on a
    strictly shorter suffix, so this fuel never runs out
    ([JsonFacts.json_fuel_enough]: any larger fuel gives the same result).
    The base64 lemmas rest on bit identities checked by evaluation on all
    256 (or 256 x 256) byte values.  Strings are 8-bit: WSGI hands the
    code Latin-1 text, and [str.lower()] is modelled on that range.

    The time of each log record is an input of [serve_logged]: the code
    reads the system clock, which nothing else determines.

    Not modelled: the socket of the test server and the [Date] and
    [Server] headers [wsgiref] adds (library I/O); the PostgreSQL engine
    beyond the statements the code issues (the DDL is not in the
    repository); the schema files' contents, which are outside the
    repository (the documents follow the spec), and the text
    [str(ValidationError)] adds to the message (jsonschema's dump of the
    schema and instance); and concurrent connections:
    the test server runs requests one at a time, which [serve] models. *)

From stdpp Require Export base gmap strings list.
From Stdlib Require Export ZArith.

Declare Scope rpp_scope.
Delimit Scope rpp_scope with rpp.
Open Scope rpp_scope.

(** ** The state and exception monad *)

(** The result of running a Python statement: a value, or an exception in
    flight.  The state is kept in both cases: a Python exception does not
    undo the writes that preceded it. *)
Inductive outcome (E A : Type) : Type :=
  | Ok (a : A)
  | Raise (e : E).
Arguments Ok {E A} a.
Arguments Raise {E A} e.

(** Pure Python code: an outcome without state. *)
#[export] Instance outcome_ret {E} : MRet (outcome E) := fun A a => Ok a.
#[export] Instance outcome_bind {E} : MBind (outcome E) :=
  fun A B k m => match m with Ok a => k a | Raise e => Raise e end.

Definition ST (S E A : Type) : Type := S -> outcome E A * S.

#[export] Instance ST_ret {S E} : MRet (ST S E) :=
  fun A a s => (Ok a, s).

#[export] Instance ST_bind {S E} : MBind (ST S E) :=
  fun A B k m s =>
    match m s with
    | (Ok a, s') => k a s'
    | (Raise e, s') => (Raise e, s')
    end.

#[export] Instance ST_throw {S E} : MThrow E (ST S E) :=
  fun A e s => (Raise e, s).

Section Monad.
  Context {S E : Type}.

  (** [try: m except ...]: [h e = Some k] runs the matching [except] block
      [k]; [h e = None] lets the exception propagate. *)
Definition try_except {A} (m : ST S E A) (h : E -> option (ST S E A))
      : ST S E A :=
    fun s =>
      match m s with
      | (Ok a, s') => (Ok a, s')
      | (Raise e, s') =>
          match h e with
          | Some k => k s'
          | None => (Raise e, s')
          end
      end.

Definition gets {A} (f : S -> A) : ST S E A := fun s => (Ok (f s), s).

Definition modify (f : S -> S) : ST S E unit := fun s => (Ok tt, f s).

  (** The state a computation ends in, and its outcome. *)
Definition final {A} (m : ST S E A) (s : S) : S := snd (m s).
Definition result {A} (m : ST S E A) (s : S) : outcome E A := fst (m s).

Lemma ret_bind {A B} (a : A) (k : A -> ST S E B) s :
    (mret a ≫= k) s = k a s.
  Proof. reflexivity. Qed.

Lemma bind_ret {A} (m : ST S E A) s : (m ≫= mret) s = m s.
  Proof. unfold mbind, ST_bind. by destruct (m s) as [[] ?]. Qed.

Lemma bind_assoc {A B C} (m : ST S E A) (k : A -> ST S E B)
      (k' : B -> ST S E C) s :
    ((m ≫= k) ≫= k') s = (m ≫= (fun a => k a ≫= k')) s.
  Proof. unfold mbind, ST_bind. by destruct (m s) as [[] ?]. Qed.

Lemma bind_ok {A B} (m : ST S E A) (k : A -> ST S E B) s a s' :
    m s = (Ok a, s') -> (m ≫= k) s = k a s'.
  Proof. intros Hm. unfold mbind, ST_bind. by rewrite Hm. Qed.

Lemma bind_raise {A B} (m : ST S E A) (k : A -> ST S E B) s e s' :
    m s = (Raise e, s') -> (m ≫= k) s = (Raise e, s').
  Proof. intros Hm. unfold mbind, ST_bind. by rewrite Hm. Qed.

Lemma try_ok {A} (m : ST S E A) h s a s' :
    m s = (Ok a, s') -> try_except m h s = (Ok a, s').
  Proof. intros Hm. unfold try_except. by rewrite Hm. Qed.

Lemma try_caught {A} (m : ST S E A) h s e s' k r :
    m s = (Raise e, s') -> h e = Some k -> k s' = r -> try_except m h s = r.
  Proof. intros Hm Hh <-. unfold try_except. by rewrite Hm, Hh. Qed.

Lemma try_uncaught {A} (m : ST S E A) h s e s' :
    m s = (Raise e, s') -> h e = None -> try_except m h s = (Raise e, s').
  Proof. intros Hm Hh. unfold try_except. by rewrite Hm, Hh. Qed.

  (** A predicate on the state that every step of a computation keeps. *)
Definition preserves {A} (P : S -> Prop) (m : ST S E A) : Prop :=
    forall s, P s -> P (snd (m s)).

Lemma preserves_ret {A} P (a : A) : preserves P (mret a).
  Proof. intros s Hs. exact Hs. Qed.

Lemma preserves_throw {A} P (e : E) : preserves P (mthrow (A:=A) e).
  Proof. intros s Hs. exact Hs. Qed.

Lemma preserves_gets {A} P (f : S -> A) : preserves P (gets f).
  Proof. intros s Hs. exact Hs. Qed.

Lemma preserves_bind {A B} P (m : ST S E A) (k : A -> ST S E B) :
    preserves P m -> (forall a, preserves P (k a)) -> preserves P (m ≫= k).
  Proof.
    intros Hm Hk s Hs. unfold mbind, ST_bind.
    specialize (Hm s Hs). destruct (m s) as [[a|e] s']; simpl in *; auto.
    by apply Hk.
  Qed.

Lemma preserves_try {A} P (m : ST S E A) h :
    preserves P m -> (forall e k, h e = Some k -> preserves P k) ->
    preserves P (try_except m h).
  Proof.
    intros Hm Hh s Hs. unfold try_except.
    specialize (Hm s Hs). destruct (m s) as [[a|e] s']; simpl in *; auto.
    destruct (h e) as [k|] eqn:He; simpl; auto. by eapply Hh.
  Qed.
  (** A predicate every value a computation returns satisfies. *)
Definition returns {A} (Q : A -> Prop) (m : ST S E A) : Prop :=
    forall s a s', m s = (Ok a, s') -> Q a.

Lemma returns_ret {A} (Q : A -> Prop) a : Q a -> returns Q (mret a).
  Proof. intros Ha s a' s' [= <- _]. exact Ha. Qed.

Lemma returns_throw {A} (Q : A -> Prop) (e : E) : returns Q (mthrow (A:=A) e).
  Proof. by intros s a s'. Qed.

Lemma returns_bind {A B} (Q : B -> Prop) (m : ST S E A) (k : A -> ST S E B) :
    (forall a, returns Q (k a)) -> returns Q (m ≫= k).
  Proof.
    intros Hk s b s'. unfold mbind, ST_bind.
    destruct (m s) as [[a|e] s1]; [apply Hk|done].
  Qed.
End Monad.

Arguments final {S E A} m s /.
Arguments result {S E A} m s /.

Create HintDb rpp.
Create Rewrite HintDb rpp_run.
#[export] Hint Resolve preserves_ret preserves_throw preserves_gets : rpp.
#[export] Hint Resolve preserves_bind preserves_try : rpp.

(** Unfold the monad's instances so that a run on a concrete or partly
    symbolic state reduces by [simpl]. *)
Ltac st_unfold :=
  unfold mbind, mret, mthrow, ST_bind, ST_ret, ST_throw, try_except,
    gets, modify in *.

(** Case analysis on the first [if] or [match] blocking a run. *)
Ltac st_case :=
  match goal with
  | |- context [match ?x with _ => _ end] =>
      lazymatch x with
      | context [match _ with _ => _ end] => fail
      | _ => destruct x eqn:?
      end
  end.

Ltac st_run := st_unfold; simpl; repeat (st_case; simpl).

(** ** Generic lemmas on options and lists shared by the components *)

Lemma map_nil_iff {A B} (f : A -> B) l : map f l = [] <-> l = [].
Proof. destruct l; split; done. Qed.
Lemma flat_map_nil {A B} (f : A -> list B) l : flat_map f l = [] <-> Forall (fun x => f x = []) l.
Proof.
  induction l as [|x l IH]; simpl; [split; auto|].
  split.
  - intros [Hx Hl]%app_eq_nil. constructor; [done|by apply IH].
  - intros Hf. inversion Hf as [|? ? Hx Hl]; subst. rewrite Hx. by apply IH.
Qed.

Lemma find_some_in {A} (f : A -> bool) (l : list A) x :
  List.find f l = Some x -> In x l /\ f x = true.
Proof. apply List.find_some. Qed.

Lemma find_none_all {A} (f : A -> bool) (l : list A) :
  List.find f l = None -> forall x, In x l -> f x = false.
Proof. apply List.find_none. Qed.

Lemma filter_length_le {A} (f : A -> bool) (l : list A) :
  length (List.filter f l) <= length l.
Proof.
  induction l as [|a l IH]; simpl; [lia|]. destruct (f a); simpl; lia.
Qed.

#[export] Hint Resolve filter_length_le : rpp.

Section FindFilter.
  Context {A : Type} (f : A -> bool).

Lemma find_none_filter (l : list A) : List.find f l = None -> List.filter f l = [].
  Proof.
    induction l as [|a l IH]; simpl; [done|]. destruct (f a); [discriminate|done].
  Qed.

Lemma filter_nil_find (l : list A) : List.filter f l = [] -> List.find f l = None.
  Proof.
    induction l as [|a l IH]; simpl; [done|]. destruct (f a); [discriminate|done].
  Qed.

Lemma find_some_filter (l : list A) x :
    List.find f l = Some x -> 1 <= length (List.filter f l).
  Proof.
    induction l as [|a l IH]; simpl; [discriminate|].
    destruct (f a); simpl; [lia|auto].
  Qed.

Lemma filter_filter_le (g : A -> bool) (l : list A) :
    length (List.filter f (List.filter g l)) <= length (List.filter f l).
  Proof.
    induction l as [|a l IH]; simpl; [lia|].
    destruct (g a), (f a) eqn:E; simpl; rewrite ?E; simpl; lia.
  Qed.

Lemma filter_map_le (h : A -> A) (l : list A) :
    (forall x, f (h x) = true -> f x = true) ->
    length (List.filter f (List.map h l)) <= length (List.filter f l).
  Proof.
    intros Hh. induction l as [|a l IH]; simpl; [lia|].
    destruct (f (h a)) eqn:E; [rewrite (Hh _ E)|destruct (f a)]; simpl; lia.
  Qed.

Lemma filter_neg_none (l : list A) :
    List.filter f (List.filter (fun x => negb (f x)) l) = [].
  Proof.
    induction l as [|a l IH]; simpl; [done|]. destruct (f a) eqn:E; simpl; [done|].
    by rewrite E.
  Qed.

Lemma filter_map_none (h : A -> A) (l : list A) :
    (forall x, f x = true -> f (h x) = false) ->
    List.filter f (List.map (fun x => if f x then h x else x) l) = [].
  Proof.
    intros Hh. induction l as [|a l IH]; simpl; [done|].
    destruct (f a) eqn:E; simpl; [rewrite (Hh _ E)|rewrite E]; done.
  Qed.
Lemma find_app_none (l : list A) x :
    List.find f l = None -> List.find f (l ++ [x]) = if f x then Some x else None.
  Proof. induction l as [|a l IH]; simpl; [done|]. destruct (f a); [discriminate|done]. Qed.
End FindFilter.

(** ** Checking a property of small integers by evaluation *)

(** [0, n) as a list of integers. *)
Definition zrange (n : nat) : list Z := map Z.of_nat (seq 0 n).

Lemma zrange_spec n x : (0 <= x < Z.of_nat n)%Z -> In x (zrange n).
Proof.
  intros Hx. unfold zrange. apply in_map_iff. exists (Z.to_nat x).
  split; [lia|]. apply in_seq. lia.
Qed.

(** A boolean test that evaluates to [true] on the whole range holds at
    every point of it: the bit identities of the wire formats are proved
    this way, by [vm_compute] on the range. *)
Lemma forall_range (f : Z -> bool) n :
  forallb f (zrange n) = true -> forall x, (0 <= x < Z.of_nat n)%Z -> f x = true.
Proof. intros H x Hx. eapply forallb_forall; [exact H|]. by apply zrange_spec. Qed.

Lemma forall_range2 (f : Z -> Z -> bool) n m :
  forallb (fun x => forallb (f x) (zrange m)) (zrange n) = true ->
  forall x y, (0 <= x < Z.of_nat n)%Z -> (0 <= y < Z.of_nat m)%Z -> f x y = true.
Proof.
  intros H x y Hx Hy. eapply (forall_range (f x) m); [|done].
  eapply (forall_range (fun x => forallb (f x) (zrange m)) n); done.
Qed.
