(* ===== verification/PyBase.v ===== *)
(** * Python values, exceptions and string builtins used by [registry.py]

    [pyval] is the part of Python's data the registry handles: what
    [json.loads] returns, what the handlers put in their output dicts and
    the [datetime] values PostgreSQL returns for [created].  [exn] lists
    every exception the code raises, catches or lets escape.  The [str]
    methods are those the code calls, on strings seen as byte strings
    ([lower] is the ASCII case mapping; the registry's names, paths and
    credentials are ASCII). *)

From S2P Require Import Prelude.
From Stdlib Require Export Ascii.
From Stdlib Require Import DecimalString DecimalN.

#[local] Set Warnings "-register-all".

(** ** Values *)

(** A Python value: [None], [bool], [int], [str], [list], [dict] with
    string keys in insertion order, and a [datetime] as seconds since the
    epoch (UTC). *)
Inductive pyval : Type :=
  | PNone
  | PBool (b : bool)
  | PInt (z : Z)
  | PStr (s : string)
  | PList (l : list pyval)
  | PDict (d : list (string * pyval))
  | PTime (t : Z).

Abbreviation dict := (list (string * pyval)).

(** ** Exceptions *)

(** The exception classes of lines 23-37, then psycopg2's
    [UniqueViolation], [SerializationFailure], [InvalidTextRepresentation]
    (a non-numeric string compared with an integer column),
    [NumericValueOutOfRange] (a numeric string beyond 32 bits compared with
    one), [DatatypeMismatch] (a list or dict bound to a text column) and
    [InFailedSqlTransaction] (any statement of an aborted transaction),
    binascii's [Error] and [UnicodeDecodeError] (both [ValueError]s), jsonschema's
    [ValidationError], json's [JSONDecodeError], and the builtins' [ValueError],
    [KeyError], [TypeError], [NameError] and [Exception(msg)]. *)
Inductive exn : Type :=
  | AlreadyExists
  | DoesNotExist
  | Immutable
  | TooManyDomains
  | TooManyContacts
  | Conflict
  | NoValidationForThisMethod (method : string)
  | UniqueViolation
  | SerializationFailure
  | InvalidTextRepresentation
  | NumericValueOutOfRange
  | DatatypeMismatch
  | InFailedSqlTransaction
  | BinasciiError (msg : string)
  | UnicodeDecodeError
  | ValidationError (msg : string)
  | JSONDecodeError
  | ValueError
  | KeyError (key : string)
  | TypeError
  | NameError (name : string)
  | Exception (msg : string).

(** Python code over a state [S]. *)
Abbreviation Py S := (ST S exn).

Definition lift {S A} (o : outcome exn A) : Py S A :=
  fun s => (o, s).

(** ** Responses *)

(** The status dicts [{"code": .., "message": ..}] the handlers return,
    paired with their output dict. *)
Record status := mkStatus { code : Z; message : string }.

Abbreviation response := (status * dict)%type.

(** ** Dicts *)

Fixpoint dict_get (d : dict) (k : string) : option pyval :=
  match d with
  | [] => None
  | (k', v) :: d' => if String.eqb k k' then Some v else dict_get d' k
  end.

(** [d[k] = v]: replaces the value in place, or appends a new key. *)
Fixpoint dict_set (d : dict) (k : string) (v : pyval) : dict :=
  match d with
  | [] => [(k, v)]
  | (k', v') :: d' =>
      if String.eqb k k' then (k', v) :: d' else (k', v') :: dict_set d' k v
  end.

(** [v[k]] for a string key [k]. *)
Definition getitem (v : pyval) (k : string) : outcome exn pyval :=
  match v with
  | PDict d => match dict_get d k with Some x => Ok x | None => Raise (KeyError k) end
  | _ => Raise TypeError
  end.

(** ** [str] methods *)

(** [str.lower()] on the Latin-1 characters WSGI strings hold: [A]-[Z] and
    the capitals [À]-[Ö], [Ø]-[Þ] move 32 code points down the table;
    every other character of the range is its own lower case. *)
Definition char_lower (c : ascii) : ascii :=
  let n := nat_of_ascii c in
  if ((65 <=? n) && (n <=? 90)) || ((192 <=? n) && (n <=? 222) && negb (n =? 215))
  then ascii_of_nat (n + 32) else c.

Fixpoint str_lower (s : string) : string :=
  match s with
  | EmptyString => EmptyString
  | String c s' => String (char_lower c) (str_lower s')
  end.

Definition str_startswith (s p : string) : bool := String.prefix p s.

Definition str_endswith (s suf : string) : bool :=
  (String.length suf <=? String.length s) &&
  String.eqb (String.substring (String.length s - String.length suf)
                (String.length suf) s) suf.

Definition str_removeprefix (s p : string) : string :=
  if str_startswith s p
  then String.substring (String.length p) (String.length s - String.length p) s
  else s.

(** [c in s] for a one-character string [c]. *)
Fixpoint str_has_char (c : ascii) (s : string) : bool :=
  match s with
  | EmptyString => false
  | String a s' => Ascii.eqb a c || str_has_char c s'
  end.

(** [s.split(c)] for a one-character separator. *)
Fixpoint str_split (c : ascii) (s : string) : list string :=
  match s with
  | EmptyString => [EmptyString]
  | String a s' =>
      if Ascii.eqb a c then EmptyString :: str_split c s'
      else match str_split c s' with
           | w :: ws => String a w :: ws
           | [] => [String a EmptyString]
           end
  end.

(** [s.split(c, maxsplit=1)]. *)
Fixpoint str_split1 (c : ascii) (s : string) : list string :=
  match s with
  | EmptyString => [EmptyString]
  | String a s' =>
      if Ascii.eqb a c then [EmptyString; s']
      else match str_split1 c s' with
           | w :: ws => String a w :: ws
           | [] => [String a EmptyString]
           end
  end.

(** ** Printing *)

(** [str(n)] and ["%i" % n] for an integer. *)
Definition str_of_Z (z : Z) : string :=
  if (z <? 0)%Z
  then String "-" (NilEmpty.string_of_uint (N.to_uint (Z.to_N (- z))))
  else NilEmpty.string_of_uint (N.to_uint (Z.to_N z)).

(** Zero-padded decimal of a small natural number. *)
Definition pad (w : nat) (z : Z) : string :=
  let s := str_of_Z z in
  String.append (String.concat EmptyString (repeat "0" (w - String.length s))) s.

(** Proleptic Gregorian date of a day count since 1970-01-01. *)
Definition civil_of_days (days : Z) : Z * Z * Z :=
  let z := (days + 719468)%Z in
  let era := (z / 146097)%Z in
  let doe := (z - era * 146097)%Z in
  let yoe := ((doe - doe / 1460 + doe / 36524 - doe / 146096) / 365)%Z in
  let doy := (doe - (365 * yoe + yoe / 4 - yoe / 100))%Z in
  let mp := ((5 * doy + 2) / 153)%Z in
  let d := (doy - (153 * mp + 2) / 5 + 1)%Z in
  let m := if (mp <? 10)%Z then (mp + 3)%Z else (mp - 9)%Z in
  let y := (yoe + era * 400 + (if (m <=? 2)%Z then 1 else 0))%Z in
  (y, m, d).

(** [str(dt)] (separator [" "]) and [dt.isoformat()] (separator ["T"]) of an
    aware UTC [datetime] with no microseconds. *)
Definition datetime_format (sep : string) (t : Z) : string :=
  let '(y, m, d) := civil_of_days (t / 86400) in
  let r := (t mod 86400)%Z in
  String.concat EmptyString [pad 4 y; "-"; pad 2 m; "-"; pad 2 d; sep;
                    pad 2 (r / 3600); ":"; pad 2 ((r / 60) mod 60); ":";
                    pad 2 (r mod 60); "+00:00"].

Definition char_code (c : ascii) : Z := Z.of_nat (nat_of_ascii c).

Definition hex_digit (n : Z) : ascii :=
  ascii_of_nat (Z.to_nat (if (n <? 10)%Z then 48 + n else 87 + n)).

(** The body of [repr(s)] between quotes [q]. *)
Fixpoint repr_chars (q : ascii) (s : string) : string :=
  match s with
  | EmptyString => EmptyString
  | String c s' =>
      let rest := repr_chars q s' in
      if Ascii.eqb c "\" then String "\" (String "\" rest)
      else if Ascii.eqb c q then String "\" (String c rest)
      else if Ascii.eqb c "010"%char then String "\" (String "n" rest)
      else if Ascii.eqb c "013"%char then String "\" (String "r" rest)
      else if Ascii.eqb c "009"%char then String "\" (String "t" rest)
      else if (char_code c <? 32)%Z || (char_code c =? 127)%Z
      then String "\" (String "x" (String (hex_digit (char_code c / 16))
                                     (String (hex_digit (char_code c mod 16)) rest)))
      else String c rest
  end.

(** The double-quote character. *)
Definition dquote : ascii := ascii_of_nat 34.

Definition str_repr (s : string) : string :=
  let q := if str_has_char "'" s && negb (str_has_char dquote s) then dquote
           else "'"%char in
  String q (String.append (repr_chars q s) (String q EmptyString)).

(** [repr(v)], as Python prints containers, and [str(v)], the conversion
    of ["%s" % v]. *)
Fixpoint py_repr (v : pyval) : string :=
  match v with
  | PNone => "None"
  | PBool true => "True"
  | PBool false => "False"
  | PInt z => str_of_Z z
  | PStr s => str_repr s
  | PList l => "[" +:+ String.concat ", " (map py_repr l) +:+ "]"
  | PDict d =>
      "{" +:+ String.concat ", "
                (map (fun '(k, x) => str_repr k +:+ ": " +:+ py_repr x) d) +:+ "}"
  | PTime t =>
      "datetime.datetime.fromtimestamp(" +:+ str_of_Z t +:+ ", tz=datetime.timezone.utc)"
  end.

Definition py_str (v : pyval) : string :=
  match v with
  | PStr s => s
  | PTime t => datetime_format " " t
  | _ => py_repr v
  end.

(** ** Equality and membership *)

(** Python's [==] ([True == 1]; a [str] is never equal to an [int]). *)
Fixpoint py_eq (a b : pyval) : bool :=
  match a, b with
  | PNone, PNone => true
  | PBool x, PBool y => Bool.eqb x y
  | PInt x, PInt y => Z.eqb x y
  | PBool x, PInt y => Z.eqb (Z.b2z x) y
  | PInt x, PBool y => Z.eqb x (Z.b2z y)
  | PStr x, PStr y => String.eqb x y
  | PTime x, PTime y => Z.eqb x y
  | PList xs, PList ys =>
      (fix go xs ys := match xs, ys with
                       | [], [] => true
                       | x :: xs', y :: ys' => py_eq x y && go xs' ys'
                       | _, _ => false
                       end) xs ys
  | PDict xs, PDict ys =>
      (fix go xs ys := match xs, ys with
                       | [], [] => true
                       | (k, x) :: xs', (k', y) :: ys' =>
                           String.eqb k k' && py_eq x y && go xs' ys'
                       | _, _ => false
                       end) xs ys
  | _, _ => false
  end.

(** [k in v] for a string [k]: dict keys, list elements, substrings. *)
Definition py_contains (v : pyval) (k : string) : outcome exn bool :=
  match v with
  | PDict d => Ok (bool_decide (is_Some (dict_get d k)))
  | PList l => Ok (existsb (py_eq (PStr k)) l)
  | PStr s => Ok (match String.index 0 k s with Some _ => true | None => false end)
  | _ => Raise TypeError
  end.

(** ** Truth, iteration and concatenation *)

(** [not v] is [not (py_truthy v)]: [None], [False], [0], empty strings,
    lists and dicts are false. *)
Definition py_truthy (v : pyval) : bool :=
  match v with
  | PNone => false
  | PBool b => b
  | PInt z => negb (Z.eqb z 0)
  | PStr s => negb (String.eqb s EmptyString)
  | PList l => negb (Nat.eqb (length l) 0)
  | PDict d => negb (Nat.eqb (length d) 0)
  | PTime _ => true
  end.

(** The items [for x in v] visits: list elements, dict keys, the
    one-character strings of a string. *)
Definition py_iter (v : pyval) : outcome exn (list pyval) :=
  match v with
  | PList l => Ok l
  | PDict d => Ok (map (fun kv => PStr kv.1) d)
  | PStr s => Ok (map (fun ch => PStr (String ch EmptyString)) (String.list_ascii_of_string s))
  | _ => Raise TypeError
  end.

(** [a + b] where one side is a [str]: both must be. *)
Definition str_add (a b : pyval) : outcome exn string :=
  match a, b with
  | PStr x, PStr y => Ok (x +:+ y)
  | _, _ => Raise TypeError
  end.

(** [body.read(length)] on the WSGI input stream: at most [length]
    characters, all of them for a negative [length]. *)
Definition read_body (body : string) (length : Z) : string :=
  if (length <? 0)%Z then body else String.substring 0 (Z.to_nat length) body.

(** ** Prefixes *)

Lemma str_startswith_app p s : str_startswith (p +:+ s) p = true.
Proof.
  unfold str_startswith. induction p as [|a p IH]; [by destruct s|]. simpl.
  destruct (ascii_dec a a); [done|congruence].
Qed.

Lemma str_removeprefix_app p s : str_removeprefix (p +:+ s) p = s.
Proof.
  unfold str_removeprefix. rewrite str_startswith_app.
  induction p as [|a p IH]; simpl; [|done].
  rewrite Nat.sub_0_r. clear. induction s as [|b s IH]; simpl; [done|]. by f_equal.
Qed.

Lemma append_eq_self p s : p +:+ s = p -> s = EmptyString.
Proof. induction p as [|a p IH]; simpl; [done|]. intros [=]. by apply IH. Qed.

Lemma eqb_append_self p s : s <> EmptyString -> String.eqb (p +:+ s) p = false.
Proof. intros Hs. destruct (String.eqb_spec (p +:+ s) p) as [E|]; [|done]. by apply append_eq_self in E. Qed.

Lemma substring_app p s :
  String.substring (String.length p) (String.length (p +:+ s) - String.length p) (p +:+ s) = s.
Proof.
  induction p as [|a p IH]; simpl; [|done].
  rewrite Nat.sub_0_r. clear. induction s as [|b s IH]; simpl; [done|]. by f_equal.
Qed.

Lemma str_split_none c s : str_has_char c s = false -> str_split c s = [s].
Proof.
  induction s as [|a s IH]; simpl; [done|].
  destruct (Ascii.eqb a c) eqn:E; simpl; [discriminate|]. intros H. by rewrite IH.
Qed.

(** [(a + c + b).split(c)] is [[a, b]] when neither part holds [c]. *)
(** A string of 7-bit characters. *)
Fixpoint is_ascii (s : string) : bool :=
  match s with
  | EmptyString => true
  | String c s' => (nat_of_ascii c <? 128) && is_ascii s'
  end.

Lemma is_ascii_app a b : is_ascii (a +:+ b) = is_ascii a && is_ascii b.
Proof. induction a as [|c a IH]; simpl; [done|]. by rewrite IH, andb_assoc. Qed.

Lemma is_ascii_concat sep l :
  is_ascii sep = true -> Forall (fun s => is_ascii s = true) l -> is_ascii (String.concat sep l) = true.
Proof.
  intros Hs Hl. induction Hl as [|x l Hx Hl IH]; [done|]. simpl.
  destruct l; [done|]. by rewrite !is_ascii_app, Hx, Hs, IH.
Qed.

Lemma char_lower_idem c : char_lower (char_lower c) = char_lower c.
Proof. by destruct c as [[] [] [] [] [] [] [] []]. Qed.

Lemma str_lower_idem s : str_lower (str_lower s) = str_lower s.
Proof. induction s as [|c s IH]; simpl; [done|]. by rewrite char_lower_idem, IH. Qed.

Lemma str_split_cons c a b :
  str_has_char c a = false -> str_split c (a +:+ String c b) = a :: str_split c b.
Proof.
  induction a as [|x a IH]; simpl; intros Ha; [by rewrite Ascii.eqb_refl|].
  destruct (Ascii.eqb x c); [discriminate|]. by rewrite IH.
Qed.

Lemma str_split_app c a b :
  str_has_char c a = false -> str_has_char c b = false -> str_split c (a +:+ String c b) = [a; b].
Proof. intros Ha Hb. by rewrite str_split_cons, str_split_none. Qed.

Lemma str_has_char_sep c a b : str_has_char c (a +:+ String c b) = true.
Proof. induction a as [|x a IH]; simpl; [by rewrite Ascii.eqb_refl|by rewrite IH, orb_true_r]. Qed.

Lemma str_has_char_substring c k n s :
  str_has_char c (String.substring k n s) = true -> str_has_char c s = true.
Proof.
  revert k n. induction s as [|a s IH]; intros [|k] [|n]; simpl; try done; intros H;
    try (apply orb_true_iff in H as [H|H]; [by rewrite H|]); by rewrite (IH _ _ H), orb_true_r.
Qed.

Lemma str_endswith_has_char c s suf :
  str_endswith s suf = true -> str_has_char c suf = true -> str_has_char c s = true.
Proof.
  unfold str_endswith. intros [_ E]%andb_true_iff Hc. apply String.eqb_eq in E.
  rewrite <- E in Hc. by eapply str_has_char_substring.
Qed.

Lemma eqb_append_nonempty a c b : String.eqb (a +:+ String c b) EmptyString = false.
Proof. by destruct a. Qed.

(** ** Dict updates *)

Lemma dict_get_set_eq d k v : dict_get (dict_set d k v) k = Some v.
Proof.
  induction d as [|[k' v'] d IH]; simpl; [by rewrite String.eqb_refl|].
  destruct (String.eqb_spec k k') as [->|]; simpl; [by rewrite String.eqb_refl|].
  by destruct (String.eqb_spec k k').
Qed.

Lemma dict_get_set_ne d k k' v : k' <> k -> dict_get (dict_set d k v) k' = dict_get d k'.
Proof.
  intros Hne. induction d as [|[k1 v1] d IH]; simpl.
  - by destruct (String.eqb_spec k' k).
  - destruct (String.eqb_spec k k1) as [->|]; simpl.
    + by destruct (String.eqb_spec k' k1).
    + by rewrite IH.
Qed.

Lemma dict_set_keys d k v x : x ∈ (dict_set d k v).*1 -> x = k \/ x ∈ d.*1.
Proof.
  induction d as [|[k1 v1] d IH]; simpl; [set_solver|].
  destruct (String.eqb_spec k k1) as [->|]; simpl; [set_solver|].
  intros [->|Hx]%elem_of_cons; [set_solver|]. destruct (IH Hx); set_solver.
Qed.

Lemma dict_set_nodup d k v : NoDup d.*1 -> NoDup (dict_set d k v).*1.
Proof.
  induction d as [|[k1 v1] d IH]; simpl; [constructor; [set_solver|constructor]|].
  intros [Hk1 Hd]%NoDup_cons. destruct (String.eqb_spec k k1) as [->|]; simpl; [by constructor|].
  constructor; [|auto]. intros [->|]%dict_set_keys; [done|set_solver].
Qed.

Lemma dict_set_Forall (P : string * pyval -> Prop) d k v :
  Forall P d -> P (k, v) -> Forall P (dict_set d k v).
Proof.
  intros Hd Hkv. induction Hd as [|[k1 v1] d H1 Hd IH]; simpl; [by constructor|].
  destruct (String.eqb_spec k k1) as [->|]; by constructor.
Qed.

Lemma dict_get_map (f : pyval -> pyval) (d : dict) k :
  dict_get (map (fun '(k, x) => (k, f x)) d) k = option_map f (dict_get d k).
Proof. induction d as [|[k1 v1] d IH]; simpl; [done|]. by destruct (String.eqb k k1). Qed.

(** ** Appending and joining strings

    stdpp makes [String.append] opaque to [simpl]; these equations take its
    place. [sep_tail sep l] is what [sep.join(x :: l)] writes after [x]. *)

Lemma str_app_cons x a b : String x a +:+ b = String x (a +:+ b).
Proof. done. Qed.

Lemma str_app_nil_l b : EmptyString +:+ b = b.
Proof. done. Qed.

Lemma str_app_assoc a b c : (a +:+ b) +:+ c = a +:+ (b +:+ c).
Proof. induction a as [|x a IH]; [done|]. by rewrite !str_app_cons, IH. Qed.

Lemma str_app_nil a : a +:+ EmptyString = a.
Proof. induction a as [|x a IH]; [done|]. by rewrite str_app_cons, IH. Qed.

Lemma str_length_app a b : String.length (a +:+ b) = String.length a + String.length b.
Proof. induction a as [|x a IH]; [done|]. rewrite str_app_cons. simpl. by rewrite IH. Qed.

(** [sep] before each element. *)
Fixpoint sep_tail (sep : string) (l : list string) : string :=
  match l with [] => EmptyString | y :: l' => sep +:+ y +:+ sep_tail sep l' end.

Lemma concat_cons sep x l : String.concat sep (x :: l) = x +:+ sep_tail sep l.
Proof.
  revert x. induction l as [|y l IH]; intros x; simpl; [by rewrite str_app_nil|].
  by rewrite <- IH.
Qed.

(** Every character satisfies [p]. *)
Fixpoint str_forall (p : ascii -> bool) (s : string) : bool :=
  match s with EmptyString => true | String c s' => p c && str_forall p s' end.

Lemma str_forall_app p a b : str_forall p (a +:+ b) = str_forall p a && str_forall p b.
Proof. induction a as [|c a IH]; simpl; [done|]. by rewrite IH, andb_assoc. Qed.

Lemma str_forall_concat p sep l :
  str_forall p sep = true -> Forall (fun s => str_forall p s = true) l -> str_forall p (String.concat sep l) = true.
Proof.
  intros Hs Hl. induction Hl as [|x l Hx Hl IH]; [done|]. simpl.
  destruct l; [done|]. by rewrite !str_forall_app, Hx, Hs, IH.
Qed.
