(* ===== verification/Json.v ===== *)
(** * JSON: [json.loads] and [json.dumps]

    [json_loads] is a parser for the JSON the registry exchanges: [null],
    booleans, integers, strings with the short escapes, arrays and objects
    (a repeated key keeps its last value, as a Python dict does); numbers
    with a fraction or exponent and [\u] escapes are rejected.  It recurses
    on a fuel bounded by the input's length, which [json_loads] supplies,
    so it always terminates.  [validate_json] (in [Schema]) applies it to
    every request body.  [json_dumps] is the serialiser [send] applies to
    every reply (Python's defaults, with [serialize_others] for
    timestamps). *)

From S2P Require Import Prelude PyBase.
From Stdlib Require Import DecimalString.

Module Json.

Definition is_ws (c : ascii) : bool :=
  let n := nat_of_ascii c in (n =? 32) || (n =? 9) || (n =? 10) || (n =? 13).

Fixpoint skip_ws (s : string) : string :=
  match s with
  | String c s' => if is_ws c then skip_ws s' else s
  | EmptyString => EmptyString
  end.

Definition is_digit (c : ascii) : bool :=
  let n := nat_of_ascii c in (48 <=? n) && (n <=? 57).

Definition digit_val (c : ascii) : Z := Z.of_nat (nat_of_ascii c - 48).

(** The digits after a leading non-zero digit. *)
Fixpoint lex_digits (s : string) (acc : Z) : Z * string :=
  match s with
  | String c s' => if is_digit c then lex_digits s' (10 * acc + digit_val c)%Z else (acc, s)
  | EmptyString => (acc, EmptyString)
  end.

(** An integer: [0] or a non-zero digit followed by digits; a following
    [.], [e] or [E] is a number this parser does not accept. *)
Definition number_end (x : Z * string) : option (Z * string) :=
  let '(v, rest) := x in
  match rest with
  | String c _ => if Ascii.eqb c "." || Ascii.eqb c "e" || Ascii.eqb c "E" then None
                  else Some (v, rest)
  | EmptyString => Some (v, rest)
  end.

Definition lex_nat (s : string) : option (Z * string) :=
  match s with
  | String "0" s' => number_end (0%Z, s')
  | String c s' => if is_digit c then number_end (lex_digits s' (digit_val c)) else None
  | EmptyString => None
  end.

Definition unescape (c : ascii) : option ascii :=
  if Ascii.eqb c dquote then Some c
  else if Ascii.eqb c "\" then Some c
  else if Ascii.eqb c "/" then Some c
  else if Ascii.eqb c "n" then Some (ascii_of_nat 10)
  else if Ascii.eqb c "t" then Some (ascii_of_nat 9)
  else if Ascii.eqb c "r" then Some (ascii_of_nat 13)
  else if Ascii.eqb c "b" then Some (ascii_of_nat 8)
  else if Ascii.eqb c "f" then Some (ascii_of_nat 12)
  else None.

(** The rest of a string literal after its opening quote. *)
Fixpoint lex_string (s : string) : option (string * string) :=
  match s with
  | EmptyString => None
  | String c s' =>
      if Ascii.eqb c dquote then Some (EmptyString, s')
      else if Ascii.eqb c "\" then
        match s' with
        | String e s'' =>
            match unescape e, lex_string s'' with
            | Some u, Some (w, r) => Some (String u w, r)
            | _, _ => None
            end
        | EmptyString => None
        end
      else if (nat_of_ascii c <? 32) then None
      else match lex_string s' with
           | Some (w, r) => Some (String c w, r)
           | None => None
           end
  end.

Fixpoint lex_word (w s : string) : option string :=
  match w, s with
  | EmptyString, _ => Some s
  | String a w', String b s' => if Ascii.eqb a b then lex_word w' s' else None
  | _, _ => None
  end.

(** Whether [s] starts with [c], and [s] without its first character. *)
Definition starts_with (c : ascii) (s : string) : bool :=
  match s with String d _ => Ascii.eqb d c | EmptyString => false end.

Definition after (s : string) : string :=
  match s with String _ r => r | EmptyString => EmptyString end.

(** [parse_value] reads one value (after blanks) and returns it with the
    rest of the input; [parse_elems] and [parse_members] read the rest of
    an array or an object after its first element.  Every call consumes
    one unit of fuel. *)
Fixpoint parse_value (fuel : nat) (s : string) : option (pyval * string) :=
  match fuel with
  | O => None
  | S fuel' =>
      match skip_ws s with
      | String c s' =>
          if Ascii.eqb c "n" then r ← lex_word "ull" s'; Some (PNone, r)
          else if Ascii.eqb c "t" then r ← lex_word "rue" s'; Some (PBool true, r)
          else if Ascii.eqb c "f" then r ← lex_word "alse" s'; Some (PBool false, r)
          else if Ascii.eqb c dquote then '(w, r) ← lex_string s'; Some (PStr w, r)
          else if Ascii.eqb c "-" then '(v, r) ← lex_nat s'; Some (PInt (- v)%Z, r)
          else if is_digit c then '(v, r) ← lex_nat (String c s'); Some (PInt v, r)
          else if Ascii.eqb c "[" then
            if starts_with "]" (skip_ws s') then Some (PList [], after (skip_ws s'))
            else '(v, r) ← parse_value fuel' s'; parse_elems fuel' [v] r
          else if Ascii.eqb c "{" then
            if starts_with "}" (skip_ws s') then Some (PDict [], after (skip_ws s'))
            else parse_members fuel' [] s'
          else None
      | EmptyString => None
      end
  end
with parse_elems (fuel : nat) (acc : list pyval) (s : string) : option (pyval * string) :=
  match fuel with
  | O => None
  | S fuel' =>
      match skip_ws s with
      | String c r =>
          if Ascii.eqb c "]" then Some (PList (rev acc), r)
          else if Ascii.eqb c "," then
            '(v, r') ← parse_value fuel' r; parse_elems fuel' (v :: acc) r'
          else None
      | EmptyString => None
      end
  end
with parse_members (fuel : nat) (acc : dict) (s : string) : option (pyval * string) :=
  match fuel with
  | O => None
  | S fuel' =>
      match skip_ws s with
      | String c r =>
          if Ascii.eqb c dquote then
            '(k, r1) ← lex_string r;
            if starts_with ":" (skip_ws r1) then
              '(v, r3) ← parse_value fuel' (after (skip_ws r1));
              let acc' := dict_set acc k v in
              if starts_with "," (skip_ws r3) then parse_members fuel' acc' (after (skip_ws r3))
              else if starts_with "}" (skip_ws r3) then Some (PDict acc', after (skip_ws r3))
              else None
            else None
          else None
      | EmptyString => None
      end
  end.

(** [json.loads(input)]. *)
Definition json_loads (input : string) : outcome exn pyval :=
  match parse_value (S (String.length input)) input with
  | Some (v, rest) =>
      if String.eqb (skip_ws rest) EmptyString then Ok v else Raise JSONDecodeError
  | None => Raise JSONDecodeError
  end.

(** ** [json.dumps(obj, default=serialize_others)]

    Python's defaults: [", "] and [": "] as separators, [ensure_ascii]:
    a quote, a backslash and the control characters with a short form are
    escaped with a backslash, every other character outside [' '..'~'] as
    [\u] and four lower-case hex digits.  [serialize_others] (lines 39-42)
    writes a [datetime] as [isoformat()]. *)

Definition hex4 (n : Z) : string :=
  String (hex_digit (Z.shiftr n 12 mod 16)) (String (hex_digit (Z.shiftr n 8 mod 16))
    (String (hex_digit (Z.shiftr n 4 mod 16)) (String (hex_digit (n mod 16)) EmptyString))).

Definition bs : ascii := "\".

Definition escape_char (c : ascii) : string :=
  let n := nat_of_ascii c in
  if Ascii.eqb c dquote then String bs (String dquote EmptyString)
  else if Ascii.eqb c bs then String bs (String bs EmptyString)
  else if n =? 10 then String bs "n"
  else if n =? 13 then String bs "r"
  else if n =? 9 then String bs "t"
  else if n =? 8 then String bs "b"
  else if n =? 12 then String bs "f"
  else if (n <? 32) || (126 <? n) then String bs ("u" +:+ hex4 (Z.of_nat n))
  else String c EmptyString.

Fixpoint escape (s : string) : string :=
  match s with
  | EmptyString => EmptyString
  | String c s' => escape_char c +:+ escape s'
  end.

Definition dump_str (s : string) : string := String dquote (escape s +:+ String dquote EmptyString).

Fixpoint json_dumps (v : pyval) : string :=
  match v with
  | PNone => "null"
  | PBool true => "true"
  | PBool false => "false"
  | PInt z => str_of_Z z
  | PStr s => dump_str s
  | PList l => "[" +:+ String.concat ", " (map json_dumps l) +:+ "]"
  | PDict d =>
      "{" +:+ String.concat ", " (map (fun '(k, x) => dump_str k +:+ ": " +:+ json_dumps x) d) +:+ "}"
  | PTime t => dump_str (datetime_format "T" t)
  end.

End Json.
