(* ===== verification/Wire.v ===== *)
(** * Wire formats the router decodes

    [dispatch] (lines 523-599 of [registry.py]) turns the WSGI environ into
    the arguments of the handlers with three library functions, modelled
    here from their CPython definitions:
    - [int(s)] for [CONTENT_LENGTH] and the user part of the credentials:
      surrounding whitespace, an optional sign, decimal digits with single
      underscores between them, at most 4300 digits (CPython's
      [sys.int_max_str_digits]); anything else raises [ValueError];
    - [base64.b64decode(data)], that is [binascii.a2b_base64(data,
      strict_mode=False)]: characters outside the alphabet are skipped, a
      pad sequence ends the input, and a final group of one or of two or
      three characters without their pads raises [binascii.Error];
    - [bytes.decode()], strict UTF-8: a malformed sequence raises
      [UnicodeDecodeError].
    Strings are sequences of 8-bit characters.  The environ's strings are
    Latin-1 text (PEP 3333), and [str.encode()] writes a character above
    127 as two UTF-8 bytes.  A decoded string is kept as its UTF-8 bytes.
    Non-ASCII whitespace and digits, which Python's [int()] also accepts,
    are not recognised here: such strings raise [ValueError] in the model.
    The file ends with the lemmas the router's credential theorem rests
    on: the decoder reads back the standard encoding of a byte string
    ([a2b_encode]), and ASCII text passes through the byte functions
    unchanged. *)

From S2P Require Import Prelude PyBase.
From Stdlib Require Import DecimalString DecimalN DecimalPos.

Module Wire.

(** ** Bytes *)

Definition byte_of (c : ascii) : Z := Z.of_nat (nat_of_ascii c).

Definition char_of (b : Z) : ascii := ascii_of_nat (Z.to_nat b).

Fixpoint bytes_of (s : string) : list Z :=
  match s with
  | EmptyString => []
  | String c s' => byte_of c :: bytes_of s'
  end.

Fixpoint string_of (bs : list Z) : string :=
  match bs with
  | [] => EmptyString
  | b :: bs' => String (char_of b) (string_of bs')
  end.

(** [str.encode()] of a Latin-1 string: UTF-8. *)
Fixpoint encode_utf8 (s : string) : list Z :=
  match s with
  | EmptyString => []
  | String c s' =>
      let n := byte_of c in
      if (n <? 128)%Z then n :: encode_utf8 s'
      else Z.lor 192 (Z.shiftr n 6) :: Z.lor 128 (Z.land n 63) :: encode_utf8 s'
  end.

(** ** [int(s)] *)

Definition py_space (c : ascii) : bool :=
  let n := nat_of_ascii c in ((9 <=? n) && (n <=? 13)) || ((28 <=? n) && (n <=? 32)).

Definition is_digit (c : ascii) : bool :=
  let n := nat_of_ascii c in (48 <=? n) && (n <=? 57).

Definition digit_value (c : ascii) : Z := (byte_of c - 48)%Z.

Fixpoint lstrip (s : string) : string :=
  match s with
  | String c s' => if py_space c then lstrip s' else s
  | EmptyString => EmptyString
  end.

Fixpoint rstrip (s : string) : string :=
  match s with
  | EmptyString => EmptyString
  | String c s' =>
      let r := rstrip s' in
      if py_space c && String.eqb r EmptyString then EmptyString else String c r
  end.

Definition strip (s : string) : string := rstrip (lstrip s).

(** The digits after the first one: a digit, or [_] followed by a digit.
    Returns the value and the number of digits. *)
Fixpoint digits_tail (s : string) (acc : Z) (n : nat) : option (Z * nat) :=
  match s with
  | EmptyString => Some (acc, n)
  | String c s' =>
      if is_digit c then digits_tail s' (10 * acc + digit_value c)%Z (S n)
      else if Ascii.eqb c "_" then
        match s' with
        | String d s'' => if is_digit d then digits_tail s'' (10 * acc + digit_value d)%Z (S n)
                          else None
        | EmptyString => None
        end
      else None
  end.

Definition int_max_str_digits : nat := 4300.

Definition py_int (s : string) : outcome exn Z :=
  let t := strip s in
  let '(sign, body) :=
    match t with
    | String "-" r => ((-1)%Z, r)
    | String "+" r => (1%Z, r)
    | r => (1%Z, r)
    end in
  match body with
  | String c r =>
      if is_digit c then
        match digits_tail r (digit_value c) 1 with
        | Some (v, n) => if Nat.leb n int_max_str_digits then Ok (sign * v)%Z else Raise ValueError
        | None => Raise ValueError
        end
      else Raise ValueError
  | EmptyString => Raise ValueError
  end.

(** ** [binascii.a2b_base64(data, strict_mode=False)] *)

(** [table_a2b_base64]: the value of an alphabet character. *)
Definition b64_value (b : Z) : option Z :=
  if (65 <=? b)%Z && (b <=? 90)%Z then Some (b - 65)%Z
  else if (97 <=? b)%Z && (b <=? 122)%Z then Some (b - 71)%Z
  else if (48 <=? b)%Z && (b <=? 57)%Z then Some (b + 4)%Z
  else if (b =? 43)%Z then Some 62%Z
  else if (b =? 47)%Z then Some 63%Z
  else None.

(** The decoding loop: [quad] characters of the current group seen,
    [left] their bits not yet written, [pads] pad characters seen since
    the last data character, [acc] the bytes written (last first). *)
Fixpoint a2b_loop (bs : list Z) (quad left pads : Z) (acc : list Z) : outcome exn (list Z) :=
  match bs with
  | [] =>
      if (quad =? 0)%Z then Ok (rev acc)
      else if (quad =? 1)%Z then
        Raise (BinasciiError "Invalid base64-encoded string: number of data characters cannot be 1 more than a multiple of 4")
      else Raise (BinasciiError "Incorrect padding")
  | b :: rest =>
      if (b =? 61)%Z then
        if (2 <=? quad)%Z then
          if (4 <=? quad + (pads + 1))%Z then Ok (rev acc)
          else a2b_loop rest quad left (pads + 1) acc
        else a2b_loop rest quad left pads acc
      else match b64_value b with
      | None => a2b_loop rest quad left pads acc
      | Some v =>
          if (quad =? 0)%Z then a2b_loop rest 1 v 0 acc
          else if (quad =? 1)%Z then
            a2b_loop rest 2 (Z.land v 15) 0 (Z.lor (Z.shiftl left 2) (Z.shiftr v 4) :: acc)
          else if (quad =? 2)%Z then
            a2b_loop rest 3 (Z.land v 3) 0 (Z.lor (Z.shiftl left 4) (Z.shiftr v 2) :: acc)
          else a2b_loop rest 0 0 0 (Z.lor (Z.shiftl left 6) v :: acc)
      end
  end.

Definition b64decode (bs : list Z) : outcome exn (list Z) := a2b_loop bs 0 0 0 [].

(** ** [bytes.decode()]: strict UTF-8 *)

Definition cont (b : Z) : bool := (128 <=? b)%Z && (b <=? 191)%Z.

Definition between (lo b hi : Z) : bool := (lo <=? b)%Z && (b <=? hi)%Z.

(** Well-formed UTF-8 (Unicode table 3-7): no overlong forms, no
    surrogates, nothing above U+10FFFF. *)
Fixpoint utf8_valid (bs : list Z) : bool :=
  match bs with
  | [] => true
  | b :: r =>
      if (b <? 128)%Z then utf8_valid r
      else if between 194 b 223 then
        match r with c1 :: r' => cont c1 && utf8_valid r' | [] => false end
      else if between 224 b 239 then
        match r with
        | c1 :: c2 :: r' =>
            (if (b =? 224)%Z then between 160 c1 191
             else if (b =? 237)%Z then between 128 c1 159 else cont c1)
            && cont c2 && utf8_valid r'
        | _ => false
        end
      else if between 240 b 244 then
        match r with
        | c1 :: c2 :: c3 :: r' =>
            (if (b =? 240)%Z then between 144 c1 191
             else if (b =? 244)%Z then between 128 c1 143 else cont c1)
            && cont c2 && cont c3 && utf8_valid r'
        | _ => false
        end
      else false
  end.

Definition utf8_decode (bs : list Z) : outcome exn string :=
  if utf8_valid bs then Ok (string_of bs) else Raise UnicodeDecodeError.

(** ** Base64 encoding, and decoding it back

    [b64encode] is the standard encoding with padding (RFC 4648, section
    4), which clients use to build the [Authorization] header; it is not
    code of the registry, only the reference the decoder is checked
    against. *)

Definition b64_char (v : Z) : Z :=
  if (v <? 26)%Z then (65 + v)%Z
  else if (v <? 52)%Z then (71 + v)%Z
  else if (v <? 62)%Z then (v - 4)%Z
  else if (v =? 62)%Z then 43%Z
  else 47%Z.

Fixpoint b64encode (bs : list Z) : list Z :=
  match bs with
  | x :: y :: z :: r =>
      b64_char (Z.shiftr x 2) :: b64_char (Z.lor (Z.shiftl (Z.land x 3) 4) (Z.shiftr y 4))
      :: b64_char (Z.lor (Z.shiftl (Z.land y 15) 2) (Z.shiftr z 6)) :: b64_char (Z.land z 63)
      :: b64encode r
  | [x; y] =>
      [b64_char (Z.shiftr x 2); b64_char (Z.lor (Z.shiftl (Z.land x 3) 4) (Z.shiftr y 4));
       b64_char (Z.shiftl (Z.land y 15) 2); 61%Z]
  | [x] => [b64_char (Z.shiftr x 2); b64_char (Z.shiftl (Z.land x 3) 4); 61%Z; 61%Z]
  | [] => []
  end.

Definition is_byte (b : Z) : Prop := (0 <= b < 256)%Z.

Lemma b64_char_value v : (0 <= v < 64)%Z -> b64_value (b64_char v) = Some v.
Proof.
  intros Hv. pose proof (forall_range
    (fun v => match b64_value (b64_char v) with Some w => Z.eqb w v | None => false end) 64
    ltac:(vm_compute; reflexivity) v Hv) as H. cbv beta in H.
  destruct (b64_value (b64_char v)) as [w|]; [|done]. by apply Z.eqb_eq in H as ->.
Qed.

Lemma b64_char_not_pad v : (0 <= v < 64)%Z -> (b64_char v =? 61)%Z = false.
Proof.
  intros Hv. apply negb_true_iff.
  exact (forall_range (fun v => negb (b64_char v =? 61)%Z) 64 ltac:(vm_compute; reflexivity) v Hv).
Qed.

(** A data character in the middle of the input. *)
Lemma a2b_data v rest quad left pads acc :
  (0 <= v < 64)%Z ->
  a2b_loop (b64_char v :: rest) quad left pads acc =
    if (quad =? 0)%Z then a2b_loop rest 1 v 0 acc
    else if (quad =? 1)%Z then
      a2b_loop rest 2 (Z.land v 15) 0 (Z.lor (Z.shiftl left 2) (Z.shiftr v 4) :: acc)
    else if (quad =? 2)%Z then
      a2b_loop rest 3 (Z.land v 3) 0 (Z.lor (Z.shiftl left 4) (Z.shiftr v 2) :: acc)
    else a2b_loop rest 0 0 0 (Z.lor (Z.shiftl left 6) v :: acc).
Proof. intros Hv. cbn [a2b_loop]. by rewrite b64_char_not_pad, b64_char_value. Qed.

(** The bit identities of one group, each checked on every byte value.
    [v1] and [v2] are the second and third characters of a group. *)
Definition v1 (x y : Z) : Z := Z.lor (Z.shiftl (Z.land x 3) 4) (Z.shiftr y 4).
Definition v2 (y z : Z) : Z := Z.lor (Z.shiftl (Z.land y 15) 2) (Z.shiftr z 6).

Definition sextet (v : Z) : bool := (0 <=? v)%Z && (v <? 64)%Z.

(** What the decoder computes from the first two characters, the next
    two, and the last one, and the ranges of the characters. *)
Definition pair_xy_ok (x y : Z) : bool :=
  (Z.lor (Z.shiftl (Z.shiftr x 2) 2) (Z.shiftr (v1 x y) 4) =? x)%Z
  && (Z.land (v1 x y) 15 =? Z.shiftr y 4)%Z && sextet (v1 x y).
Definition pair_yz_ok (y z : Z) : bool :=
  (Z.lor (Z.shiftl (Z.shiftr y 4) 4) (Z.shiftr (v2 y z) 2) =? y)%Z
  && (Z.land (v2 y z) 3 =? Z.shiftr z 6)%Z && sextet (v2 y z).
Definition single_ok (x : Z) : bool :=
  sextet (Z.shiftr x 2) && sextet (Z.land x 63)
  && (Z.lor (Z.shiftl (Z.shiftr x 6) 6) (Z.land x 63) =? x)%Z
  && sextet (Z.shiftl (Z.land x 3) 4) && sextet (Z.shiftl (Z.land x 15) 2)
  && (Z.lor (Z.shiftl (Z.shiftr x 2) 2) (Z.shiftr (Z.shiftl (Z.land x 3) 4) 4) =? x)%Z
  && (Z.shiftr (Z.shiftl (Z.land x 15) 2) 2 =? Z.land x 15)%Z
  && (Z.lor (Z.shiftl (Z.shiftr x 4) 4) (Z.land x 15) =? x)%Z.

Lemma pair_xy x y : is_byte x -> is_byte y -> pair_xy_ok x y = true.
Proof. apply (forall_range2 pair_xy_ok 256 256). by vm_compute. Qed.

Lemma pair_yz y z : is_byte y -> is_byte z -> pair_yz_ok y z = true.
Proof. apply (forall_range2 pair_yz_ok 256 256). by vm_compute. Qed.

Lemma single x : is_byte x -> single_ok x = true.
Proof. apply (forall_range single_ok 256). by vm_compute. Qed.

Lemma sextet_range v : sextet v = true -> (0 <= v < 64)%Z.
Proof. unfold sextet. intros [H1 H2]%andb_true_iff. apply Z.leb_le in H1. apply Z.ltb_lt in H2. lia. Qed.

(** Decode the data characters of a group, one step per character, with
    the equation [E] of one data character ([a2b_data]). *)
Local Ltac data_step E :=
  rewrite E by (apply sextet_range; assumption); cbn [Z.eqb Pos.eqb].

(** Unpack the boolean identities into rewritable equations. *)
Local Ltac unpack H :=
  unfold pair_xy_ok, pair_yz_ok, single_ok in H;
  repeat match type of H with
  | _ && _ = true => apply andb_true_iff in H as [H ?]
  end.

(** Rewrite with every identity whose left side occurs in the goal. *)
Local Ltac use_identities :=
  repeat match goal with
  | H : (?a =? ?b)%Z = true |- context [?a] => apply Z.eqb_eq in H; rewrite H; clear H
  end.

Lemma a2b_group x y z r acc :
  is_byte x -> is_byte y -> is_byte z ->
  a2b_loop (b64encode (x :: y :: z :: r)) 0 0 0 acc = a2b_loop (b64encode r) 0 0 0 (z :: y :: x :: acc).
Proof.
  intros Hx Hy Hz. pose proof (pair_xy x y Hx Hy) as Hxy. pose proof (pair_yz y z Hy Hz) as Hyz.
  pose proof (single x Hx) as Sx. pose proof (single z Hz) as Sz. unpack Hxy. unpack Hyz. unpack Sx. unpack Sz.
  cbn [b64encode]. fold (v1 x y) (v2 y z). do 4 data_step a2b_data.
  use_identities. reflexivity.
Qed.

(** Bytes [b64encode] writes, [b64decode] reads back. *)
Lemma a2b_encode bs acc :
  Forall is_byte bs -> a2b_loop (b64encode bs) 0 0 0 acc = Ok (rev acc ++ bs).
Proof.
  remember (length bs) as n eqn:Hn. revert bs acc Hn.
  induction n as [n IH] using lt_wf_ind. intros bs acc Hn Hb.
  destruct bs as [|x [|y [|z r]]].
  - by rewrite app_nil_r.
  - apply Forall_cons_1 in Hb as [Hx _]. pose proof (single x Hx) as Sx. unpack Sx.
    cbn [b64encode]. do 2 data_step a2b_data. cbn. by use_identities.
  - apply Forall_cons_1 in Hb as [Hx [Hy _]%Forall_cons_1].
    pose proof (pair_xy x y Hx Hy) as Hxy. pose proof (single y Hy) as Sy. pose proof (single x Hx) as Sx.
    unpack Hxy. unpack Sy. unpack Sx.
    cbn [b64encode]. fold (v1 x y). do 3 data_step a2b_data. cbn. use_identities.
    by rewrite <- app_assoc.
  - apply Forall_cons_1 in Hb as [Hx [Hy [Hz Hr]%Forall_cons_1]%Forall_cons_1].
    rewrite a2b_group by done. rewrite (IH (length r)); [| simpl in *; lia | done | done].
    simpl. by rewrite <- !app_assoc.
Qed.

(** A bound checked by evaluation. *)
Definition range_b (n v : Z) : bool := (0 <=? v)%Z && (v <? n)%Z.

Lemma range_b_spec n v : range_b n v = true -> (0 <= v < n)%Z.
Proof. unfold range_b. intros [H1 H2]%andb_true_iff. apply Z.leb_le in H1. apply Z.ltb_lt in H2. lia. Qed.

(** ** ASCII text through the byte functions *)

Definition ascii_byte (b : Z) : Prop := (0 <= b < 128)%Z.

Lemma string_of_bytes_of s : string_of (bytes_of s) = s.
Proof.
  induction s as [|c s IH]; simpl; [done|]. rewrite IH. unfold char_of, byte_of.
  by rewrite Nat2Z.id, ascii_nat_embedding.
Qed.

Lemma bytes_of_bytes s : Forall is_byte (bytes_of s).
Proof.
  induction s as [|c s IH]; simpl; constructor; [|done].
  unfold is_byte, byte_of. pose proof (nat_ascii_bounded c). lia.
Qed.

Lemma encode_utf8_ascii bs : Forall ascii_byte bs -> encode_utf8 (string_of bs) = bs.
Proof.
  induction bs as [|b bs IH]; intros H; simpl; [done|].
  apply Forall_cons_1 in H as [Hb H]. unfold ascii_byte in Hb.
  unfold byte_of, char_of. rewrite nat_ascii_embedding by lia. rewrite Z2Nat.id by lia.
  destruct (Z.ltb_spec b 128); [|lia]. by rewrite IH.
Qed.

(** [str.encode()] of an ASCII string: one byte per character. *)
Lemma encode_utf8_is_ascii s :
  is_ascii s = true -> Forall ascii_byte (encode_utf8 s) /\ length (encode_utf8 s) = String.length s.
Proof.
  induction s as [|c s IH]; simpl; [done|]. intros [Hc Hs]%andb_prop.
  apply Nat.ltb_lt in Hc. destruct (IH Hs) as [Ha Hl]. unfold byte_of.
  destruct (Z.ltb_spec (Z.of_nat (nat_of_ascii c)) 128); [|lia].
  split; [constructor; [unfold ascii_byte; lia|done]|simpl; lia].
Qed.

Lemma utf8_valid_ascii bs : Forall ascii_byte bs -> utf8_valid bs = true.
Proof.
  induction bs as [|b bs IH]; intros H; simpl; [done|].
  apply Forall_cons_1 in H as [Hb H]. unfold ascii_byte in Hb.
  destruct (Z.ltb_spec b 128); [by apply IH|lia].
Qed.

Lemma b64_char_ascii v : (0 <= v < 64)%Z -> ascii_byte (b64_char v).
Proof.
  intros Hv. apply range_b_spec.
  exact (forall_range (fun v => range_b 128 (b64_char v)) 64 ltac:(vm_compute; reflexivity) v Hv).
Qed.

(** The encoder writes ASCII. *)
Lemma b64encode_ascii bs : Forall is_byte bs -> Forall ascii_byte (b64encode bs).
Proof.
  remember (length bs) as n eqn:Hn. revert bs Hn.
  induction n as [n IH] using lt_wf_ind. intros bs Hn Hb.
  destruct bs as [|x [|y [|z r]]]; [constructor| | |].
  - apply Forall_cons_1 in Hb as [Hx _]. pose proof (single x Hx) as Sx. unpack Sx.
    repeat constructor; try (apply b64_char_ascii, sextet_range; assumption); unfold ascii_byte; lia.
  - apply Forall_cons_1 in Hb as [Hx [Hy _]%Forall_cons_1].
    pose proof (pair_xy x y Hx Hy) as Hxy. pose proof (single x Hx) as Sx.
    pose proof (single y Hy) as Sy. unpack Hxy. unpack Sx. unpack Sy.
    repeat constructor; try (apply b64_char_ascii, sextet_range; assumption); unfold ascii_byte; lia.
  - apply Forall_cons_1 in Hb as [Hx [Hy [Hz Hr]%Forall_cons_1]%Forall_cons_1].
    pose proof (pair_xy x y Hx Hy) as Hxy. pose proof (pair_yz y z Hy Hz) as Hyz.
    pose proof (single x Hx) as Sx. pose proof (single z Hz) as Sz.
    unpack Hxy. unpack Hyz. unpack Sx. unpack Sz. cbn [b64encode]. fold (v1 x y) (v2 y z).
    repeat apply Forall_cons_2; try (apply b64_char_ascii, sextet_range; assumption).
    apply (IH (length r)); [simpl in *; lia|done|done].
Qed.

(** ** The digits [str(n)] writes

    [str(n)] is [str_of_Z n]: a sign and the digits Rocq's decimal
    conversion [N.to_uint] gives; [uint_value] is their value, read left
    to right ([JsonFacts] reads numbers of the reply bodies with it). *)

(** The value of a decimal digit string read left to right from [acc]. *)
Fixpoint uint_value (d : Decimal.uint) (acc : Z) : Z :=
  match d with
  | Decimal.Nil => acc
  | Decimal.D0 l => uint_value l (10 * acc) | Decimal.D1 l => uint_value l (10 * acc + 1)
  | Decimal.D2 l => uint_value l (10 * acc + 2) | Decimal.D3 l => uint_value l (10 * acc + 3)
  | Decimal.D4 l => uint_value l (10 * acc + 4) | Decimal.D5 l => uint_value l (10 * acc + 5)
  | Decimal.D6 l => uint_value l (10 * acc + 6) | Decimal.D7 l => uint_value l (10 * acc + 7)
  | Decimal.D8 l => uint_value l (10 * acc + 8) | Decimal.D9 l => uint_value l (10 * acc + 9)
  end%Z.

Lemma of_uint_acc_value l acc : Z.pos (Pos.of_uint_acc l acc) = uint_value l (Z.pos acc).
Proof. revert acc. induction l; intros acc; simpl; rewrite ?IHl; try f_equal; lia. Qed.

Lemma of_uint_value d : Z.of_N (N.of_uint d) = uint_value d 0.
Proof. unfold N.of_uint. induction d; simpl; rewrite ?of_uint_acc_value; done. Qed.

Lemma to_uint_nonnil m : N.to_uint m <> Decimal.Nil.
Proof. destruct m; [discriminate|apply DecimalPos.Unsigned.to_uint_nonnil]. Qed.

End Wire.
