(* ===== verification/JsonFacts.v ===== *)
(** * Facts about [json.dumps] and [json.loads]

    The serialiser of [Json] writes ASCII only ([json_dumps_ascii], on
    which the [Content-Length] of every reply rests); the parser's fuel is
    enough ([json_fuel_enough]); and a value the
    registry sends is read back as it was sent ([json_loads_dumps], on
    which the reply-envelope theorem of [Router] rests). *)

From S2P Require Import Prelude PyBase Json Wire.
From Stdlib Require Import DecimalString DecimalN.
Import Json.

Module JsonFacts.

(** ** The serialiser writes ASCII *)

Lemma escape_char_ascii c : is_ascii (escape_char c) = true.
Proof. by destruct c as [[] [] [] [] [] [] [] []]. Qed.

Lemma escape_ascii s : is_ascii (escape s) = true.
Proof. induction s as [|c s IH]; [done|]. simpl. by rewrite is_ascii_app, escape_char_ascii, IH. Qed.

Lemma dump_str_ascii s : is_ascii (dump_str s) = true.
Proof. unfold dump_str. simpl. by rewrite is_ascii_app, escape_ascii. Qed.

Lemma uint_ascii d : is_ascii (NilEmpty.string_of_uint d) = true.
Proof. induction d; simpl; done. Qed.

Lemma str_of_Z_ascii z : is_ascii (str_of_Z z) = true.
Proof. unfold str_of_Z. case_match; simpl; apply uint_ascii. Qed.

Lemma pad_ascii w z : is_ascii (pad w z) = true.
Proof.
  unfold pad. rewrite is_ascii_app, str_of_Z_ascii, andb_true_r.
  apply is_ascii_concat; [done|]. apply List.Forall_forall. intros x ->%repeat_spec. done.
Qed.

Lemma datetime_ascii sep t : is_ascii sep = true -> is_ascii (datetime_format sep t) = true.
Proof.
  intros Hs. unfold datetime_format. destruct (civil_of_days _) as [[y m] d].
  apply is_ascii_concat; [done|]. repeat constructor; auto using pad_ascii.
Qed.

(** [json.dumps] with [ensure_ascii]: every value is written in ASCII. *)
Lemma json_dumps_ascii v : is_ascii (json_dumps v) = true.
Proof.
  revert v. fix IH 1. intros [|[]|z|s|l|d|t]; simpl; try done.
  - apply str_of_Z_ascii.
  - apply dump_str_ascii.
  - rewrite !is_ascii_app; simpl; rewrite ?andb_true_r. apply is_ascii_concat; [done|].
    induction l as [|x l IHl]; constructor; [apply IH|apply IHl].
  - rewrite !is_ascii_app; simpl; rewrite ?andb_true_r. apply is_ascii_concat; [done|].
    induction d as [|[k x] d IHd]; constructor; [|apply IHd].
    by rewrite !is_ascii_app, dump_str_ascii, IH.
  - apply dump_str_ascii.
Qed.

(** ** The parser's fuel

    [json_loads] runs [parse_value] with one unit of fuel more than the
    input's length.  Each call of the three parsers is made on a strictly
    shorter suffix of the input, so that fuel never runs out: more fuel
    gives the same result. *)

Lemma skip_ws_len s : String.length (skip_ws s) <= String.length s.
Proof. induction s as [|c s IH]; simpl; [lia|]. case_match; simpl; lia. Qed.

Lemma lex_word_len w s r : lex_word w s = Some r -> String.length r <= String.length s.
Proof.
  revert s. induction w as [|a w IH]; intros [|b s] H; simplify_eq/=; [lia..|].
  case_match; [apply IH in H; lia|done].
Qed.

Lemma lex_string_len s w r : lex_string s = Some (w, r) -> String.length r < String.length s.
Proof.
  remember (String.length s) as n eqn:Hn. revert s w Hn.
  induction n as [n IH] using lt_wf_ind; intros [|c s] w -> H; simplify_eq/=.
  repeat case_match; simplify_eq/=; try lia;
    match goal with H : lex_string ?t = Some _ |- _ =>
      pose proof (IH (String.length t) ltac:(simpl; lia) t _ eq_refl H) end; lia.
Qed.

Lemma lex_digits_len s acc : String.length (snd (lex_digits s acc)) <= String.length s.
Proof.
  revert acc. induction s as [|c s IH]; intros acc; simpl; [lia|].
  case_match; simpl; [rewrite IH|]; lia.
Qed.

Lemma number_end_rest x v r : number_end x = Some (v, r) -> r = snd x.
Proof. destruct x as [v' [|c r']]; simpl; [by intros [=]|]. case_match; [done|by intros [=]]. Qed.

Lemma lex_nat_cases c s :
  lex_nat (String c s) = number_end (0%Z, s) \/
  lex_nat (String c s) = if is_digit c then number_end (lex_digits s (digit_val c)) else None.
Proof. destruct c as [[] [] [] [] [] [] [] []]; auto. Qed.

Lemma lex_nat_len s v r : lex_nat s = Some (v, r) -> String.length r < String.length s.
Proof.
  destruct s as [|c s]; [done|]. pose proof (lex_digits_len s (digit_val c)).
  destruct (lex_nat_cases c s) as [-> | ->]; [|case_match; [|done]];
    intros ->%number_end_rest; simpl; lia.
Qed.

Lemma starts_after c s : starts_with c s = true -> String.length (after s) < String.length s.
Proof. destruct s; simpl; [done|lia]. Qed.

Local Ltac skip_len t :=
  lazymatch goal with
  | _ : String.length (skip_ws t) <= String.length t |- _ => fail
  | _ => pose proof (skip_ws_len t)
  end.

(** Turn what a run of the parsers consumed into inequalities on lengths. *)
Local Ltac rest_lengths :=
  repeat match goal with
  | H : lex_word _ _ = Some _ |- _ => apply lex_word_len in H
  | H : lex_string _ = Some _ |- _ => apply lex_string_len in H
  | H : lex_nat _ = Some _ |- _ => apply lex_nat_len in H
  | H : starts_with _ _ = true |- _ => apply starts_after in H
  | H : skip_ws ?t = String _ _ |- _ => apply (f_equal String.length) in H; simpl in H
  | H : context [skip_ws ?t] |- _ => skip_len t
  | |- context [skip_ws ?t] => skip_len t
  end.

Local Ltac bind_some :=
  match goal with
  | H : _ ≫= _ = Some _ |- _ =>
      let x := fresh "x" in apply bind_Some in H as (x & ? & ?);
      lazymatch type of x with (_ * _)%type => destruct x | _ => idtac end
  end.

(** Every successful call of the parsers consumes input. *)
Lemma parse_shorter n :
  (forall s v r, parse_value n s = Some (v, r) -> String.length r < String.length s) /\
  (forall acc s v r, parse_elems n acc s = Some (v, r) -> String.length r < String.length s) /\
  (forall acc s v r, parse_members n acc s = Some (v, r) -> String.length r < String.length s).
Proof.
  induction n as [|n (IHv & IHe & IHm)]; [done|].
  split_and!; intros * H; cbn [parse_value parse_elems parse_members] in H;
  repeat (case_match || bind_some); simplify_eq;
  repeat match goal with
  | H : parse_value _ _ = Some _ |- _ => apply IHv in H
  | H : parse_elems _ _ _ = Some _ |- _ => apply IHe in H
  | H : parse_members _ _ _ = Some _ |- _ => apply IHm in H
  end; rest_lengths; simpl in *; lia.
Qed.



Local Ltac parse_lengths :=
  repeat match goal with
  | H : parse_value ?k _ = Some _ |- _ => apply (proj1 (parse_shorter k)) in H
  | H : parse_elems ?k _ _ = Some _ |- _ => apply (proj1 (proj2 (parse_shorter k))) in H
  | H : parse_members ?k _ _ = Some _ |- _ => apply (proj2 (proj2 (parse_shorter k))) in H
  end; rest_lengths; simpl in *; lia.

(** Past the input's length, more fuel changes nothing. *)
Lemma parse_fuel n :
  (forall s m, String.length s < n -> n <= m -> parse_value m s = parse_value n s) /\
  (forall acc s m, String.length s < n -> n <= m -> parse_elems m acc s = parse_elems n acc s) /\
  (forall acc s m, String.length s < n -> n <= m -> parse_members m acc s = parse_members n acc s).
Proof.
  induction n as [|n (IHv & IHe & IHm)]; [split_and!; intros; lia|].
  split_and!; intros * Hs Hm; destruct m as [|m]; [lia| |lia| |lia|];
    cbn [parse_value parse_elems parse_members]; unfold mbind, option_bind;
    repeat first [ rewrite (IHv _ m) by parse_lengths | rewrite (IHe _ _ m) by parse_lengths
                 | rewrite (IHm _ _ m) by parse_lengths | case_match ]; done.
Qed.

(** The fuel [json_loads] gives [parse_value] (the input's length plus
    one) never runs out: with any larger fuel the parse gives the same
    result, so [json_loads] is the parse with unbounded fuel. *)
Lemma json_fuel_enough s m :
  S (String.length s) <= m ->
  json_loads s =
    match parse_value m s with
    | Some (v, rest) => if String.eqb (skip_ws rest) EmptyString then Ok v else Raise JSONDecodeError
    | None => Raise JSONDecodeError
    end.
Proof. intros Hm. unfold json_loads. by rewrite (proj1 (parse_fuel (S (String.length s))) s m) by lia. Qed.

(** ** Round trip

    A value the registry writes with [json.dumps] is read back by
    [json.loads] as [json_image] of it: the same value, with each
    [datetime] replaced by the string [serialize_others] (lines 39-42) made
    of it.  The round trip holds for the values [wire_safe] accepts: their
    strings hold only characters [json.dumps] writes as themselves or with a
    short escape ([json_loads] does not read [\u] escapes), and their dicts
    have distinct keys, as a Python dict always has.  The main lemma
    [parse_dumps] reads a value followed by any text that cannot continue a
    number ([ends_value]), with any fuel above the value's length;
    [parse_elems_dumps] and [parse_members_dumps] read the rest of an array
    and of an object. *)

(** The characters [json.dumps] writes as themselves or with a short escape. *)
Definition wire_char (c : ascii) : bool :=
  let n := nat_of_ascii c in
  ((32 <=? n) && (n <=? 126)) || (n =? 8) || (n =? 9) || (n =? 10) || (n =? 12) || (n =? 13).

Definition wire_str : string -> bool := str_forall wire_char.

Fixpoint wire_safe (v : pyval) : bool :=
  match v with
  | PStr s => wire_str s
  | PList l => forallb wire_safe l
  | PDict d => bool_decide (NoDup d.*1) && forallb (fun '(k, x) => wire_str k && wire_safe x) d
  | _ => true
  end.

Fixpoint json_image (v : pyval) : pyval :=
  match v with
  | PList l => PList (map json_image l)
  | PDict d => PDict (map (fun '(k, x) => (k, json_image x)) d)
  | PTime t => PStr (datetime_format "T" t)
  | _ => v
  end.

Lemma escape_char_lex c rest :
  wire_char c = true ->
  lex_string (escape_char c +:+ rest) =
    match lex_string rest with Some (w, r) => Some (String c w, r) | None => None end.
Proof. intros H. destruct c as [[] [] [] [] [] [] [] []]; try discriminate H; reflexivity. Qed.

Lemma lex_escape s rest : wire_str s = true -> lex_string (escape s +:+ String dquote rest) = Some (s, rest).
Proof.
  induction s as [|c s IH]; [done|]. intros [Hc Hs]%andb_true_iff.
  cbn [escape]. by rewrite str_app_assoc, escape_char_lex, IH.
Qed.

Lemma dump_str_app s rest : dump_str s +:+ rest = String dquote (escape s +:+ String dquote rest).
Proof. unfold dump_str. by rewrite str_app_cons, str_app_assoc. Qed.

(** What may follow a value: nothing that would continue a number. *)
Definition ends_value (s : string) : bool :=
  match s with
  | String c _ => negb (is_digit c || Ascii.eqb c "." || Ascii.eqb c "e" || Ascii.eqb c "E")
  | EmptyString => true
  end.

Lemma lex_digits_cons c s acc :
  is_digit c = true -> lex_digits (String c s) acc = lex_digits s (10 * acc + digit_val c)%Z.
Proof. intros H. simpl. by rewrite H. Qed.

Lemma lex_digits_uint d acc rest :
  ends_value rest = true -> lex_digits (NilEmpty.string_of_uint d +:+ rest) acc = (Wire.uint_value d acc, rest).
Proof.
  intros Hr. revert acc. induction d; intros acc; cbn [NilEmpty.string_of_uint Wire.uint_value];
    rewrite ?str_app_cons, ?str_app_nil_l;
    [destruct rest as [|c r]; [done|]; cbn in Hr |- *; by destruct (is_digit c)|..];
    rewrite lex_digits_cons, IHd by done;
    match goal with |- context [digit_val ?c] =>
      let v := eval vm_compute in (digit_val c) in change (digit_val c) with v end;
    do 2 f_equal; lia.
Qed.


Lemma nzhead_not_D0 d l : Decimal.nzhead d <> Decimal.D0 l.
Proof. induction d; simpl; congruence. Qed.

Lemma to_uint_D0 m l : N.to_uint m = Decimal.D0 l -> l = Decimal.Nil.
Proof.
  intros E. pose proof (DecimalN.Unsigned.to_of (N.to_uint m)) as H.
  rewrite DecimalN.Unsigned.of_to, E in H. unfold Decimal.unorm in H. simpl in H.
  destruct (Decimal.nzhead l) eqn:En; try discriminate H.
  - by injection H.
  - by apply nzhead_not_D0 in En.
Qed.

Lemma number_end_value v rest : ends_value rest = true -> number_end (v, rest) = Some (v, rest).
Proof. destruct rest as [|c r]; [done|]. cbn. by destruct (is_digit c), (Ascii.eqb c "."), (Ascii.eqb c "e"), (Ascii.eqb c "E"). Qed.

Lemma lex_nat_nonzero c s :
  is_digit c && negb (Ascii.eqb c "0") = true -> lex_nat (String c s) = number_end (lex_digits s (digit_val c)).
Proof. destruct c as [[] [] [] [] [] [] [] []]; done. Qed.

Lemma uint_of_N m : Z.of_N m = Wire.uint_value (N.to_uint m) 0.
Proof. by rewrite <- Wire.of_uint_value, DecimalN.Unsigned.of_to. Qed.

(** The digits of [str(m)] are read back by [lex_nat]. *)
Lemma lex_nat_uint m rest :
  ends_value rest = true -> lex_nat (NilEmpty.string_of_uint (N.to_uint m) +:+ rest) = Some (Z.of_N m, rest).
Proof.
  intros Hr. rewrite uint_of_N. pose proof (to_uint_D0 m). pose proof (Wire.to_uint_nonnil m).
  destruct (N.to_uint m); try done; cbn [NilEmpty.string_of_uint Wire.uint_value]; rewrite str_app_cons;
    [assert (u = Decimal.Nil) as -> by auto; by apply number_end_value|..];
    rewrite lex_nat_nonzero, lex_digits_uint by done; by apply number_end_value.
Qed.

(** ** One step of the parsers on each kind of first character *)

Lemma parse_value_space n s : parse_value n (String " " s) = parse_value n s.
Proof. by destruct n. Qed.

Lemma parse_members_space n acc s : parse_members n acc (String " " s) = parse_members n acc s.
Proof. by destruct n. Qed.

Lemma parse_minus n s : parse_value (S n) (String "-" s) = '(v, r) ← lex_nat s; Some (PInt (- v)%Z, r).
Proof. done. Qed.

Lemma parse_digit n c s :
  is_digit c = true -> parse_value (S n) (String c s) = '(v, r) ← lex_nat (String c s); Some (PInt v, r).
Proof. destruct c as [[] [] [] [] [] [] [] []]; done. Qed.

Lemma parse_quote n s : parse_value (S n) (String dquote s) = '(w, r) ← lex_string s; Some (PStr w, r).
Proof. done. Qed.

Lemma parse_bracket n s :
  parse_value (S n) (String "[" s) =
    if starts_with "]" (skip_ws s) then Some (PList [], after (skip_ws s))
    else '(v, r) ← parse_value n s; parse_elems n [v] r.
Proof. done. Qed.

Lemma parse_brace n s :
  parse_value (S n) (String "{" s) =
    if starts_with "}" (skip_ws s) then Some (PDict [], after (skip_ws s)) else parse_members n [] s.
Proof. done. Qed.

Lemma parse_elems_comma n acc s :
  parse_elems (S n) acc (String "," s) = '(v, r) ← parse_value n s; parse_elems n (v :: acc) r.
Proof. done. Qed.

Lemma parse_members_quote n acc s :
  parse_members (S n) acc (String dquote s) =
    '(k, r1) ← lex_string s;
    if starts_with ":" (skip_ws r1) then
      '(v, r3) ← parse_value n (after (skip_ws r1));
      let acc' := dict_set acc k v in
      if starts_with "," (skip_ws r3) then parse_members n acc' (after (skip_ws r3))
      else if starts_with "}" (skip_ws r3) then Some (PDict acc', after (skip_ws r3))
      else None
    else None.
Proof. done. Qed.

(** A value starts with a character that is not a blank, [\]] or [}]. *)
Definition value_start (c : ascii) : bool := negb (is_ws c || Ascii.eqb c "]" || Ascii.eqb c "}").

Lemma digit_value_start c : is_digit c = true -> value_start c = true.
Proof. destruct c as [[] [] [] [] [] [] [] []]; done. Qed.

Lemma skip_ws_start c s : value_start c = true -> skip_ws (String c s) = String c s.
Proof. unfold value_start. simpl. by destruct (is_ws c). Qed.

Lemma uint_head m rest :
  exists c t, NilEmpty.string_of_uint (N.to_uint m) +:+ rest = String c t /\ is_digit c = true.
Proof. pose proof (Wire.to_uint_nonnil m). destruct (N.to_uint m); try done; by eexists _, _. Qed.

Lemma dumps_head v rest : exists c t, json_dumps v +:+ rest = String c t /\ value_start c = true.
Proof.
  destruct v as [|[]|z|s|l|d|t]; cbn [json_dumps]; try rewrite dump_str_app; try by eexists _, _.
  unfold str_of_Z. destruct (z <? 0)%Z; [by eexists _, _|].
  destruct (uint_head (Z.to_N z) rest) as (c & t & -> & Hc). exists c, t. auto using digit_value_start.
Qed.

Lemma dict_set_fresh (d : dict) k v : k ∉ d.*1 -> dict_set d k v = d ++ [(k, v)].
Proof.
  induction d as [|[k' v'] d IH]; intros Hk; [done|]. simpl.
  destruct (String.eqb_spec k k') as [->|]; [set_solver|]. rewrite IH; [done|set_solver].
Qed.

(** [json.loads] reads the text of [x] back, whatever follows it. *)
Definition reads_back (x : pyval) : Prop :=
  forall n rest, wire_safe x = true -> String.length (json_dumps x) < n -> ends_value rest = true ->
  parse_value n (json_dumps x +:+ rest) = Some (json_image x, rest).

Lemma ends_elems l rest : ends_value (sep_tail ", " l +:+ "]" +:+ rest) = true.
Proof. by destruct l. Qed.

Lemma ends_members l rest : ends_value (sep_tail ", " l +:+ "}" +:+ rest) = true.
Proof. by destruct l. Qed.

Lemma parse_elems_dumps l acc n rest :
  Forall reads_back l -> forallb wire_safe l = true ->
  String.length (sep_tail ", " (map json_dumps l)) < n ->
  parse_elems n acc (sep_tail ", " (map json_dumps l) +:+ "]" +:+ rest)
    = Some (PList (rev acc ++ map json_image l), rest).
Proof.
  revert acc n. induction l as [|x l IH]; intros acc [|n] Hl Hs Hn; simpl in Hn; try lia.
  - by rewrite app_nil_r.
  - inversion Hl as [|? ? Hx Hl']; subst. apply andb_true_iff in Hs as [Hsx Hs].
    cbn [map sep_tail]. rewrite !str_app_assoc, (str_app_cons ","), (str_app_cons " "), str_app_nil_l.
    rewrite !str_length_app in Hn. simpl in Hn.
    rewrite parse_elems_comma, parse_value_space, Hx by (rewrite ?ends_elems; auto with lia). simpl.
    rewrite IH by (auto with lia). cbn [rev]. by rewrite <- app_assoc.
Qed.

Definition member (m : string * pyval) : string := let '(k, x) := m in dump_str k +:+ ": " +:+ json_dumps x.

Lemma nodup_fresh (acc : dict) k ks : NoDup (acc.*1 ++ k :: ks) -> k ∉ acc.*1.
Proof. intros (_ & Hd & _)%NoDup_app Hk. apply (Hd k Hk). set_solver. Qed.

Lemma nodup_shift (acc : dict) k v ks : NoDup (acc.*1 ++ k :: ks) -> NoDup ((acc ++ [(k, v)]).*1 ++ ks).
Proof. by rewrite fmap_app, <- app_assoc. Qed.

#[local] Arguments member : simpl never.

(** One member [k: x] and what follows it. *)
Lemma members_step n acc k x T :
  wire_str k = true -> wire_safe x = true -> reads_back x ->
  String.length (json_dumps x) < n -> ends_value T = true ->
  parse_members (S n) acc (member (k, x) +:+ T) =
    let acc' := dict_set acc k (json_image x) in
    if starts_with "," (skip_ws T) then parse_members n acc' (after (skip_ws T))
    else if starts_with "}" (skip_ws T) then Some (PDict acc', after (skip_ws T)) else None.
Proof.
  intros Hk Hw Hx Hn HT. unfold member.
  rewrite !str_app_assoc, dump_str_app, parse_members_quote, lex_escape by done.
  rewrite (str_app_cons ":"), (str_app_cons " "), str_app_nil_l. simpl.
  by rewrite parse_value_space, Hx.
Qed.

Lemma member_length k x : String.length (json_dumps x) < String.length (member (k, x)).
Proof. unfold member. rewrite !str_length_app. simpl. lia. Qed.

Lemma parse_members_dumps d k x acc n rest :
  Forall (fun m => wire_str m.1 = true /\ wire_safe m.2 = true /\ reads_back m.2) ((k, x) :: d) ->
  NoDup (acc.*1 ++ k :: d.*1) ->
  String.length (member (k, x) +:+ sep_tail ", " (map member d)) < n ->
  parse_members n acc (member (k, x) +:+ sep_tail ", " (map member d) +:+ "}" +:+ rest)
    = Some (PDict (acc ++ (k, json_image x) :: map (fun '(k, x) => (k, json_image x)) d), rest).
Proof.
  revert k x acc n. induction d as [|[k2 x2] d IH]; intros k x acc [|n] Hd Hk Hn;
    try (simpl in Hn; lia);
    inversion Hd as [|? ? (Hwk & Hwx & Hx) Hd']; subst; cbn [fst snd] in Hwk, Hwx, Hx;
    pose proof (member_length k x); rewrite str_length_app in Hn;
    cbn [map sep_tail] in Hn |- *.
  - rewrite str_app_nil_l, members_step by (done || lia). simpl.
    by rewrite dict_set_fresh by (eapply nodup_fresh; eauto).
  - rewrite members_step by (rewrite ?str_app_assoc; done || lia).
    rewrite !str_app_assoc, (str_app_cons ","), (str_app_cons " "), str_app_nil_l. simpl.
    rewrite dict_set_fresh by (eapply nodup_fresh; eauto).
    rewrite parse_members_space, IH; [by rewrite <- app_assoc|done|by apply nodup_shift|].
    rewrite !str_length_app in Hn. rewrite !str_length_app. cbn [String.length] in Hn. lia.
Qed.

Lemma uint_wire d : wire_str (NilEmpty.string_of_uint d) = true.
Proof. induction d; simpl; done. Qed.

Lemma str_of_Z_wire z : wire_str (str_of_Z z) = true.
Proof. unfold str_of_Z. case_match; simpl; apply uint_wire. Qed.

Lemma pad_wire w z : wire_str (pad w z) = true.
Proof.
  unfold wire_str, pad. rewrite str_forall_app. apply andb_true_iff. split; [|apply str_of_Z_wire].
  apply str_forall_concat; [done|]. apply List.Forall_forall. intros x ->%repeat_spec. done.
Qed.

Lemma datetime_wire t : wire_str (datetime_format "T" t) = true.
Proof.
  unfold datetime_format. destruct (civil_of_days _) as [[y m] d].
  apply str_forall_concat; [done|]. repeat constructor; apply pad_wire.
Qed.

Lemma start_not_close c t :
  value_start c = true -> starts_with "]" (String c t) = false /\ starts_with "}" (String c t) = false.
Proof. unfold value_start, starts_with. by destruct (is_ws c), (Ascii.eqb c "]"), (Ascii.eqb c "}"). Qed.

Lemma member_head k x R : exists t, member (k, x) +:+ R = String dquote t.
Proof. unfold member. rewrite !str_app_assoc, dump_str_app. by eexists. Qed.

Lemma members_safe (d : dict) :
  forallb (fun '(k, x) => wire_str k && wire_safe x) d = true -> Forall (fun m => reads_back m.2) d ->
  Forall (fun m => wire_str m.1 = true /\ wire_safe m.2 = true /\ reads_back m.2) d.
Proof.
  induction d as [|[k x] d IH]; intros Hf Hr; [done|]. simpl in Hf.
  apply andb_true_iff in Hf as [[? ?]%andb_true_iff ?]. inversion Hr; subst. constructor; auto.
Qed.

(** Every value the serialiser writes is read back as its image. *)
Lemma parse_dumps v : reads_back v.
Proof.
  revert v. fix IH 1. intros v [|n] rest Hv Hn Hr; [lia|].
  destruct v as [|[]|z|s|l|d|t]; cbn [json_dumps] in Hn |- *; try done.
  - unfold str_of_Z. destruct (Z.ltb_spec z 0).
    + rewrite str_app_cons, parse_minus, lex_nat_uint by done. simpl. do 3 f_equal. lia.
    + destruct (uint_head (Z.to_N z) rest) as (c & t & E & Hc).
      rewrite E, parse_digit, <- E, lex_nat_uint by done. simpl. do 3 f_equal. lia.
  - by rewrite dump_str_app, parse_quote, lex_escape.
  - assert (Hl : Forall reads_back l) by (clear -IH; induction l; constructor; auto).
    destruct l as [|x l]; [done|]. apply andb_true_iff in Hv as [Hx Hv]. inversion Hl; subst.
    cbn [map] in Hn |- *. rewrite concat_cons in Hn |- *. rewrite !str_length_app in Hn. cbn [String.length] in Hn.
    rewrite !str_app_assoc, (str_app_cons "["), str_app_nil_l, parse_bracket.
    destruct (dumps_head x (sep_tail ", " (map json_dumps l) +:+ "]" +:+ rest)) as (c & t & E & Hc).
    rewrite E, skip_ws_start, (proj1 (start_not_close c t Hc)), <- E by done.
    rewrite IH by (rewrite ?ends_elems; done || lia). simpl.
    by rewrite parse_elems_dumps by (done || lia).
  - assert (Hd : Forall (fun m => reads_back m.2) d) by (clear -IH; induction d; constructor; auto).
    destruct d as [|[k x] d]; [done|]. apply andb_true_iff in Hv as [Hnd Hv]. apply bool_decide_eq_true in Hnd.
    change (map (fun '(k, x) => dump_str k +:+ ": " +:+ json_dumps x) ?l) with (map member l) in Hn |- *.
    cbn [map] in Hn |- *. rewrite concat_cons in Hn |- *. rewrite !str_length_app in Hn. cbn [String.length] in Hn.
    rewrite !str_app_assoc, (str_app_cons "{"), str_app_nil_l, parse_brace.
    destruct (member_head k x (sep_tail ", " (map member d) +:+ "}" +:+ rest)) as (t & E).
    rewrite E. simpl. rewrite <- E, parse_members_dumps; [done| |done|].
    + by apply members_safe.
    + rewrite str_length_app. lia.
  - rewrite dump_str_app, parse_quote, lex_escape; [done|apply datetime_wire].
Qed.

(** [d[k] = v] keeps a dict the serialiser round-trips. *)
Lemma wire_safe_set d k v :
  wire_safe (PDict d) = true -> wire_str k = true -> wire_safe v = true -> wire_safe (PDict (dict_set d k v)) = true.
Proof.
  cbn [wire_safe]. intros [Hn Hf]%andb_true_iff Hk Hv. apply andb_true_iff. split.
  - apply bool_decide_eq_true in Hn. apply bool_decide_eq_true. by apply dict_set_nodup.
  - apply forallb_forall, List.Forall_forall. apply dict_set_Forall.
    + apply List.Forall_forall. intros [k1 x1] H1. exact (proj1 (forallb_forall _ _) Hf _ H1).
    + by rewrite Hk, Hv.
Qed.

(** [json.loads] reads back what [json.dumps] wrote, followed by blanks
    (a reply body ends with ["\r\n"]): the same value, with timestamps
    turned into their ISO 8601 strings. *)
Lemma json_loads_dumps v rest :
  wire_safe v = true -> ends_value rest = true -> skip_ws rest = EmptyString ->
  json_loads (json_dumps v +:+ rest) = Ok (json_image v).
Proof.
  intros Hv Hr Hw. unfold json_loads.
  rewrite (parse_dumps v (S (String.length (json_dumps v +:+ rest))) rest Hv) by (rewrite ?str_length_app; lia || done).
  by rewrite Hw.
Qed.

End JsonFacts.
