(* ===== verification/Schema.v ===== *)
(** * Request body validation: the schema documents and [jsonschema.validate]

    At start-up (lines 620-625 of [registry.py]) the module reads three
    JSON schema documents with [json.load]; [validate_json] (lines 200-217)
    decodes a request body and calls [jsonschema.validate] on it with one of
    them.  The documents are files outside the repository: [domain_schema],
    [patch_domain_schema] and [entity_schema] are written from the bodies
    the spec describes (section 6), and [load_schemas] is the start-up code
    that reads them.  [validate] is [jsonschema.validate] for the keywords
    those documents use ([type], [properties], [required], [items],
    [enum]; other keywords are ignored, as jsonschema ignores unknown
    ones): [iter_errors] lists the errors in the order jsonschema's
    validator yields them, with the depth of their path, and [best_match]
    picks the one [jsonschema.exceptions.best_match] raises (jsonschema
    4.x: the shallowest, then one whose instance does not have its
    schema's type, then the first).  The exception carries the error's
    [message]; [str(e)], which the handlers format, adds jsonschema's dump of
    the schema and the instance, which is not modelled.

    The theorems say which bodies each document accepts: exactly the
    shapes of the spec ([domain_shape], [patch_shape], [entity_shape]). *)

From S2P Require Import Prelude PyBase Json.
Import Json.

Module Schema.

(** ** [jsonschema]'s keywords *)

(** The default type checker: [bool] is not an [integer]. *)
Definition is_type (t : string) (v : pyval) : bool :=
  match v with
  | PDict _ => String.eqb t "object"
  | PList _ => String.eqb t "array"
  | PStr _ => String.eqb t "string"
  | PNone => String.eqb t "null"
  | PBool _ => String.eqb t "boolean"
  | PInt _ => String.eqb t "integer" || String.eqb t "number"
  | PTime _ => false
  end.

(** [ensure_list(types)]: one type name, or a list of them. *)
Definition type_names (arg : pyval) : list string :=
  match arg with
  | PStr t => [t]
  | PList ts => flat_map (fun x => match x with PStr t => [t] | _ => [] end) ts
  | _ => []
  end.

(** [ValidationError._matches_type]: the instance has the type its schema
    names ([False] when the schema names none). *)
Definition matches_type (kws : dict) (inst : pyval) : bool :=
  match dict_get kws "type" with
  | Some arg => existsb (fun t => is_type t inst) (type_names arg)
  | None => false
  end.

(** jsonschema's [equal] on the scalars an [enum] holds: a string equals
    only a string, a boolean is not a number. *)
Definition json_equal (a b : pyval) : bool :=
  match a, b with
  | PStr x, PStr y => String.eqb x y
  | PStr _, _ | _, PStr _ => false
  | PBool _, PInt _ | PInt _, PBool _ => false
  | _, _ => py_eq a b
  end.

Definition type_error (arg inst : pyval) : list string :=
  let ts := type_names arg in
  if existsb (fun t => is_type t inst) ts then []
  else [py_repr inst +:+ " is not of type " +:+ String.concat ", " (map str_repr ts)].

Definition required_errors (arg inst : pyval) : list string :=
  match arg, inst with
  | PList ps, PDict d =>
      flat_map (fun p => match p with
                         | PStr k => match dict_get d k with
                                     | Some _ => []
                                     | None => [str_repr k +:+ " is a required property"]
                                     end
                         | _ => []
                         end) ps
  | _, _ => []
  end.

Definition enum_error (arg inst : pyval) : list string :=
  match arg with
  | PList es =>
      if existsb (fun e => json_equal e inst) es then []
      else [py_repr inst +:+ " is not one of " +:+ py_repr arg]
  | _ => []
  end.

(** An error: the length of its path in the instance, its message, and
    whether its instance lacks its schema's type. *)
Record error := mkError { err_depth : nat; err_message : string; err_mismatch : bool }.

Definition descend (e : error) : error := mkError (S (err_depth e)) (err_message e) (err_mismatch e).

(** [validator.iter_errors(instance)]: the keywords of the schema in the
    document's order, [properties] and [items] descending into the
    members and elements the instance has. *)
Fixpoint iter_errors (schema inst : pyval) : list error :=
  match schema with
  | PDict kws =>
      let here msg := mkError 0 msg (negb (matches_type kws inst)) in
      flat_map (fun '(k, arg) =>
        if String.eqb k "type" then map here (type_error arg inst)
        else if String.eqb k "required" then map here (required_errors arg inst)
        else if String.eqb k "enum" then map here (enum_error arg inst)
        else if String.eqb k "properties" then
          match arg, inst with
          | PDict props, PDict d =>
              flat_map (fun '(p, sub) =>
                match dict_get d p with
                | Some x => map descend (iter_errors sub x)
                | None => []
                end) props
          | _, _ => []
          end
        else if String.eqb k "items" then
          match inst with
          | PList xs => flat_map (fun x => map descend (iter_errors arg x)) xs
          | _ => []
          end
        else []) kws
  | PBool false => [mkError 0 ("False schema does not allow " +:+ py_repr inst) true]
  | _ => []
  end.

(** [relevance]: a shorter path, then an instance that lacks its type. *)
Definition more_relevant (b e : error) : bool :=
  (err_depth b <? err_depth e) ||
  ((err_depth b =? err_depth e) && err_mismatch b && negb (err_mismatch e)).

(** [best_match]: [max] by relevance keeps the first of the most relevant. *)
Fixpoint best_match (es : list error) : option error :=
  match es with
  | [] => None
  | e :: es' =>
      match best_match es' with
      | Some b => if more_relevant b e then Some b else Some e
      | None => Some e
      end
  end.

(** [jsonschema.validate(instance=inst, schema=schema)] (lines 205, 207,
    212). *)
Definition validate (schema inst : pyval) : outcome exn unit :=
  match best_match (iter_errors schema inst) with
  | None => Ok tt
  | Some e => Raise (ValidationError (err_message e))
  end.

(** ** The documents (files outside [src/]) *)

Definition ty (t : string) : pyval := PDict [("type", PStr t)].

(** [domain-schema.json]: an object with the string members [holder],
    [tech] and [admin], all required. *)
Definition domain_schema : pyval :=
  PDict [("type", PStr "object");
         ("properties", PDict [("holder", ty "string"); ("tech", ty "string"); ("admin", ty "string")]);
         ("required", PList [PStr "holder"; PStr "tech"; PStr "admin"])].

(** [patch-domain-schema.json]: [{"change": {"tech"?: str, "admin"?: str}}]. *)
Definition patch_domain_schema : pyval :=
  PDict [("type", PStr "object");
         ("properties", PDict [("change", PDict [("type", PStr "object");
                                                 ("properties", PDict [("tech", ty "string"); ("admin", ty "string")])])]);
         ("required", PList [PStr "change"])].

(** [entity-schema.json]:
    [{"name": {"components": [{"kind": "given"|"surname", "value": str}, ..]}}]. *)
Definition component_schema : pyval :=
  PDict [("type", PStr "object");
         ("properties", PDict [("kind", PDict [("enum", PList [PStr "given"; PStr "surname"])]);
                               ("value", ty "string")]);
         ("required", PList [PStr "kind"; PStr "value"])].

Definition entity_schema : pyval :=
  PDict [("type", PStr "object");
         ("properties", PDict [("name", PDict [("type", PStr "object");
            ("properties", PDict [("components", PDict [("type", PStr "array"); ("items", component_schema)])]);
            ("required", PList [PStr "components"])])]);
         ("required", PList [PStr "name"])].

(** Lines 620-625: [json.load] of each file, in this order; a file that is
    not JSON stops the import with [JSONDecodeError]. *)
Definition load_schemas (domain_file patch_file entity_file : string) : outcome exn (pyval * pyval * pyval) :=
  d ← json_loads domain_file;
  p ← json_loads patch_file;
  e ← json_loads entity_file;
  mret (d, p, e).

(** [validate_json(input, klass, method)] (lines 200-217).  The class
    [NoValidationForThisClass] raised on line 216 is not defined anywhere:
    that line raises [NameError]. *)
Definition validate_json (input klass method : string) : outcome exn pyval :=
  ojson ← json_loads input;
  if String.eqb klass "domain" then
    if String.eqb method "put" then validate domain_schema ojson;; Ok ojson
    else if String.eqb method "patch" then validate patch_domain_schema ojson;; Ok ojson
    else Raise (NoValidationForThisMethod method)
  else if String.eqb klass "contact" then
    if String.eqb method "put" then validate entity_schema ojson;; Ok ojson
    else Raise (NoValidationForThisMethod method)
  else Raise (NameError "NoValidationForThisClass").

(** ** Which bodies pass

    The spec's body shapes (section 6), as boolean predicates: a document
    accepts a body exactly when it has the shape. *)

(** A member that is a string; a member that is absent or a string. *)
Definition is_str (v : option pyval) : bool := match v with Some (PStr _) => true | _ => false end.
Definition opt_str (v : option pyval) : bool := match v with None | Some (PStr _) => true | _ => false end.

(** [{holder, tech, admin}], all strings. *)
Definition domain_shape (v : pyval) : bool :=
  match v with
  | PDict d => is_str (dict_get d "holder") && is_str (dict_get d "tech") && is_str (dict_get d "admin")
  | _ => false
  end.
Lemma domain_errors v : iter_errors domain_schema v = [] <-> domain_shape v = true.
Proof.
  destruct v as [| | | | |d|]; try (simpl; split; discriminate).
  cbn. destruct (dict_get d "holder") as [[]|], (dict_get d "tech") as [[]|], (dict_get d "admin") as [[]|];
  simpl; split; congruence.
Qed.
(** [{change: {tech?, admin?}}]. *)
Definition patch_shape (v : pyval) : bool :=
  match v with
  | PDict d =>
      match dict_get d "change" with
      | Some (PDict ch) => opt_str (dict_get ch "tech") && opt_str (dict_get ch "admin")
      | _ => false
      end
  | _ => false
  end.
Lemma patch_errors v : iter_errors patch_domain_schema v = [] <-> patch_shape v = true.
Proof.
  destruct v as [| | | | |d|]; try (simpl; split; discriminate).
  cbn. destruct (dict_get d "change") as [[| | | | |ch|]|]; try (simpl; split; congruence).
  cbn. destruct (dict_get ch "tech") as [[]|], (dict_get ch "admin") as [[]|]; simpl; split; congruence.
Qed.
(** A name component: [kind] is [given] or [surname], [value] a string. *)
Definition component_ok (v : pyval) : bool :=
  match v with
  | PDict d =>
      match dict_get d "kind", dict_get d "value" with
      | Some (PStr k), Some (PStr _) => String.eqb k "given" || String.eqb k "surname"
      | _, _ => false
      end
  | _ => false
  end.
Lemma enum_kind k :
  enum_error (PList [PStr "given"; PStr "surname"]) (PStr k) =
    if String.eqb k "given" || String.eqb k "surname" then []
    else [py_repr (PStr k) +:+ " is not one of " +:+ py_repr (PList [PStr "given"; PStr "surname"])].
Proof. unfold enum_error. cbn -[String.eqb]. by rewrite orb_false_r, (String.eqb_sym "given"), (String.eqb_sym "surname"). Qed.

Lemma component_errors x : iter_errors component_schema x = [] <-> component_ok x = true.
Proof.
  destruct x as [| | | | |d|]; try (simpl; split; discriminate).
  cbn -[enum_error]. destruct (dict_get d "kind") as [[]|], (dict_get d "value") as [[]|];
    rewrite ?enum_kind; unfold enum_error; cbn -[String.eqb];
    try destruct (_ || _); simpl; split; congruence.
Qed.
Lemma items_errors cs :
  flat_map (fun x => map descend (iter_errors component_schema x)) cs = [] <-> forallb component_ok cs = true.
Proof.
  rewrite flat_map_nil, forallb_forall, List.Forall_forall. split.
  - intros H x Hx. apply component_errors. by eapply map_eq_nil, H.
  - intros H x Hx. by rewrite (proj2 (component_errors x) (H x Hx)).
Qed.
(** [{name: {components: [component, ...]}}]. *)
Definition entity_shape (v : pyval) : bool :=
  match v with
  | PDict d =>
      match dict_get d "name" with
      | Some (PDict n) =>
          match dict_get n "components" with
          | Some (PList cs) => forallb component_ok cs
          | _ => false
          end
      | _ => false
      end
  | _ => false
  end.
Lemma entity_errors v : iter_errors entity_schema v = [] <-> entity_shape v = true.
Proof.
  destruct v as [| | | | |d|]; try (simpl; split; discriminate).
  cbn -[component_schema]. destruct (dict_get d "name") as [[| | | | |n|]|]; try (simpl; split; congruence).
  cbn -[component_schema]. destruct (dict_get n "components") as [[| | | |cs| |]|]; try (simpl; split; congruence).
  cbn -[component_schema]. rewrite !app_nil_r, !map_nil_iff. apply items_errors.
Qed.


Lemma best_match_none es : best_match es = None <-> es = [].
Proof. destruct es as [|e es]; simpl; [done|]. split; [|done]. by destruct (best_match es); [case_match|]. Qed.

(** [jsonschema.validate] returns when no error is found and otherwise
    raises [ValidationError]. *)
Lemma validate_ok s v : validate s v = Ok tt <-> iter_errors s v = [].
Proof.
  unfold validate. rewrite <- best_match_none.
  destruct (best_match (iter_errors s v)); split; done.
Qed.

Lemma validate_cases s v : validate s v = Ok tt \/ exists m, validate s v = Raise (ValidationError m).
Proof. unfold validate. destruct (best_match _); eauto. Qed.

Lemma getitem_dict v k x : getitem v k = Ok x -> exists d, v = PDict d /\ dict_get d k = Some x.
Proof.
  destruct v; simpl; try discriminate.
  destruct (dict_get d k) eqn:E; intros H; inversion H; subst; eauto.
Qed.

Lemma validate_step s v : validate s v = Ok tt -> (validate s v;; Ok v) = Ok v.
Proof. by intros ->. Qed.

(** A body that decodes to a dict with string [holder], [tech] and [admin]
    passes the domain-creation schema. *)
Lemma validate_put_ok input data h t a :
  json_loads input = Ok data ->
  getitem data "holder" = Ok (PStr h) -> getitem data "tech" = Ok (PStr t) ->
  getitem data "admin" = Ok (PStr a) ->
  validate_json input "domain" "put" = Ok data.
Proof.
  intros Hj Hh Ht Ha. unfold validate_json. rewrite Hj. simpl.
  destruct (getitem_dict _ _ _ Hh) as (d & -> & Eh).
  destruct (getitem_dict _ _ _ Ht) as (d' & [= <-] & Et).
  destruct (getitem_dict _ _ _ Ha) as (d'' & [= <-] & Ea).
  apply validate_step, validate_ok, domain_errors. simpl. by rewrite Eh, Et, Ea.
Qed.

(** A body [{"change": ch}] whose [tech] and [admin], when present, are
    strings passes the patch schema. *)
Lemma validate_patch_ok input data ch :
  json_loads input = Ok data -> getitem data "change" = Ok (PDict ch) ->
  opt_str (dict_get ch "tech") && opt_str (dict_get ch "admin") = true ->
  validate_json input "domain" "patch" = Ok data.
Proof.
  intros Hj Hc Ho. unfold validate_json. rewrite Hj. simpl.
  destruct (getitem_dict _ _ _ Hc) as (d & -> & Ec).
  apply validate_step, validate_ok, patch_errors. simpl. by rewrite Ec.
Qed.

Lemma validate_then s v : (validate s v;; Ok v) = Ok v <-> validate s v = Ok tt.
Proof. by destruct (validate s v) as [[]|]. Qed.

(** What [validate_json] accepts: a body that decodes is returned as it
    is exactly when it has the shape the spec gives for its class and
    method; otherwise [ValidationError] is raised. *)
Lemma validate_json_shapes input v :
  json_loads input = Ok v ->
  (validate_json input "domain" "put" = Ok v <-> domain_shape v = true) /\
  (validate_json input "domain" "patch" = Ok v <-> patch_shape v = true) /\
  (validate_json input "contact" "put" = Ok v <-> entity_shape v = true).
Proof.
  intros Hj. unfold validate_json. rewrite Hj. cbn -[validate].
  by rewrite !validate_then, !validate_ok, domain_errors, patch_errors, entity_errors.
Qed.

(** ** Start-up

    Files holding the documents (in any layout; here as [json.dumps]
    writes them) load to the documents: the globals [validate_json] uses. *)
Lemma schemas_load :
  load_schemas (json_dumps domain_schema) (json_dumps patch_domain_schema) (json_dumps entity_schema)
    = Ok (domain_schema, patch_domain_schema, entity_schema).
Proof. vm_compute. reflexivity. Qed.

End Schema.
