(* ===== verification/Store.v ===== *)
(** * The PostgreSQL store behind the registry's global connection

    [registry.py] keeps one module-level [connection] (line 613, opened with
    [autocommit=False] at READ COMMITTED) and one [cursor] (line 616) that
    every function uses.  The state of this file is that connection:
    - [committed]: the tables as the last [connection.commit()] left them;
    - [work]: the tables as the open transaction sees them (every SELECT
      reads it, every INSERT/UPDATE/DELETE writes it);
    - the [serial] sequences of [Contacts.handle] and [Transfers.id], which
      PostgreSQL never rolls back;
    - [clock], the value [now()] gives to the [created] columns;
    - [serialization_fault]: whether the server aborts the next INSERT with
      a serialization failure (the environment's choice; at the READ
      COMMITTED level the code configures, PostgreSQL never does);
    - [aborted]: a statement of the open transaction has failed.  PostgreSQL
      then refuses every statement with [InFailedSqlTransaction] until the
      transaction ends; [connection.rollback()] ends it, and so does
      [connection.commit()], which the server answers with a ROLLBACK.
    Each SQL statement of the code is one operation below, named after the
    table and the statement; writes return [cursor.rowcount]. *)

From S2P Require Import Prelude PyBase.

Module Store.

(** ** Tables *)

(** A row of [Domains], keyed by [name]. *)
Record domain_row := mkDomain {
  holder : string;
  tech : string;
  admin : string;
  registrar : Z;
  created : Z
}.

(** A row of [Contacts], keyed by [handle]. *)
Record contact_row := mkContact {
  c_name : string;
  c_created : Z
}.

(** A row of [Transfers]. *)
Record transfer_row := mkTransfer {
  t_id : Z;
  t_domain : string;
  t_winner : Z;
  t_created : Z;
  t_completed : bool
}.

Record db := mkDb {
  domains : gmap string domain_row;
  contacts : gmap Z contact_row;
  registrars : gmap Z string;        (** handle -> password *)
  transfers : list transfer_row      (** in insertion order *)
}.

Record conn := mkConn {
  committed : db;
  work : db;
  contact_seq : Z;
  transfer_seq : Z;
  clock : Z;
  serialization_fault : bool;
  aborted : bool
}.

Definition set_work (c : conn) (d : db) : conn :=
  mkConn (committed c) d (contact_seq c) (transfer_seq c) (clock c)
    (serialization_fault c) (aborted c).

Definition set_domains (d : db) m : db := mkDb m (contacts d) (registrars d) (transfers d).
Definition set_contacts (d : db) m : db := mkDb (domains d) m (registrars d) (transfers d).
Definition set_transfers (d : db) l : db := mkDb (domains d) (contacts d) (registrars d) l.

(** The connection once a statement has failed. *)
Definition abort (c : conn) : conn :=
  mkConn (committed c) (work c) (contact_seq c) (transfer_seq c) (clock c)
    (serialization_fault c) true.

(** [nextval] of a sequence. *)
Definition next_contact (c : conn) : conn :=
  mkConn (committed c) (work c) (contact_seq c + 1) (transfer_seq c) (clock c)
    (serialization_fault c) (aborted c).
Definition next_transfer (c : conn) : conn :=
  mkConn (committed c) (work c) (contact_seq c) (transfer_seq c + 1) (clock c)
    (serialization_fault c) (aborted c).

(** A pure Python expression evaluated against the connection's state. *)
Definition eval {A} (o : outcome exn A) : Py conn A := lift o.

(** A statement sent to the server: refused once the transaction is
    aborted. *)
Definition stmt {A} (m : Py conn A) : Py conn A :=
  fun c => if aborted c then (Raise InFailedSqlTransaction, c) else m c.

(** An error the server reports for a statement: it aborts the transaction. *)
Definition fail {A} (e : exn) : Py conn A := fun c => (Raise e, abort c).

(** A SELECT. *)
Definition select {A} (f : conn -> A) : Py conn A := stmt (gets f).

(** A write to the open transaction. *)
Definition write {A} (f : conn -> A * db) : Py conn A :=
  stmt (fun c => let '(a, d) := f c in (Ok a, set_work c d)).

(** ** Transactions *)

Definition rollback_conn (c : conn) : conn :=
  mkConn (committed c) (committed c) (contact_seq c) (transfer_seq c) (clock c)
    (serialization_fault c) false.

Definition commit_conn (c : conn) : conn :=
  if aborted c then rollback_conn c
  else mkConn (work c) (work c) (contact_seq c) (transfer_seq c) (clock c)
         (serialization_fault c) false.

Definition commit : Py conn unit := modify commit_conn.

Definition rollback : Py conn unit := modify rollback_conn.

(** No uncommitted change is pending on the connection, and its
    transaction is usable. *)
Definition clean (c : conn) : Prop := work c = committed c /\ aborted c = false.

(** ** Domains *)

(** [SELECT ... FROM domains WHERE name = %(domain)s], [fetchone()]. *)
Definition domain_select (name : string) : Py conn (option domain_row) :=
  select (fun c => domains (work c) !! name).

(** [SELECT count(name) FROM domains]. *)
Definition domain_total (c : conn) : Z := Z.of_nat (size (domains (work c))).

Definition domain_count : Py conn Z := select domain_total.

(** [SELECT name FROM domains], [fetchall()]. *)
Definition domain_names : Py conn (list string) :=
  select (fun c => (map_to_list (domains (work c))).*1).

(** [INSERT INTO domains (name, holder, tech, admin, registrar) VALUES ...];
    [created] takes its default [now()]; [name] is the primary key. *)
Definition domain_insert (name h t a : string) (r : Z) : Py conn unit :=
  stmt (fun c =>
    if serialization_fault c then fail SerializationFailure c
    else match domains (work c) !! name with
         | Some _ => fail UniqueViolation c
         | None =>
             (Ok tt, set_work c (set_domains (work c)
                       (<[name := mkDomain h t a r (clock c)]> (domains (work c)))))
         end).

(** Binding a Python value to a [text] column: a [str] as itself, an
    [int] as its decimal text; anything else the server refuses. *)
Definition text_value (v : pyval) : outcome exn string :=
  match v with
  | PStr s => Ok s
  | PInt z => Ok (str_of_Z z)
  | _ => Raise DatatypeMismatch
  end.

Definition text_param (v : pyval) : Py conn string :=
  stmt (match text_value v with Ok s => mret s | Raise e => fail e end).

(** [UPDATE Domains SET ... WHERE name = %(domain)s]. *)
Definition domain_update (name : string) (f : domain_row -> domain_row) : Py conn Z :=
  write (fun c => match domains (work c) !! name with
                  | Some row => (1%Z, set_domains (work c) (<[name := f row]> (domains (work c))))
                  | None => (0%Z, work c)
                  end).

Definition with_tech (v : string) (r : domain_row) : domain_row :=
  mkDomain (holder r) v (admin r) (registrar r) (created r).
Definition with_admin (v : string) (r : domain_row) : domain_row :=
  mkDomain (holder r) (tech r) v (registrar r) (created r).
Definition with_registrar (v : Z) (r : domain_row) : domain_row :=
  mkDomain (holder r) (tech r) (admin r) v (created r).

(** [DELETE FROM domains WHERE name = %(domain)s]. *)
Definition domain_delete (name : string) : Py conn Z :=
  write (fun c => match domains (work c) !! name with
                  | Some _ => (1%Z, set_domains (work c) (delete name (domains (work c))))
                  | None => (0%Z, work c)
                  end).

(** ** Contacts *)

(** The [int4] input function PostgreSQL applies to a quoted parameter
    compared with the integer column [handle]: optional blanks, an optional
    sign, decimal digits, optional blanks; a value beyond 32 bits is out of
    range. *)
Definition int4_min : Z := (- 2147483648)%Z.
Definition int4_max : Z := 2147483647%Z.

Definition c_space (c : ascii) : bool :=
  let n := nat_of_ascii c in (n =? 32) || ((9 <=? n) && (n <=? 13)).

Fixpoint drop_spaces (s : string) : string :=
  match s with
  | String c s' => if c_space c then drop_spaces s' else s
  | EmptyString => EmptyString
  end.

(** Value of the leading digits of [s] (accumulated in [acc]), and the rest. *)
Fixpoint take_digits (s : string) (acc : Z) (seen : bool) : option (Z * string) :=
  match s with
  | String c s' =>
      let n := nat_of_ascii c in
      if (48 <=? n) && (n <=? 57)
      then take_digits s' (10 * acc + Z.of_nat (n - 48))%Z true
      else if seen then Some (acc, s) else None
  | EmptyString => if seen then Some (acc, EmptyString) else None
  end.

Definition pg_int4 (s : string) : outcome exn Z :=
  let '(sign, body) :=
    match drop_spaces s with
    | String "-" r => ((-1)%Z, r)
    | String "+" r => (1%Z, r)
    | r => (1%Z, r)
    end in
  match take_digits body 0 false with
  | Some (v, rest) =>
      if String.eqb (drop_spaces rest) EmptyString then
        if (int4_min <=? sign * v)%Z && (sign * v <=? int4_max)%Z then Ok (sign * v)%Z
        else Raise NumericValueOutOfRange
      else Raise InvalidTextRepresentation
  | None => Raise InvalidTextRepresentation
  end.

(** Binding the path's [str] as [%(contact)s] in [handle = %(contact)s]. *)
Definition handle_param (s : string) : Py conn Z :=
  stmt (match pg_int4 s with Ok z => mret z | Raise e => fail e end).

Definition contact_select (h : Z) : Py conn (option contact_row) :=
  select (fun c => contacts (work c) !! h).

Definition contact_total (c : conn) : Z := Z.of_nat (size (contacts (work c))).

Definition contact_count : Py conn Z := select contact_total.

(** [INSERT INTO contacts (name) VALUES (%(name)s)]: [handle] takes
    [nextval] of its sequence (consumed even if the INSERT then fails),
    [created] takes [now()]. *)
Definition contact_insert (name : string) : Py conn unit :=
  stmt (fun c =>
    let h := contact_seq c in
    let c1 := next_contact c in
    if serialization_fault c then fail SerializationFailure c1
    else match contacts (work c) !! h with
         | Some _ => fail UniqueViolation c1
         | None =>
             (Ok tt, set_work c1 (set_contacts (work c)
                       (<[h := mkContact name (clock c)]> (contacts (work c)))))
         end).

Definition contact_delete (h : Z) : Py conn Z :=
  write (fun c => match contacts (work c) !! h with
                  | Some _ => (1%Z, set_contacts (work c) (delete h (contacts (work c))))
                  | None => (0%Z, work c)
                  end).

(** ** Registrars *)

(** [SELECT password FROM Registrars WHERE handle = %(handle)s]; a [None]
    handle is bound as [NULL], which no row equals. *)
Definition registrar_password (u : option Z) : Py conn (option string) :=
  select (fun c => match u with Some h => registrars (work c) !! h | None => None end).

(** ** Transfers *)

Definition pending_for (d : string) (t : transfer_row) : bool :=
  negb (t_completed t) && String.eqb (t_domain t) d.

(** [SELECT ... FROM Transfers WHERE NOT completed and domain = %(domain)s],
    [fetchone()]: the first such row. *)
Definition transfer_pending (d : string) : Py conn (option transfer_row) :=
  select (fun c => List.find (pending_for d) (transfers (work c))).

(** [INSERT INTO Transfers (domain, winner, completed) VALUES (.., .., false)]. *)
Definition transfer_insert (d : string) (winner : Z) : Py conn unit :=
  stmt (fun c =>
    let row := mkTransfer (transfer_seq c) d winner (clock c) false in
    let c1 := next_transfer c in
    if serialization_fault c then fail SerializationFailure c1
    else (Ok tt, set_work c1 (set_transfers (work c) (transfers (work c) ++ [row])))).

(** [DELETE FROM Transfers WHERE NOT completed and domain = %(domain)s]. *)
Definition transfer_delete_pending (d : string) : Py conn Z :=
  write (fun c =>
    let l := transfers (work c) in
    (Z.of_nat (length (List.filter (pending_for d) l)),
     set_transfers (work c) (List.filter (fun t => negb (pending_for d t)) l))).

Definition complete (t : transfer_row) : transfer_row :=
  mkTransfer (t_id t) (t_domain t) (t_winner t) (t_created t) true.

(** [UPDATE Transfers SET completed=true WHERE NOT completed AND domain = ..]. *)
Definition transfer_complete_pending (d : string) : Py conn Z :=
  write (fun c =>
    let l := transfers (work c) in
    (Z.of_nat (length (List.filter (pending_for d) l)),
     set_transfers (work c) (map (fun t => if pending_for d t then complete t else t) l))).

(** ** Read-only statements

    A [Query m f] is a SELECT [m]: on a usable transaction it leaves the
    connection as it is and returns [f c]; on an aborted one it raises
    [InFailedSqlTransaction].  The handlers' proofs rewrite every SELECT
    with [query_bind] instead of unfolding it. *)
Class Query {A} (m : Py conn A) (f : conn -> A) : Prop := {
  query_run : forall c, aborted c = false -> m c = (Ok (f c), c);
  query_abort : forall c, aborted c = true -> m c = (Raise InFailedSqlTransaction, c)
}.

#[export] Instance select_query {A} (f : conn -> A) : Query (select f) f.
Proof. split; intros c H; unfold select, stmt; by rewrite H. Qed.

Lemma query_bind {A B} (m : Py conn A) f `{!Query m f} (k : A -> Py conn B) c :
  aborted c = false -> (m ≫= k) c = k (f c) c.
Proof. intros H. by apply bind_ok, query_run. Qed.

Lemma query_bind_abort {A B} (m : Py conn A) f `{!Query m f} (k : A -> Py conn B) c :
  aborted c = true -> (m ≫= k) c = (Raise InFailedSqlTransaction, c).
Proof. intros H. by apply bind_raise, query_abort. Qed.

Lemma query_preserves {A} (m : Py conn A) f `{!Query m f} P : preserves P m.
Proof.
  intros c Hc. destruct (aborted c) eqn:E; [by rewrite query_abort | by rewrite query_run].
Qed.

(** A SELECT whose result is post-processed in Python is still a query. *)
Lemma query_map {A B} (m : Py conn A) f `{!Query m f} (g : A -> B) :
  Query (x ← m; mret (g x)) (fun c => g (f c)).
Proof.
  split; intros c H; unfold mbind, ST_bind; [by rewrite query_run | by rewrite query_abort].
Qed.

Lemma query_ext {A} (m : Py conn A) f g : Query m f -> (forall c, f c = g c) -> Query m g.
Proof. intros [Hr Ha] Hfg. split; intros c H; [rewrite Hr, Hfg|rewrite Ha]; done. Qed.

#[export] Instance domain_select_query name :
  Query (domain_select name) (fun c => domains (work c) !! name) := _.
#[export] Instance domain_count_query : Query domain_count domain_total := _.
#[export] Instance domain_names_query :
  Query domain_names (fun c => (map_to_list (domains (work c))).*1) := _.
#[export] Instance contact_select_query h :
  Query (contact_select h) (fun c => contacts (work c) !! h) := _.
#[export] Instance contact_count_query : Query contact_count contact_total := _.
#[export] Instance registrar_password_query u :
  Query (registrar_password u)
    (fun c => match u with Some h => registrars (work c) !! h | None => None end) := _.
#[export] Instance transfer_pending_query d :
  Query (transfer_pending d) (fun c => List.find (pending_for d) (transfers (work c))) := _.

(** A usable transaction: the side condition of every statement's run. *)
Lemma clean_usable c : clean c -> aborted c = false.
Proof. by intros [_ H]. Qed.

#[export] Hint Resolve clean_usable : rpp.

Ltac usable :=
  solve [ assumption | reflexivity | simpl; first [assumption | reflexivity]
        | apply clean_usable; assumption | simpl; apply clean_usable; assumption ].

(** Rewrite the first read-only statement of a run with its value. *)
Ltac query_step :=
  match goal with
  | |- context [(?m ≫= ?k) ?c] => rewrite (query_bind m _ k c) by usable
  end.

(** The connection after a successful [contact_insert]: the new row takes
    the sequence's value as handle. *)
Definition with_contact (c : conn) (name : string) : conn :=
  set_work (next_contact c)
    (set_contacts (work c) (<[contact_seq c := mkContact name (clock c)]> (contacts (work c)))).

(** ** Runs of the write statements *)

Section Runs.
Context (c : conn) (Hok : aborted c = false).

Lemma commit_run : commit c = (Ok tt, commit_conn c).
  Proof. reflexivity. Qed.

Lemma rollback_run : rollback c = (Ok tt, rollback_conn c).
  Proof. reflexivity. Qed.

Lemma domain_insert_ok name h t a r :
    serialization_fault c = false -> domains (work c) !! name = None ->
    domain_insert name h t a r c =
      (Ok tt, set_work c (set_domains (work c)
                (<[name := mkDomain h t a r (clock c)]> (domains (work c))))).
  Proof. intros Hf Hd. unfold domain_insert, stmt. by rewrite Hok, Hf, Hd. Qed.

Lemma domain_insert_dup name h t a r row :
    serialization_fault c = false -> domains (work c) !! name = Some row ->
    domain_insert name h t a r c = (Raise UniqueViolation, abort c).
  Proof. intros Hf Hd. unfold domain_insert, stmt. by rewrite Hok, Hf, Hd. Qed.

Lemma domain_insert_fault name h t a r :
    serialization_fault c = true ->
    domain_insert name h t a r c = (Raise SerializationFailure, abort c).
  Proof. intros Hf. unfold domain_insert, stmt. by rewrite Hok, Hf. Qed.

Lemma text_param_str s : text_param (PStr s) c = (Ok s, c).
  Proof. unfold text_param, stmt. by rewrite Hok. Qed.

Lemma text_param_bind {A} s (k : string -> Py conn A) : (text_param (PStr s) ≫= k) c = k s c.
  Proof. apply bind_ok, text_param_str. Qed.

Lemma text_param_run v :
    text_param v c = match text_value v with Ok s => (Ok s, c) | Raise e => (Raise e, abort c) end.
  Proof. unfold text_param, stmt. rewrite Hok. by destruct (text_value v). Qed.

Lemma handle_param_ok s h : pg_int4 s = Ok h -> handle_param s c = (Ok h, c).
  Proof. intros Hs. unfold handle_param, stmt. by rewrite Hok, Hs. Qed.

Lemma handle_param_err s e : pg_int4 s = Raise e -> handle_param s c = (Raise e, abort c).
  Proof. intros Hs. unfold handle_param, stmt. by rewrite Hok, Hs. Qed.

Lemma contact_insert_ok name :
    serialization_fault c = false -> contacts (work c) !! contact_seq c = None ->
    contact_insert name c = (Ok tt, with_contact c name).
  Proof. intros Hf Hd. unfold contact_insert, stmt. by rewrite Hok, Hf, Hd. Qed.

Lemma contact_delete_some h row :
    contacts (work c) !! h = Some row ->
    contact_delete h c = (Ok 1%Z, set_work c (set_contacts (work c) (delete h (contacts (work c))))).
  Proof. intros Hd. unfold contact_delete, write, stmt. by rewrite Hok, Hd. Qed.

Lemma contact_delete_none h :
    contacts (work c) !! h = None -> contact_delete h c = (Ok 0%Z, set_work c (work c)).
  Proof. intros Hd. unfold contact_delete, write, stmt. by rewrite Hok, Hd. Qed.

Lemma domain_update_some name f row :
    domains (work c) !! name = Some row ->
    domain_update name f c =
      (Ok 1%Z, set_work c (set_domains (work c) (<[name := f row]> (domains (work c))))).
  Proof. intros Hd. unfold domain_update, write, stmt. by rewrite Hok, Hd. Qed.

Lemma domain_update_none name f :
    domains (work c) !! name = None -> domain_update name f c = (Ok 0%Z, set_work c (work c)).
  Proof. intros Hd. unfold domain_update, write, stmt. by rewrite Hok, Hd. Qed.

Lemma domain_delete_some name row :
    domains (work c) !! name = Some row ->
    domain_delete name c =
      (Ok 1%Z, set_work c (set_domains (work c) (delete name (domains (work c))))).
  Proof. intros Hd. unfold domain_delete, write, stmt. by rewrite Hok, Hd. Qed.

Lemma domain_delete_none name :
    domains (work c) !! name = None -> domain_delete name c = (Ok 0%Z, set_work c (work c)).
  Proof. intros Hd. unfold domain_delete, write, stmt. by rewrite Hok, Hd. Qed.
End Runs.

(** Committing or rolling back a clean connection changes nothing; a write
    followed by [commit] leaves a clean connection. *)
Lemma commit_conn_clean c : clean c -> commit_conn c = c.
Proof. destruct c; unfold clean, commit_conn; simpl; intros [-> ->]; reflexivity. Qed.

Lemma rollback_conn_clean c : clean c -> rollback_conn c = c.
Proof. destruct c; unfold clean, rollback_conn; simpl; intros [-> ->]; reflexivity. Qed.

(** A failed statement followed by [rollback] is as if nothing happened. *)
Lemma rollback_abort c : rollback_conn (abort c) = rollback_conn c.
Proof. reflexivity. Qed.

Lemma set_work_same c : set_work c (work c) = c.
Proof. by destruct c. Qed.

Lemma set_work_set_work c w1 w2 : set_work (set_work c w1) w2 = set_work c w2.
Proof. reflexivity. Qed.

Lemma set_domains_same w : set_domains w (domains w) = w.
Proof. by destruct w. Qed.

Lemma set_domains_set_domains w m1 m2 : set_domains (set_domains w m1) m2 = set_domains w m2.
Proof. reflexivity. Qed.

Lemma commit_conn_is_clean c : clean (commit_conn c).
Proof. unfold commit_conn. by destruct (aborted c). Qed.

Lemma rollback_conn_is_clean c : clean (rollback_conn c).
Proof. done. Qed.

(** Committing a usable transaction publishes its working copy. *)
Lemma commit_conn_work c : aborted c = false -> work (commit_conn c) = work c.
Proof. unfold commit_conn. by intros ->. Qed.

#[export] Hint Resolve commit_conn_is_clean rollback_conn_is_clean : rpp.
#[export] Hint Extern 1 (aborted _ = false) => usable : rpp.

(** ** The transfers table *)

Definition pending_rows (w : db) (d : string) : list transfer_row :=
  List.filter (pending_for d) (transfers w).

(** The spec's invariant (section 3): at most one pending transfer per
    domain. *)
Definition single_pending (w : db) : Prop :=
  forall d, length (pending_rows w d) <= 1.

(** An invariant of the tables, on both sides of the connection so that
    [rollback] keeps it. *)
Definition both (I : db -> Prop) (c : conn) : Prop := I (work c) /\ I (committed c).

Definition transfers_ok : conn -> Prop := both single_pending.

(** The connection after a successful [transfer_insert]. *)
Definition with_transfer (c : conn) (d : string) (winner : Z) : conn :=
  set_work (next_transfer c)
    (set_transfers (work c)
       (transfers (work c) ++ [mkTransfer (transfer_seq c) d winner (clock c) false])).

Definition without_pending (w : db) (d : string) : db :=
  set_transfers w (List.filter (fun t => negb (pending_for d t)) (transfers w)).

Definition completed_pending (w : db) (d : string) : db :=
  set_transfers w (map (fun t => if pending_for d t then complete t else t) (transfers w)).

Lemma transfer_insert_ok c d w :
  aborted c = false -> serialization_fault c = false ->
  transfer_insert d w c = (Ok tt, with_transfer c d w).
Proof. intros Hok Hf. unfold transfer_insert, stmt. by rewrite Hok, Hf. Qed.

Lemma transfer_delete_pending_run c d :
  aborted c = false ->
  transfer_delete_pending d c =
    (Ok (Z.of_nat (length (pending_rows (work c) d))), set_work c (without_pending (work c) d)).
Proof. intros Hok. unfold transfer_delete_pending, write, stmt. by rewrite Hok. Qed.

Lemma transfer_complete_pending_run c d :
  aborted c = false ->
  transfer_complete_pending d c =
    (Ok (Z.of_nat (length (pending_rows (work c) d))), set_work c (completed_pending (work c) d)).
Proof. intros Hok. unfold transfer_complete_pending, write, stmt. by rewrite Hok. Qed.

Lemma pending_for_complete d t : pending_for d (complete t) = false.
Proof. reflexivity. Qed.

Lemma pending_for_domain d t : pending_for d t = true -> t_domain t = d.
Proof. unfold pending_for. intros [_ H]%andb_true_iff. by apply String.eqb_eq. Qed.

Lemma without_pending_none w d : pending_rows (without_pending w d) d = [].
Proof. apply filter_neg_none. Qed.

Lemma completed_pending_none w d : pending_rows (completed_pending w d) d = [].
Proof. apply filter_map_none. intros t _. apply pending_for_complete. Qed.

Lemma without_pending_single w d : single_pending w -> single_pending (without_pending w d).
Proof. intros H d'. etransitivity; [apply filter_filter_le | apply H]. Qed.

Lemma completed_pending_single w d : single_pending w -> single_pending (completed_pending w d).
Proof.
  intros H d'. etransitivity; [apply filter_map_le | apply H].
  intros t. destruct (pending_for d t); [by rewrite pending_for_complete|done].
Qed.

Lemma with_transfer_single c d w :
  List.find (pending_for d) (transfers (work c)) = None ->
  single_pending (work c) -> single_pending (work (with_transfer c d w)).
Proof.
  intros Hn H d'. unfold pending_rows. simpl. rewrite List.filter_app.
  pose proof (H d') as Hd'. unfold pending_rows in Hd'.
  rewrite length_app. simpl.
  destruct (String.eqb_spec d d') as [<-|Hne].
  - rewrite (find_none_filter _ _ Hn). simpl. destruct (pending_for d _); simpl; lia.
  - unfold pending_for at 2. simpl. destruct (String.eqb_spec d d'); [done|]. simpl. lia.
Qed.

Lemma single_pending_short w : length (transfers w) <= 1 -> single_pending w.
Proof. intros H d. unfold pending_rows. pose proof (filter_length_le (pending_for d) (transfers w)). lia. Qed.

Lemma single_pending_find_one w d t :
  single_pending w -> List.find (pending_for d) (transfers w) = Some t ->
  length (pending_rows w d) = 1.
Proof. intros H Ht. pose proof (H d). pose proof (find_some_filter _ _ _ Ht). unfold pending_rows in *. lia. Qed.
#[export] Hint Rewrite commit_run rollback_run set_work_same : rpp_run.

(** ** Statements that keep an invariant *)

Section Both.
Context (I : db -> Prop).

Lemma both_abort c : both I c -> both I (abort c).
  Proof. done. Qed.

Lemma both_stmt {A} (m : Py conn A) : preserves (both I) m -> preserves (both I) (stmt m).
  Proof. intros Hm c Hc. unfold stmt. destruct (aborted c); [done|by apply Hm]. Qed.

Lemma both_fail {A} e : preserves (both I) (@fail A e).
  Proof. by intros c Hc. Qed.

Lemma both_commit : preserves (both I) commit.
  Proof. intros c [Hw Hc]. unfold commit, modify, commit_conn. by destruct (aborted c). Qed.

Lemma both_rollback : preserves (both I) rollback.
  Proof. intros c [_ Hc]. by split. Qed.

Lemma both_write {A} (f : conn -> A * db) :
    (forall c, I (work c) -> I (snd (f c))) -> preserves (both I) (write f).
  Proof.
    intros Hf. apply both_stmt. intros c [Hw Hc]. destruct (f c) as [a w] eqn:E.
    split; [|done]. simpl. specialize (Hf c Hw). by rewrite E in Hf.
  Qed.

Lemma both_query {A} (m : Py conn A) f `{!Query m f} : preserves (both I) m.
  Proof. by apply (query_preserves m f). Qed.

Lemma both_eval {A} (o : outcome exn A) : preserves (both I) (eval o).
  Proof. by intros c Hc. Qed.

Lemma both_text_param v : preserves (both I) (text_param v).
  Proof. apply both_stmt. destruct (text_value v); by intros c Hc. Qed.

Lemma both_handle_param s : preserves (both I) (handle_param s).
  Proof. apply both_stmt. destruct (pg_int4 s); by intros c Hc. Qed.

(** An INSERT whose row keeps [I] keeps [both I]. *)
Lemma both_insert {A} (f : conn -> outcome exn A * conn) :
    (forall c, both I c -> both I (snd (f c))) -> preserves (both I) (stmt f).
  Proof. intros Hf. apply both_stmt. intros c Hc. specialize (Hf c Hc). by destruct (f c). Qed.
End Both.

(** Statements that leave the [Transfers] table alone keep [single_pending]. *)
Lemma single_pending_set_domains w m : single_pending w -> single_pending (set_domains w m).
Proof. done. Qed.
Lemma single_pending_set_contacts w m : single_pending w -> single_pending (set_contacts w m).
Proof. done. Qed.

Lemma domain_update_transfers name f : preserves transfers_ok (domain_update name f).
Proof. apply both_write. intros c Hc. simpl. by destruct (domains (work c) !! name). Qed.

Lemma domain_delete_transfers name : preserves transfers_ok (domain_delete name).
Proof. apply both_write. intros c Hc. simpl. by destruct (domains (work c) !! name). Qed.

Lemma contact_delete_transfers h : preserves transfers_ok (contact_delete h).
Proof. apply both_write. intros c Hc. simpl. by destruct (contacts (work c) !! h). Qed.

Lemma domain_insert_transfers name h t a r : preserves transfers_ok (domain_insert name h t a r).
Proof.
  apply both_insert. intros c [Hw Hc].
  destruct (serialization_fault c); [by split|]. destruct (domains (work c) !! name); by split.
Qed.

Lemma contact_insert_transfers name : preserves transfers_ok (contact_insert name).
Proof.
  apply both_insert. intros c [Hw Hc].
  cbn. destruct (serialization_fault c); [by split|]. destruct (contacts (work c) !! contact_seq c); split; cbn; apply Hw || apply Hc.
Qed.

Lemma transfer_delete_pending_transfers d : preserves transfers_ok (transfer_delete_pending d).
Proof. apply both_write. intros c Hc. by apply without_pending_single. Qed.

Lemma transfer_complete_pending_transfers d : preserves transfers_ok (transfer_complete_pending d).
Proof. apply both_write. intros c Hc. by apply completed_pending_single. Qed.

(** [transfer_insert] keeps it only when the domain has no pending row. *)
Lemma transfer_insert_transfers c d w :
  List.find (pending_for d) (transfers (work c)) = None -> transfers_ok c ->
  transfers_ok (snd (transfer_insert d w c)).
Proof.
  intros Hn [Hw Hc]. unfold transfer_insert, stmt.
  destruct (aborted c), (serialization_fault c); [by split..|]. split; [|done].
  by apply (with_transfer_single c d w).
Qed.

#[export] Hint Resolve both_commit both_rollback both_eval both_text_param
  both_handle_param domain_update_transfers domain_delete_transfers
  contact_delete_transfers domain_insert_transfers contact_insert_transfers
  transfer_delete_pending_transfers transfer_complete_pending_transfers : rpp.
#[export] Hint Extern 1 (preserves _ _) => eapply both_query; apply _ : rpp.

(** ** An aborted transaction stays aborted

    On an aborted transaction every statement raises
    [InFailedSqlTransaction] and leaves the connection as it is ([strict]);
    code that only runs statements, pure Python and, after a statement,
    [commit] or [rollback], then leaves the connection as it is ([inert]):
    the [commit] and [rollback] are never reached. *)
Definition strict {A} (m : Py conn A) : Prop :=
  forall c, aborted c = true -> m c = (Raise InFailedSqlTransaction, c).

Definition inert {A} (m : Py conn A) : Prop :=
  forall c, aborted c = true -> snd (m c) = c.

Lemma strict_stmt {A} (m : Py conn A) : strict (stmt m).
Proof. intros c H. unfold stmt. by rewrite H. Qed.

Lemma strict_query {A} (m : Py conn A) f `{!Query m f} : strict m.
Proof. intros c H. by apply query_abort. Qed.

Lemma strict_bind {A B} (m : Py conn A) (k : A -> Py conn B) : strict m -> strict (m ≫= k).
Proof. intros Hm c H. by apply bind_raise, Hm. Qed.

Lemma strict_inert {A} (m : Py conn A) : strict m -> inert m.
Proof. intros Hm c H. by rewrite Hm. Qed.

Lemma inert_bind {A B} (m : Py conn A) (k : A -> Py conn B) :
  inert m -> (forall a, inert (k a)) -> inert (m ≫= k).
Proof.
  intros Hm Hk c H. unfold mbind, ST_bind. specialize (Hm c H).
  destruct (m c) as [[a|e] c'] eqn:E; simpl in *; subst; [by apply Hk|done].
Qed.

Lemma inert_ret {A} (a : A) : inert (mret a).
Proof. by intros c H. Qed.

Lemma inert_throw {A} (e : exn) : inert (mthrow e : Py conn A).
Proof. by intros c H. Qed.

Lemma inert_eval {A} (o : outcome exn A) : inert (eval o).
Proof. by intros c H. Qed.

Lemma inert_try {A} (m : Py conn A) h :
  inert m -> (forall e k, h e = Some k -> inert k) -> inert (try_except m h).
Proof.
  intros Hm Hh c H. unfold try_except. specialize (Hm c H).
  destruct (m c) as [[a|e] c'] eqn:E; simpl in *; subst; [done|].
  destruct (h e) as [k|] eqn:Ek; [by apply (Hh e)|done].
Qed.

(** Decompose [inert m]: a bind whose first step is a statement is strict. *)
Ltac inert_tac :=
  repeat match goal with
  | |- inert (_ ≫= _) =>
      first [ apply strict_inert, strict_bind;
              first [ apply strict_stmt | eapply strict_query; apply _ ]
            | apply inert_bind; [|intros ?] ]
  | |- inert (try_except _ _) =>
      apply inert_try; [|let e := fresh "e" in let k := fresh "k" in
                         let Hk := fresh "Hk" in intros e k Hk; destruct e; simplify_eq]
  | |- inert (if ?b then _ else _) => destruct b
  | |- inert (match ?x with _ => _ end) => destruct x
  | |- inert (mret _) => apply inert_ret
  | |- inert (mthrow _) => apply inert_throw
  | |- inert (eval _) => apply inert_eval
  | |- inert _ => progress cbv zeta
  end.

(** Decompose [preserves P m] along the structure of [m]. *)
Ltac preserve :=
  repeat match goal with
  | |- preserves _ (_ ≫= _) => apply preserves_bind; [|intros ?]
  | |- preserves _ (try_except _ _) =>
      apply preserves_try; [|let e := fresh "e" in let k := fresh "k" in
                              let Hk := fresh "Hk" in intros e k Hk; destruct e; simplify_eq]
  | |- preserves _ (if ?b then _ else _) => destruct b
  | |- preserves _ (match ?x with _ => _ end) => destruct x
  | |- preserves _ (mret _) => apply preserves_ret
  | |- preserves _ (mthrow _) => apply preserves_throw
  end; eauto with rpp.

End Store.
