(* ===== verification/Auth.v ===== *)
(** * Authentication of registrars

    [auth_registrar] (lines 181-187 of [registry.py]) compares the
    password presented in the HTTP Basic header with the [Registrars] row of
    the claimed handle, by plain string equality.  It is a read-only
    statement ([Store.Query]): it never changes the connection, and raises
    only when the transaction is already aborted. *)

From S2P Require Import Prelude PyBase Store.
Import Store.

Module Auth.

Definition auth_registrar (user : option Z) (password : option string) : Py conn bool :=
  data ← registrar_password user;
  mret (match data, password with
        | Some stored, Some given => String.eqb stored given
        | _, _ => false
        end).

(** The value [auth_registrar] returns, as a function of the store. *)
Definition authentic (c : conn) (user : option Z) (password : option string) : bool :=
  match user, password with
  | Some h, Some p => bool_decide (registrars (work c) !! h = Some p)
  | _, _ => false
  end.

#[export] Instance auth_registrar_query user password :
  Query (auth_registrar user password) (fun c => authentic c user password).
Proof.
  eapply query_ext; [eapply query_map; apply _|]. intros c. unfold authentic. simpl.
  destruct user as [h|]; [|done].
  destruct (registrars (work c) !! h) as [q|], password as [p|]; try done.
  case_bool_decide; destruct (String.eqb_spec q p); congruence.
Qed.

(** No registrar authenticates without a handle: the router's [None] user
    is always refused. *)
Lemma authentic_None c password : authentic c None password = false.
Proof. reflexivity. Qed.

End Auth.
