(* ===== verification/Domain.v ===== *)
(** * Domain operations

    The functions of [registry.py] that read and write the [Domains] table
    for [handle_domain]: [head_domain], [info_domain], [list_domains]
    (lines 65-108), [patch_domain] (110-129), [store_domain] (131-146),
    [delete_domain] (161-169), the business rule [registerable] (190-198)
    and [availability_domain] (219-241).  Each is an operation of
    [Py conn]; the lemmas of this file give each one's result and final
    connection on every branch.  [first_label] and [rule_ok] state the
    spec's creation rule, which [registerable] is shown to implement. *)

From S2P Require Import Prelude PyBase Store.
Import Store.

Module Domain.

(** Lines 18-19. *)
Definition TLD : string := "example".
Definition MAX_DOMAINS : Z := 5000.

Definition st (c : Z) (m : string) : status := mkStatus c m.

Definition not_found (domain : string) : response :=
  (st 404 "Not found", [("result", PStr ("Domain " +:+ domain +:+ " NOT found"))]).

(** ** Queries *)

Definition head_domain (domain : string) : Py conn (option string) :=
  data ← domain_select domain;
  mret (match data with None => None | Some _ => Some domain end).

Definition info_domain (domain : string) : Py conn (option domain_row) :=
  domain_select domain.

Definition list_domains : Py conn dict :=
  names ← domain_names;
  mret [("list", PList (map PStr names))].

(** ** Patch *)

(** One [if "<field>" in data:] block of [patch_domain]: [Some r] is the
    early return [r] after a rollback, [None] falls through. *)
Definition patch_field (domain : string) (change : pyval) (field : string)
    (upd : string -> domain_row -> domain_row) (failure : string)
    : Py conn (option response) :=
  present ← eval (py_contains change field);
  if (present : bool) then
    v ← eval (getitem change field);
    s ← text_param v;
    n ← domain_update domain (upd s);
    if (n =? 1)%Z then mret None
    else rollback;;
         mret (Some (st 500 "Internal error", [("result", PStr failure)]))
  else mret None.

Definition patch_domain (domain : string) (data : pyval) : Py conn response :=
  output ← info_domain domain;
  match output with
  | None => mret (not_found domain)
  | Some _ =>
      change ← eval (getitem data "change");
      r ← patch_field domain change "tech" with_tech "Update of tech contact failed";
      match r with
      | Some resp => mret resp
      | None =>
          r ← patch_field domain change "admin" with_admin "Update of admin contact failed";
          match r with
          | Some resp => mret resp
          | None => commit;; mret (st 204 "Updated", [("result", PStr "Update done")])
          end
      end
  end.

(** ** Creation and deletion *)

Definition store_domain (domain : string) (holder tech admin : pyval) (registrar : Z)
    : Py conn unit :=
  num ← domain_count;
  if (MAX_DOMAINS <=? num)%Z then mthrow TooManyDomains
  else
    try_except
      (h ← text_param holder; t ← text_param tech; a ← text_param admin;
       domain_insert domain h t a registrar;; commit)
      (fun e => match e with
                | UniqueViolation => Some (rollback;; mthrow AlreadyExists)
                | SerializationFailure => Some (rollback;; mthrow Conflict)
                | _ => None
                end).

(** ["nic.%s" % TLD], the domain [delete_domain] refuses to delete. *)
Definition nic_domain : string := "nic." +:+ TLD.

Definition delete_domain (domain : string) : Py conn unit :=
  if String.eqb domain nic_domain then mthrow Immutable
  else
    n ← domain_delete domain;
    if (n =? 0)%Z then rollback;; mthrow DoesNotExist
    else commit.

(** ** Business rule and availability *)

(** [registerable]'s two results: [(True, )] and [(False, reason)]. *)
Inductive regable := Registerable | NotRegisterable (reason : string).

Definition registerable (domain : string) : outcome exn regable :=
  match str_split1 "." domain with
  | [flabel; _] =>
      if (String.length flabel <? 2)
      then Ok (NotRegisterable "Domains must be at least two characters")
      else match flabel with
           | String "0" _ => Ok (NotRegisterable "Domains must not start with a zero")
           | _ => Ok Registerable
           end
  | _ => Raise ValueError   (** tuple unpacking of a one-element list *)
  end.

Definition availability_domain (domain method : string) : Py conn response :=
  data ← head_domain domain;
  if String.eqb method "HEAD" then
    match data with
    | None => mret (not_found domain)
    | Some _ => mret (st 200 "Found", [("result", PStr ("Domain " +:+ domain +:+ " already exists"))])
    end
  else if String.eqb method "GET" then
    match data with
    | None =>
        regable ← eval (registerable domain);
        let info := match regable with
                    | Registerable => "It can be registered"
                    | NotRegisterable why => "It cannot be registered because " +:+ why
                    end in
        mret (st 404 "Not found",
              [("result", PStr ("Domain " +:+ domain +:+ " NOT found. " +:+ info))])
    | Some _ => mret (st 200 "Found", [("result", PStr ("Domain " +:+ domain +:+ " already exists"))])
    end
  else mret (st 405 ("Method " +:+ method +:+ " not supported"), []).

(** ** The creation rule of the spec

    Section 4.3: split the name into its first label and the remainder;
    the name is refused if the label has fewer than two characters or
    starts with [0]. *)

Fixpoint first_label (s : string) : string :=
  match s with
  | EmptyString => EmptyString
  | String c s' => if Ascii.eqb c "." then EmptyString else String c (first_label s')
  end.

Definition rule_ok (d : string) : bool :=
  (2 <=? String.length (first_label d)) && negb (str_startswith (first_label d) "0").

Lemma str_split1_label s :
  str_has_char "." s = true -> exists rest, str_split1 "." s = [first_label s; rest].
Proof.
  induction s as [|c s IH]; simpl; [done|].
  destruct (Ascii.eqb c "."); simpl; [by eexists|]. intros H.
  destruct (IH H) as [rest ->]. by eexists.
Qed.

Lemma match_zero {A} (x y : A) c :
  match c with "0"%char => x | _ => y end = if Ascii.eqb c "0" then x else y.
Proof. by destruct c as [[] [] [] [] [] [] [] []]. Qed.

Lemma prefix_single a c l : String.prefix (String a EmptyString) (String c l) = Ascii.eqb a c.
Proof.
  cbn [String.prefix]. destruct (ascii_dec a c) as [<-|Hac]; [rewrite Ascii.eqb_refl; by destruct l|].
  symmetry. by apply Ascii.eqb_neq.
Qed.

(** On a name with a dot, [registerable] never raises and accepts exactly
    the names the rule accepts. *)
Lemma registerable_rule d :
  str_has_char "." d = true ->
  (registerable d = Ok Registerable /\ rule_ok d = true) \/
  (exists why, registerable d = Ok (NotRegisterable why) /\ rule_ok d = false).
Proof.
  intros Hd. unfold registerable, rule_ok. destruct (str_split1_label d Hd) as [rest ->].
  destruct (first_label d) as [|c l].
  { right. by exists "Domains must be at least two characters". }
  destruct (Nat.ltb_spec (String.length (String c l)) 2).
  - right. exists "Domains must be at least two characters". split; [done|].
    rewrite andb_false_intro1; [done|]. apply Nat.leb_gt. lia.
  - rewrite match_zero. replace (2 <=? String.length (String c l)) with true
      by (symmetry; apply Nat.leb_le; lia).
    unfold str_startswith. rewrite prefix_single, (Ascii.eqb_sym "0" c).
    destruct (Ascii.eqb c "0"); simpl; [right; by exists "Domains must not start with a zero"|by left].
Qed.

(** ** Runs of the domain operations *)

#[export] Instance info_domain_query d :
  Query (info_domain d) (fun c => domains (work c) !! d) := domain_select_query d.

#[export] Instance head_domain_query d :
  Query (head_domain d)
    (fun c => match domains (work c) !! d with None => None | Some _ => Some d end).
Proof. eapply query_ext; [eapply query_map; apply _|]. done. Qed.

(** The working copy after [INSERT INTO domains ...]. *)
Definition with_domain (c : conn) (name : string) (row : domain_row) : conn :=
  set_work c (set_domains (work c) (<[name := row]> (domains (work c)))).

Section DomainRuns.
Context (c : conn) (Hok : aborted c = false).

Lemma store_domain_full domain h t a u :
    (MAX_DOMAINS <= domain_total c)%Z ->
    store_domain domain h t a u c = (Raise TooManyDomains, c).
  Proof.
    intros Hn. unfold store_domain. query_step.
    destruct (Z.leb_spec MAX_DOMAINS (domain_total c)); [reflexivity | lia].
  Qed.

Lemma store_domain_ok domain h t a u :
    (domain_total c < MAX_DOMAINS)%Z -> serialization_fault c = false ->
    domains (work c) !! domain = None ->
    store_domain domain (PStr h) (PStr t) (PStr a) u c =
      (Ok tt, commit_conn (with_domain c domain (mkDomain h t a u (clock c)))).
  Proof.
    intros Hn Hf Hd. unfold store_domain. query_step.
    destruct (Z.leb_spec MAX_DOMAINS (domain_total c)); [lia|].
    apply try_ok. rewrite !(text_param_bind c Hok).
    erewrite bind_ok by (by apply domain_insert_ok). reflexivity.
  Qed.

Lemma store_domain_dup domain h t a u row :
    (domain_total c < MAX_DOMAINS)%Z -> serialization_fault c = false ->
    domains (work c) !! domain = Some row ->
    store_domain domain (PStr h) (PStr t) (PStr a) u c =
      (Raise AlreadyExists, rollback_conn c).
  Proof.
    intros Hn Hf Hd. unfold store_domain. query_step.
    destruct (Z.leb_spec MAX_DOMAINS (domain_total c)); [lia|].
    eapply try_caught;
      [ rewrite !(text_param_bind c Hok); apply bind_raise; by apply domain_insert_dup with (row := row)
      | reflexivity.. ].
  Qed.

Lemma delete_domain_nic : delete_domain nic_domain c = (Raise Immutable, c).
  Proof. unfold delete_domain. by rewrite String.eqb_refl. Qed.

Lemma delete_domain_absent domain :
    domain <> nic_domain -> domains (work c) !! domain = None ->
    delete_domain domain c = (Raise DoesNotExist, rollback_conn c).
  Proof.
    intros Hn Hd. unfold delete_domain.
    destruct (String.eqb_spec domain nic_domain); [done|].
    erewrite bind_ok by (by apply domain_delete_none). reflexivity.
  Qed.

Lemma delete_domain_ok domain row :
    domain <> nic_domain -> domains (work c) !! domain = Some row ->
    delete_domain domain c =
      (Ok tt, commit_conn (set_work c (set_domains (work c) (delete domain (domains (work c)))))).
  Proof.
    intros Hn Hd. unfold delete_domain.
    destruct (String.eqb_spec domain nic_domain); [done|].
    erewrite bind_ok by (by apply domain_delete_some with (row := row)). reflexivity.
  Qed.
End DomainRuns.

(** ** Runs of [patch_domain] *)

(** A member of the change set: absent, or a string. *)
Definition str_opt (v : option pyval) : option (option string) :=
  match v with
  | None => Some None
  | Some (PStr s) => Some (Some s)
  | Some _ => None
  end.

(** The row after the [tech] then [admin] updates that are present. *)
Definition patched (ot oa : option string) (r : domain_row) : domain_row :=
  let r1 := match ot with Some t => with_tech t r | None => r end in
  match oa with Some a => with_admin a r1 | None => r1 end.

Lemma patch_field_run d chd f upd msg c r o :
  domains (work c) !! d = Some r -> str_opt (dict_get chd f) = Some o -> aborted c = false ->
  patch_field d (PDict chd) f upd msg c =
    (Ok None, match o with
              | Some v => set_work c (set_domains (work c) (<[d := upd v r]> (domains (work c))))
              | None => c
              end).
Proof.
  intros Hr Ho Hok. unfold patch_field, eval, lift. st_unfold. simpl.
  destruct (dict_get chd f) as [[]|]; simpl in Ho; simplify_eq; simpl; try reflexivity.
  unfold text_param, stmt. rewrite Hok. simpl. by erewrite domain_update_some.
Qed.

Lemma patch_domain_ok d data chd ot oa c r :
  aborted c = false -> domains (work c) !! d = Some r -> getitem data "change" = Ok (PDict chd) ->
  str_opt (dict_get chd "tech") = Some ot -> str_opt (dict_get chd "admin") = Some oa ->
  patch_domain d data c =
    (Ok (st 204 "Updated", [("result", PStr "Update done")]),
     commit_conn (set_work c (set_domains (work c) (<[d := patched ot oa r]> (domains (work c)))))).
Proof.
  intros Hok Hr Hc Ht Ha. unfold patch_domain. query_step. rewrite Hr.
  unfold eval, lift. st_unfold. rewrite Hc. simpl.
  rewrite (patch_field_run d chd "tech" with_tech _ c r ot Hr Ht Hok). simpl.
  destruct ot as [t|]; simpl.
  - assert (Hr' : domains (work (set_work c (set_domains (work c) (<[d:=with_tech t r]> (domains (work c)))))) !! d
                  = Some (with_tech t r)) by apply lookup_insert_eq.
    rewrite (patch_field_run _ chd "admin" with_admin _ _ _ oa Hr' Ha Hok).
    destruct oa; simpl; [|reflexivity].
    by rewrite set_work_set_work, set_domains_set_domains, insert_insert_eq.
  - rewrite (patch_field_run d chd "admin" with_admin _ c r oa Hr Ha Hok).
    destruct oa; simpl; [reflexivity|].
    by rewrite (insert_id _ _ _ Hr), set_domains_same, set_work_same.
Qed.

(** ** The transfer invariant is not the domain operations' business *)

Lemma patch_field_transfers d ch f upd msg : preserves transfers_ok (patch_field d ch f upd msg).
Proof. unfold patch_field. preserve. Qed.

Lemma patch_domain_transfers d data : preserves transfers_ok (patch_domain d data).
Proof. unfold patch_domain. preserve; apply patch_field_transfers. Qed.

Lemma store_domain_transfers d h t a u : preserves transfers_ok (store_domain d h t a u).
Proof. unfold store_domain. preserve. Qed.

Lemma delete_domain_transfers d : preserves transfers_ok (delete_domain d).
Proof. unfold delete_domain. preserve. Qed.

Lemma availability_domain_transfers d m : preserves transfers_ok (availability_domain d m).
Proof. unfold availability_domain. preserve. Qed.

#[export] Hint Resolve patch_domain_transfers store_domain_transfers
  delete_domain_transfers availability_domain_transfers : rpp.

(** ** The domain quota *)

Definition under_quota (w : db) : Prop := (Z.of_nat (size (domains w)) <= MAX_DOMAINS)%Z.

Definition quota_ok : conn -> Prop := both under_quota.

Lemma under_quota_transfers w l : under_quota w -> under_quota (set_transfers w l).
Proof. done. Qed.

Lemma domain_update_quota name f : preserves quota_ok (domain_update name f).
Proof.
  apply both_write. intros c Hc. simpl. destruct (domains (work c) !! name) eqn:E; [|done].
  unfold under_quota. simpl. rewrite map_size_insert_Some by eauto. exact Hc.
Qed.

Lemma domain_delete_quota name : preserves quota_ok (domain_delete name).
Proof.
  apply both_write. intros c Hc. simpl. destruct (domains (work c) !! name) eqn:E; [|done].
  unfold under_quota in *. simpl. rewrite map_size_delete_Some by eauto. lia.
Qed.

Lemma transfer_delete_pending_quota d : preserves quota_ok (transfer_delete_pending d).
Proof. by apply both_write. Qed.

Lemma transfer_complete_pending_quota d : preserves quota_ok (transfer_complete_pending d).
Proof. by apply both_write. Qed.

Lemma transfer_insert_quota d w : preserves quota_ok (transfer_insert d w).
Proof. apply both_insert. intros c [Hw Hc]. cbn. by destruct (serialization_fault c). Qed.

(** An INSERT into a table holding fewer than [MAX_DOMAINS] domains. *)
Lemma domain_insert_quota c d h t a u :
  quota_ok c -> (domain_total c < MAX_DOMAINS)%Z -> quota_ok (snd (domain_insert d h t a u c)).
Proof.
  intros [Hw Hc] Hn. unfold domain_insert, stmt.
  destruct (aborted c), (serialization_fault c); [done..|].
  destruct (domains (work c) !! d) eqn:E; [done|]. split; [|done].
  unfold under_quota, domain_total in *. simpl. rewrite map_size_insert_None by done. lia.
Qed.

(** An exception raised at state [s] inside [store_domain]'s [try]: the
    handler rolls back, or re-raises what it does not catch. *)
Local Ltac caught s :=
  match goal with e : exn |- _ => destruct e; simpl; try done; by apply (both_rollback _ s) end.

(** [store_domain] inserts only after counting fewer than [MAX_DOMAINS]. *)
Lemma store_domain_quota d h t a u : preserves quota_ok (store_domain d h t a u).
Proof.
  intros c Hc. unfold store_domain. destruct (aborted c) eqn:Hab.
  { by rewrite (query_bind_abort domain_count domain_total). }
  query_step. destruct (Z.leb_spec MAX_DOMAINS (domain_total c)); [done|].
  unfold try_except, mbind, ST_bind.
  rewrite (text_param_run c Hab h). destruct (text_value h) as [sh|e]; simpl; [|caught (abort c)].
  rewrite (text_param_run c Hab t). destruct (text_value t) as [st'|e]; simpl; [|caught (abort c)].
  rewrite (text_param_run c Hab a). destruct (text_value a) as [sa|e]; simpl; [|caught (abort c)].
  pose proof (domain_insert_quota c d sh st' sa u Hc ltac:(lia)) as Hq.
  destruct (domain_insert d sh st' sa u c) as [[] c'] eqn:E; simpl in *; [by apply both_commit|].
  caught c'.
Qed.

#[export] Hint Resolve domain_update_quota domain_delete_quota transfer_delete_pending_quota
  transfer_complete_pending_quota transfer_insert_quota : rpp.

Lemma patch_domain_quota d data : preserves quota_ok (patch_domain d data).
Proof. unfold patch_domain, patch_field. preserve. Qed.

Lemma delete_domain_quota d : preserves quota_ok (delete_domain d).
Proof. unfold delete_domain. preserve. Qed.

Lemma availability_domain_quota d m : preserves quota_ok (availability_domain d m).
Proof. unfold availability_domain. preserve. Qed.

#[export] Hint Resolve patch_domain_quota delete_domain_quota availability_domain_quota : rpp.

End Domain.
