(* ===== verification/Transfer.v ===== *)
(** * The transfer state machine: [transfer_domain]

    [transfer_domain] (lines 243-316 of [registry.py]) serves
    [/domains/<name>/transfer[/<extra>]]: [GET] queries the pending
    transfer, [POST] without [extra] requests one, [POST] with
    [cancelation], [approval] or [rejection] acts on it.  A pending transfer
    is a [Transfers] row with [completed = false]; approval marks it
    completed and moves the domain to the winner, cancellation and rejection
    delete it.  The definitions follow the code's order of checks:
    authentication, existence of the domain, the method, then [extra]. *)

From S2P Require Import Prelude PyBase Store Auth Domain.
Import Store Auth Domain.

Module Transfer.

(** The dict [info_domain] returns, which the 405 branch sends back. *)
Definition info_dict (domain : string) (r : domain_row) : dict :=
  [("name", PStr domain); ("holder", PStr (holder r)); ("tech", PStr (tech r));
   ("admin", PStr (admin r)); ("registrar", PInt (registrar r));
   ("created", PTime (created r))].

Definition ok (msg : string) : response := (st 200 "OK", [("result", PStr msg)]).

Definition wrong_password : response :=
  (st 401 "Wrong password", [("result", PStr "You must authenticate properly")]).

(** [POST .../transfer/<extra>] once the pending row's [winner] is known. *)
Definition transfer_action (domain : string) (extra : string) (client : Z) (winner : Z)
    : Py conn response :=
  if String.eqb extra "cancelation" then
    if negb (winner =? client)%Z then
      mret (st 403 "Not yours", [("result", PStr "This is not your transfer")])
    else
      transfer_delete_pending domain;; commit;;
      mret (ok ("Transfer of " +:+ domain +:+ " cancelled"))
  else if String.eqb extra "approval" then
    data ← info_domain domain;
    match data with
    | None => mthrow TypeError          (** [None["registrar"]] *)
    | Some r =>
        if negb (registrar r =? client)%Z then
          mret (st 403 "Not yours", [("result", PStr "This is not your domain currently")])
        else
          n ← transfer_complete_pending domain;
          if negb (n =? 1)%Z then
            mret (st 500 "Internal error", [("result", PStr "Update of transfer failed")])
          else
            n ← domain_update domain (with_registrar winner);
            if negb (n =? 1)%Z then
              mret (st 500 "Internal error", [("result", PStr ("Update of " +:+ domain +:+ " faled"))])
            else commit;; mret (ok ("Transfer of " +:+ domain +:+ " approved"))
    end
  else if String.eqb extra "rejection" then
    data ← info_domain domain;
    match data with
    | None => mthrow TypeError
    | Some r =>
        if negb (registrar r =? client)%Z then
          mret (st 403 "Not yours", [("result", PStr "This is not your domain currently")])
        else
          transfer_delete_pending domain;; commit;;
          mret (ok ("Transfer of " +:+ domain +:+ " rejected"))
    end
  else mret (st 400 "Unknown transfer extra command",
             [("result", PStr ("Unnown transfer extra command " +:+ extra))]).

(** [POST .../transfer]: a new transfer request. *)
Definition transfer_request (domain : string) (client : Z) : Py conn response :=
  data ← info_domain domain;
  match data with
  | None => mthrow TypeError
  | Some r =>
      if (registrar r =? client)%Z then
        mret (ok (str_of_Z client +:+ " is already the registrar of " +:+ domain))
      else
        data ← transfer_pending domain;
        match data with
        | Some t =>
            mret (ok ("Domain " +:+ domain +:+ " already has a transfer to registrar "
                      +:+ str_of_Z (t_winner t) +:+ " pending (since "
                      +:+ datetime_format " " (t_created t) +:+ ")"))
        | None =>
            transfer_insert domain client;; commit;;
            mret (ok ("Domain " +:+ domain +:+ " transfer to registrar "
                      +:+ str_of_Z client +:+ " started"))
        end
  end.

(** The whole handler.  [auth_registrar None _] is [false]
    ([authentic_None]), so the two failing cases of the first [match] are
    the code's single [if not authenticated] branch. *)
Definition transfer_domain (domain method : string) (extra : option string)
    (client : option Z) (password : option string) : Py conn response :=
  authenticated ← auth_registrar client password;
  match client, authenticated with
  | Some u, true =>
      output ← info_domain domain;
      match output with
      | None => mret (not_found domain)
      | Some row =>
          if String.eqb method "GET" then
            data ← transfer_pending domain;
            match data with
            | None => mret (ok ("No pending transfer for " +:+ domain))
            | Some t =>
                mret (ok ("Domain " +:+ domain +:+ " has a transfer to registrar "
                          +:+ str_of_Z (t_winner t) +:+ " pending (since "
                          +:+ datetime_format " " (t_created t) +:+ ")"))
            end
          else if String.eqb method "POST" then
            match extra with
            | None => transfer_request domain u
            | Some x =>
                data ← transfer_pending domain;
                match data with
                | None => mret (st 404 "No transfer",
                                [("result", PStr ("No pending transfer of " +:+ domain +:+ " to act on"))])
                | Some t => transfer_action domain x u (t_winner t)
                end
            end
          else mret (st 405 ("Method " +:+ method +:+ " not supported"), info_dict domain row)
      end
  | _, _ => mret wrong_password
  end.

(** ** Runs of [transfer_domain] *)

Section Runs.
  Context (d : string) (u : Z) (p : string) (c : conn) (r : domain_row).
  Context (Hrow : domains (work c) !! d = Some r).
  Context (Hauth : registrars (work c) !! u = Some p) (Hok : aborted c = false).

  (** An authenticated POST on an existing domain. *)
Lemma transfer_post extra :
    transfer_domain d "POST" extra (Some u) (Some p) c =
      (match extra with
       | None => transfer_request d u
       | Some x =>
           data ← transfer_pending d;
           match data with
           | None => mret (st 404 "No transfer",
                           [("result", PStr ("No pending transfer of " +:+ d +:+ " to act on"))])
           | Some t => transfer_action d x u (t_winner t)
           end
       end) c.
  Proof.
    unfold transfer_domain. query_step. unfold authentic.
    rewrite (bool_decide_eq_true_2 _ Hauth). simpl. query_step. by rewrite Hrow.
  Qed.

Lemma request_by_owner :
    registrar r = u ->
    transfer_domain d "POST" None (Some u) (Some p) c =
      (Ok (ok (str_of_Z u +:+ " is already the registrar of " +:+ d)), c).
  Proof.
    intros Hu. rewrite transfer_post. unfold transfer_request. query_step.
    by rewrite Hrow, Hu, Z.eqb_refl.
  Qed.

Lemma request_pending t :
    registrar r <> u -> List.find (pending_for d) (transfers (work c)) = Some t ->
    transfer_domain d "POST" None (Some u) (Some p) c =
      (Ok (ok ("Domain " +:+ d +:+ " already has a transfer to registrar "
               +:+ str_of_Z (t_winner t) +:+ " pending (since "
               +:+ datetime_format " " (t_created t) +:+ ")")), c).
  Proof.
    intros Hu Ht. rewrite transfer_post. unfold transfer_request. query_step.
    rewrite Hrow. destruct (Z.eqb_spec (registrar r) u); [done|]. query_step. by rewrite Ht.
  Qed.

Lemma request_new :
    registrar r <> u -> List.find (pending_for d) (transfers (work c)) = None ->
    serialization_fault c = false ->
    transfer_domain d "POST" None (Some u) (Some p) c =
      (Ok (ok ("Domain " +:+ d +:+ " transfer to registrar " +:+ str_of_Z u +:+ " started")),
       commit_conn (with_transfer c d u)).
  Proof.
    intros Hu Hn Hf. rewrite transfer_post. unfold transfer_request. query_step.
    rewrite Hrow. destruct (Z.eqb_spec (registrar r) u); [done|]. query_step. rewrite Hn.
    erewrite bind_ok by (by apply transfer_insert_ok). reflexivity.
  Qed.

Lemma action_no_pending x :
    List.find (pending_for d) (transfers (work c)) = None ->
    transfer_domain d "POST" (Some x) (Some u) (Some p) c =
      (Ok (st 404 "No transfer", [("result", PStr ("No pending transfer of " +:+ d +:+ " to act on"))]), c).
  Proof. intros Hn. rewrite transfer_post. query_step. by rewrite Hn. Qed.

  Context (t : transfer_row) (Ht : List.find (pending_for d) (transfers (work c)) = Some t).

Lemma action_pending x :
    transfer_domain d "POST" (Some x) (Some u) (Some p) c = transfer_action d x u (t_winner t) c.
  Proof. rewrite transfer_post. query_step. by rewrite Ht. Qed.

Lemma cancel_by_winner :
    t_winner t = u ->
    transfer_domain d "POST" (Some "cancelation") (Some u) (Some p) c =
      (Ok (ok ("Transfer of " +:+ d +:+ " cancelled")),
       commit_conn (set_work c (without_pending (work c) d))).
  Proof.
    intros Hw. rewrite action_pending. unfold transfer_action. simpl. rewrite Hw, Z.eqb_refl. simpl.
    erewrite bind_ok by (by apply transfer_delete_pending_run). reflexivity.
  Qed.

Lemma cancel_by_other :
    t_winner t <> u ->
    transfer_domain d "POST" (Some "cancelation") (Some u) (Some p) c =
      (Ok (st 403 "Not yours", [("result", PStr "This is not your transfer")]), c).
  Proof.
    intros Hw. rewrite action_pending. unfold transfer_action. simpl.
    by destruct (Z.eqb_spec (t_winner t) u).
  Qed.

  (** The current registrar decides ([approval] and [rejection]); anyone
      else gets 403. *)
Lemma decide_by_other x :
    registrar r <> u -> x = "approval" \/ x = "rejection" ->
    transfer_domain d "POST" (Some x) (Some u) (Some p) c =
      (Ok (st 403 "Not yours", [("result", PStr "This is not your domain currently")]), c).
  Proof.
    intros Hu Hx. rewrite action_pending. unfold transfer_action.
    destruct Hx as [->| ->]; simpl; query_step; rewrite Hrow;
      by destruct (Z.eqb_spec (registrar r) u).
  Qed.

Lemma reject_by_registrar :
    registrar r = u ->
    transfer_domain d "POST" (Some "rejection") (Some u) (Some p) c =
      (Ok (ok ("Transfer of " +:+ d +:+ " rejected")),
       commit_conn (set_work c (without_pending (work c) d))).
  Proof.
    intros Hu. rewrite action_pending. unfold transfer_action. simpl. query_step.
    rewrite Hrow, Hu, Z.eqb_refl. simpl.
    erewrite bind_ok by (by apply transfer_delete_pending_run). reflexivity.
  Qed.

  (** The connection after a successful approval: the pending rows of [d]
      completed and the domain moved to the winner. *)
Definition approved_conn : conn :=
    commit_conn (set_work c (set_domains (completed_pending (work c) d)
                               (<[d := with_registrar (t_winner t) r]> (domains (work c))))).

  (** With several pending rows the first UPDATE reports a rowcount other
      than 1: the handler answers 500 without rolling back, and the rows it
      marked completed stay in the open transaction. *)
Lemma approve_duplicate :
    registrar r = u -> length (pending_rows (work c) d) <> 1 ->
    transfer_domain d "POST" (Some "approval") (Some u) (Some p) c =
      (Ok (st 500 "Internal error", [("result", PStr "Update of transfer failed")]),
       set_work c (completed_pending (work c) d)).
  Proof.
    intros Hu Hn. rewrite action_pending. unfold transfer_action. simpl. query_step.
    rewrite Hrow, Hu, Z.eqb_refl. simpl.
    erewrite bind_ok by (by apply transfer_complete_pending_run).
    destruct (Z.eqb_spec (Z.of_nat (length (pending_rows (work c) d))) 1); [lia|]. reflexivity.
  Qed.

Lemma approve_by_registrar :
    registrar r = u -> length (pending_rows (work c) d) = 1 ->
    transfer_domain d "POST" (Some "approval") (Some u) (Some p) c =
      (Ok (ok ("Transfer of " +:+ d +:+ " approved")), approved_conn).
  Proof.
    intros Hu H1. rewrite action_pending. unfold transfer_action. simpl. query_step.
    rewrite Hrow, Hu, Z.eqb_refl. simpl.
    erewrite bind_ok by (by apply transfer_complete_pending_run). rewrite H1. simpl.
    erewrite bind_ok by (by apply domain_update_some). reflexivity.
  Qed.
End Runs.

(** ** The single-pending invariant *)

Lemma transfer_action_transfers d x u w : preserves transfers_ok (transfer_action d x u w).
Proof. unfold transfer_action. preserve. Qed.

(** A new request inserts a row only after finding none pending. *)
Lemma transfer_request_transfers d u : preserves transfers_ok (transfer_request d u).
Proof.
  intros c Hc. unfold transfer_request. destruct (aborted c) eqn:Hab.
  { by rewrite (query_bind_abort (info_domain d) _). }
  query_step. destruct (domains (work c) !! d) as [r|]; [|done].
  destruct (registrar r =? u)%Z; [done|]. query_step.
  destruct (List.find (pending_for d) (transfers (work c))) eqn:Hn; [done|].
  unfold mbind, ST_bind. pose proof (transfer_insert_transfers c d u Hn Hc) as Hi.
  destruct (transfer_insert d u c) as [[]] eqn:E; [|done]. simpl in *.
  by apply both_commit.
Qed.

(** ** The abstract transfer machine of the spec (section 4.5)

    For one domain, the spec's state is its registrar and whether a
    transfer is pending (to which winner).  A request by the owner changes
    nothing; a request while one is pending changes nothing; otherwise it
    opens a pending transfer.  The winner may cancel it; the current
    registrar may approve it (the winner becomes the registrar) or reject
    it. *)

Inductive tstate := NoTransfer | Pending (winner : Z).

Inductive taction := Request (u : Z) | Cancel (u : Z) | Approve (u : Z) | Reject (u : Z).

Inductive tstep : Z * tstate -> taction -> Z * tstate -> Prop :=
  | ts_request_owner r s : tstep (r, s) (Request r) (r, s)
  | ts_request_pending r w u : u <> r -> tstep (r, Pending w) (Request u) (r, Pending w)
  | ts_request_new r u : u <> r -> tstep (r, NoTransfer) (Request u) (r, Pending u)
  | ts_cancel r w : tstep (r, Pending w) (Cancel w) (r, NoTransfer)
  | ts_approve r w : tstep (r, Pending w) (Approve r) (w, NoTransfer)
  | ts_reject r w : tstep (r, Pending w) (Reject r) (r, NoTransfer).

#[export] Hint Constructors tstep : rpp.

(** The machine as a function: [None] when the action is refused. *)
Definition tnext (v : Z * tstate) (a : taction) : option (Z * tstate) :=
  let '(r, s) := v in
  match a, s with
  | Request u, _ => if (u =? r)%Z then Some v
                    else match s with
                         | Pending _ => Some v
                         | NoTransfer => Some (r, Pending u)
                         end
  | Cancel u, Pending w => if (w =? u)%Z then Some (r, NoTransfer) else None
  | Approve u, Pending w => if (r =? u)%Z then Some (w, NoTransfer) else None
  | Reject u, Pending w => if (r =? u)%Z then Some (r, NoTransfer) else None
  | _, NoTransfer => None
  end.

Lemma tnext_tstep v a v' : tnext v a = Some v' <-> tstep v a v'.
Proof.
  destruct v as [r s]. split.
  - destruct a as [u|u|u|u], s as [|w]; simpl;
      repeat match goal with
             | |- context [(?x =? ?y)%Z] => destruct (Z.eqb_spec x y)
             end; intros; simplify_eq; eauto with rpp.
  - inversion 1; subst; simpl;
      repeat match goal with
             | |- context [(?x =? ?y)%Z] => destruct (Z.eqb_spec x y)
             end; congruence.
Qed.

(** What a POST [extra] by registrar [u] asks the machine. *)
Definition action_of (extra : option string) (u : Z) : option taction :=
  match extra with
  | None => Some (Request u)
  | Some x => if String.eqb x "cancelation" then Some (Cancel u)
              else if String.eqb x "approval" then Some (Approve u)
              else if String.eqb x "rejection" then Some (Reject u)
              else None
  end.

(** The abstraction of the store: the first pending row of the domain. *)
Definition abs_pending (w : db) (d : string) : tstate :=
  match List.find (pending_for d) (transfers w) with
  | None => NoTransfer
  | Some t => Pending (t_winner t)
  end.

Definition view (c : conn) (d : string) : option (Z * tstate) :=
  match domains (work c) !! d with
  | None => None
  | Some r => Some (registrar r, abs_pending (work c) d)
  end.

Section Views.
Context (c : conn) (d : string) (r : domain_row) (Hrow : domains (work c) !! d = Some r).
Context (Hok : aborted c = false).

Lemma view_unchanged : view c d = Some (registrar r, abs_pending (work c) d).
  Proof. unfold view. by rewrite Hrow. Qed.

Lemma view_with_transfer u :
    List.find (pending_for d) (transfers (work c)) = None ->
    view (commit_conn (with_transfer c d u)) d = Some (registrar r, Pending u).
  Proof.
    intros Hn. unfold view, abs_pending. rewrite commit_conn_work by done. simpl.
    rewrite Hrow, find_app_none by done.
    unfold pending_for. simpl. by rewrite String.eqb_refl.
  Qed.

Lemma view_without_pending :
    view (commit_conn (set_work c (without_pending (work c) d))) d = Some (registrar r, NoTransfer).
  Proof.
    unfold view, abs_pending. rewrite commit_conn_work by done. simpl.
    rewrite Hrow, filter_nil_find; [done|]. apply without_pending_none.
  Qed.

Lemma view_approved t : view (approved_conn d c r t) d = Some (t_winner t, NoTransfer).
  Proof.
    unfold view, abs_pending, approved_conn. rewrite commit_conn_work by done. simpl.
    rewrite lookup_insert_eq, filter_nil_find; [done|].
    apply (completed_pending_none (work c) d).
  Qed.
End Views.

Lemma transfers_ok_commit c :
  aborted c = false -> single_pending (work c) -> transfers_ok (commit_conn c).
Proof. unfold commit_conn. intros ->. by split. Qed.

Lemma transfers_ok_work c : transfers_ok c -> single_pending (work c).
Proof. by intros []. Qed.

#[export] Hint Resolve transfers_ok_commit transfers_ok_work without_pending_single
  completed_pending_single with_transfer_single : rpp.

(** The end of a refused or answered-only action: nothing changed. *)
Lemma refine_stay c d v a (resp : response) :
  clean c -> transfers_ok c -> view c d = Some v -> tnext v a = None -> code (fst resp) <> 200%Z ->
  clean c /\ transfers_ok c /\ view c d = Some (default v (tnext v a)) /\
  exists resp', @Ok exn _ resp = Ok resp' /\ (code (fst resp') = 200%Z <-> is_Some (tnext v a)).
Proof.
  intros Hc Hi Hview Hn Hcode. rewrite Hn. split_and!; [done|done|done|].
  exists resp. split; [done|]. split; [done|]. intros []%is_Some_None.
Qed.

(** The end of an accepted action. *)
Lemma refine_move c' d v a v' (resp : response) :
  clean c' -> transfers_ok c' -> view c' d = Some v' -> tnext v a = Some v' ->
  code (fst resp) = 200%Z ->
  clean c' /\ transfers_ok c' /\ view c' d = Some (default v (tnext v a)) /\
  exists resp', @Ok exn _ resp = Ok resp' /\ (code (fst resp') = 200%Z <-> is_Some (tnext v a)).
Proof.
  intros Hc Hi Hv Hn Hcode. rewrite Hn. split_and!; [done|done|done|].
  exists resp. split; [done|]. split; [by eauto|done].
Qed.

(** What the refinement theorem asserts of one call, from the view [v]
    before it and the action [a] it performs. *)
Definition refines (d : string) (v : Z * tstate) (a : taction)
    (oc : outcome exn response * conn) : Prop :=
  let '(o, c') := oc in
  clean c' /\ transfers_ok c' /\ view c' d = Some (default v (tnext v a)) /\
  exists resp, o = Ok resp /\ (code (fst resp) = 200%Z <-> is_Some (tnext v a)).

Section Refinement.
Context (d : string) (u : Z) (p : string) (c : conn) (r : domain_row).
Hypotheses (Hi : transfers_ok c) (Hc : clean c)
  (Hrow : domains (work c) !! d = Some r) (Hauth : registrars (work c) !! u = Some p).

Local Ltac commit_ok lem :=
  apply transfers_ok_commit; [usable | apply lem; auto with rpp].

Lemma view_pending t :
  List.find (pending_for d) (transfers (work c)) = Some t ->
  view c d = Some (registrar r, Pending (t_winner t)).
Proof. intros Ht. rewrite (view_unchanged c d r Hrow). unfold abs_pending. by rewrite Ht. Qed.

Lemma view_idle :
  List.find (pending_for d) (transfers (work c)) = None -> view c d = Some (registrar r, NoTransfer).
Proof. intros Ht. rewrite (view_unchanged c d r Hrow). unfold abs_pending. by rewrite Ht. Qed.

(** An action while a transfer is pending. *)
Lemma refine_pending t x a :
  List.find (pending_for d) (transfers (work c)) = Some t -> action_of (Some x) u = Some a ->
  refines d (registrar r, Pending (t_winner t)) a (transfer_domain d "POST" (Some x) (Some u) (Some p) c).
Proof.
  intros Ht Ha. pose proof (view_pending t Ht) as Hview. simpl in Ha. revert Ha.
  destruct (String.eqb_spec x "cancelation") as [->|Hx1];
    [|destruct (String.eqb_spec x "approval") as [->|Hx2];
      [|destruct (String.eqb_spec x "rejection") as [->|Hx3]; [|discriminate]]];
    intros [= <-].
  - destruct (Z.eqb_spec (t_winner t) u) as [Hw|Hw].
    + rewrite (cancel_by_winner d u p c r Hrow Hauth (clean_usable c Hc) t Ht Hw).
      eapply refine_move; [apply commit_conn_is_clean | commit_ok without_pending_single
                          | exact (view_without_pending c d r Hrow (clean_usable c Hc)) | | done].
      simpl. by rewrite Hw, Z.eqb_refl.
    + rewrite (cancel_by_other d u p c r Hrow Hauth (clean_usable c Hc) t Ht Hw).
      apply (refine_stay c d); [done..| |done]. simpl. by destruct (Z.eqb_spec (t_winner t) u).
  - destruct (Z.eqb_spec (registrar r) u) as [Hu|Hu].
    + rewrite (approve_by_registrar d u p c r Hrow Hauth (clean_usable c Hc) t Ht Hu)
        by (eapply single_pending_find_one; eauto with rpp).
      eapply refine_move; [apply commit_conn_is_clean | commit_ok completed_pending_single
                          | exact (view_approved c d r (clean_usable c Hc) t) | | done].
      simpl. by rewrite Hu, Z.eqb_refl.
    + rewrite (decide_by_other d u p c r Hrow Hauth (clean_usable c Hc) t Ht "approval" Hu) by auto.
      apply (refine_stay c d); [done..| |done]. simpl. by destruct (Z.eqb_spec (registrar r) u).
  - destruct (Z.eqb_spec (registrar r) u) as [Hu|Hu].
    + rewrite (reject_by_registrar d u p c r Hrow Hauth (clean_usable c Hc) t Ht Hu).
      eapply refine_move; [apply commit_conn_is_clean | commit_ok without_pending_single
                          | exact (view_without_pending c d r Hrow (clean_usable c Hc)) | | done].
      simpl. by rewrite Hu, Z.eqb_refl.
    + rewrite (decide_by_other d u p c r Hrow Hauth (clean_usable c Hc) t Ht "rejection" Hu) by auto.
      apply (refine_stay c d); [done..| |done]. simpl. by destruct (Z.eqb_spec (registrar r) u).
Qed.

(** An action with no transfer pending: refused with 404. *)
Lemma refine_idle x a :
  List.find (pending_for d) (transfers (work c)) = None -> action_of (Some x) u = Some a ->
  refines d (registrar r, NoTransfer) a (transfer_domain d "POST" (Some x) (Some u) (Some p) c).
Proof.
  intros Ht Ha. pose proof (view_idle Ht). simpl in Ha.
  destruct (String.eqb x "cancelation"); [|destruct (String.eqb x "approval");
    [|destruct (String.eqb x "rejection")]]; simplify_eq;
    rewrite (action_no_pending d u p c r Hrow Hauth (clean_usable c Hc) x Ht); (apply (refine_stay c d); done).
Qed.

(** A transfer request. *)
Lemma refine_request :
  serialization_fault c = false ->
  refines d (registrar r, abs_pending (work c) d) (Request u)
    (transfer_domain d "POST" None (Some u) (Some p) c).
Proof.
  intros Hf. unfold abs_pending.
  destruct (List.find (pending_for d) (transfers (work c))) as [t|] eqn:Ht;
    destruct (Z.eqb_spec (registrar r) u) as [Hu|Hu].
  1,3: rewrite (request_by_owner d u p c r Hrow Hauth (clean_usable c Hc) Hu);
    eapply refine_move; [done|done|by apply view_unchanged| |done];
    simpl; unfold abs_pending; by rewrite Ht, Hu, Z.eqb_refl.
  - rewrite (request_pending d u p c r Hrow Hauth (clean_usable c Hc) t Hu Ht).
    eapply refine_move; [done|done|by apply view_pending| |done].
    simpl. by destruct (Z.eqb_spec u (registrar r)); [congruence|].
  - rewrite (request_new d u p c r Hrow Hauth (clean_usable c Hc) Hu Ht Hf).
    eapply refine_move; [apply commit_conn_is_clean | commit_ok with_transfer_single
                        | exact (view_with_transfer c d r Hrow (clean_usable c Hc) u Ht) | | done].
    simpl. by destruct (Z.eqb_spec u (registrar r)); [congruence|].
Qed.

End Refinement.

(** C9: refinement.  On a store where every domain has at most one pending
    transfer and no uncommitted change, an authenticated POST on an existing
    domain performs exactly the step of the spec's machine on the view
    (registrar, pending winner) of that domain: the new view is the one
    [tnext] computes, or the old one when the machine refuses the action;
    the response is 200 exactly when the machine accepts; and the
    connection is again clean and satisfies the invariant. *)
Theorem transfer_refines d u p c r extra a :
  transfers_ok c -> clean c -> serialization_fault c = false ->
  domains (work c) !! d = Some r -> registrars (work c) !! u = Some p ->
  action_of extra u = Some a ->
  let v := (registrar r, abs_pending (work c) d) in
  let '(o, c') := transfer_domain d "POST" extra (Some u) (Some p) c in
  clean c' /\ transfers_ok c' /\ view c' d = Some (default v (tnext v a)) /\
  exists resp, o = Ok resp /\ (code (fst resp) = 200%Z <-> is_Some (tnext v a)).
Proof.
  intros Hi Hc Hf Hrow Hauth Ha v.
  change (refines d v a (transfer_domain d "POST" extra (Some u) (Some p) c)). subst v.
  destruct extra as [x|]; [|injection Ha as <-; by apply refine_request].
  unfold abs_pending. destruct (List.find (pending_for d) (transfers (work c))) eqn:Ht.
  - by eapply refine_pending.
  - by eapply refine_idle.
Qed.

(** Every call of [transfer_domain] keeps at most one pending transfer per
    domain, and the domain quota. *)
Lemma transfer_domain_single_pending d method extra client password :
  preserves transfers_ok (transfer_domain d method extra client password).
Proof. unfold transfer_domain. preserve; auto using transfer_action_transfers, transfer_request_transfers. Qed.

Lemma transfer_domain_quota d method extra client password :
  preserves quota_ok (transfer_domain d method extra client password).
Proof. unfold transfer_domain, transfer_request, transfer_action. preserve. Qed.

End Transfer.
