(* ===== verification/DomainHandler.v ===== *)
(** * [handle_domain]: the [/domains/<name>] resource

    [handle_domain] (lines 318-456 of [registry.py]) lower-cases the name,
    refuses names outside [.example], hands [transfer] and [availability]
    to [Transfer.transfer_domain] and [Domain.availability_domain], and
    otherwise serves HEAD, GET, PUT, PATCH and DELETE.  The PUT, PATCH and
    DELETE blocks are separate definitions below, each with its early
    returns and its two levels of [try/except] as in the source. *)

From S2P Require Import Prelude PyBase Json Schema Store Auth Domain Transfer.
Import Store Auth Domain Transfer.

Module DomainHandler.

Definition unauthenticated (why : string) : response :=
  (st 401 "Unauthenticated", [("result", PStr why)]).

(** Lines 358-394. *)
Definition handle_domain_put (domain : string) (length : Z) (body : option string)
    (user : option Z) (password : option string) : Py conn response :=
  match user with
  | None => mret (unauthenticated "You must authenticate to create a domain")
  | Some u =>
      authenticated ← auth_registrar user password;
      if negb authenticated then mret wrong_password
      else match body with
      | None => mret (st 400 "Empty", [("result", PStr ("No JSON body to create " +:+ domain))])
      | Some b =>
          let jinput := read_body b length in
          try_except
            (data ← eval (Schema.validate_json jinput "domain" "put");
             try_except
               (h ← eval (getitem data "holder");
                t ← eval (getitem data "tech");
                a ← eval (getitem data "admin");
                store_domain domain h t a u;;
                mret (st 201 "Created", [("result", PStr (domain +:+ " created"))]))
               (fun e => match e with
                 | AlreadyExists => Some (mret (st 412 "Exists",
                                     [("result", PStr (domain +:+ " already exists"))]))
                 | TooManyDomains => Some (mret (st 400 "Too many",
                                      [("result", PStr "Too many domains already")]))
                 | Conflict => Some (mret (st 500 "Conflict",
                                 [("result", PStr "Internal conflict")]))
                 | _ => None
                 end))
            (fun e => match e with
              | ValidationError m => Some (mret (st 400 "Invalid JSON",
                  [("result", PStr ("Invalid JSON body (" +:+ m +:+ ") for " +:+ domain))]))
              | JSONDecodeError => Some (mret (st 400 "Invalid",
                  [("result", PStr ("Invalid JSON body for " +:+ domain))]))
              | _ => None
              end)
      end
  end.

(** Lines 395-424. *)
Definition handle_domain_patch (domain : string) (length : Z) (body : option string)
    (user : option Z) (password : option string) : Py conn response :=
  match user with
  | None => mret (unauthenticated ("You must authenticate as the registrar of " +:+ domain))
  | Some _ =>
      authenticated ← auth_registrar user password;
      if negb authenticated then mret wrong_password
      else match body with
      | None => mret (st 400 "Empty", [("result", PStr ("No JSON body to patch " +:+ domain))])
      | Some b =>
          let jinput := read_body b length in
          try_except
            (data ← eval (Schema.validate_json jinput "domain" "patch");
             try_except (patch_domain domain data)
               (fun e => match e with
                 | Conflict => Some (mret (st 500 "Conflict", [("result", PStr "Internal conflict")]))
                 | _ => None
                 end))
            (fun e => match e with
              | ValidationError m => Some (mret (st 400 "Invalid JSON",
                  [("result", PStr ("Invalid JSON body (" +:+ m +:+ ") for " +:+ domain))]))
              | JSONDecodeError => Some (mret (st 400 "Invalid",
                  [("result", PStr ("Invalid JSON body for " +:+ domain))]))
              | _ => None
              end)
      end
  end.

(** Lines 425-453. *)
Definition handle_domain_delete (domain : string) (user : option Z)
    (password : option string) : Py conn response :=
  match user with
  | None => mret (unauthenticated ("You must authenticate as the registrar of " +:+ domain))
  | Some u =>
      info ← info_domain domain;
      match info with
      | None => mret (st 404 "Not found", [("result", PStr (domain +:+ " does not exist"))])
      | Some r =>
          if negb (u =? registrar r)%Z then
            mret (st 403 "Forbidden",
                  [("result", PStr ("You (" +:+ str_of_Z u +:+ ") are not the registrar of "
                                    +:+ domain +:+ " (" +:+ str_of_Z (registrar r) +:+ ")"))])
          else
            authenticated ← auth_registrar user password;
            if negb authenticated then
              mret (st 401 "Wrong password",
                    [("result", PStr ("You must authenticate as the registrar of " +:+ domain))])
            else
              try_except
                (delete_domain domain;;
                 mret (st 202 "Accepted", [("result", PStr (domain +:+ " deleted"))]))
                (fun e => match e with
                  | DoesNotExist => Some (mret (st 404 "Not found",
                                      [("result", PStr (domain +:+ " does not exist"))]))
                  | Immutable => Some (mret (st 423 "Immutable",
                                   [("result", PStr (domain +:+ " cannot be deleted"))]))
                  | _ => None
                  end)
      end
  end.

(** Lines 346-357. *)
Definition handle_domain_get (domain : string) : Py conn response :=
  output ← info_domain domain;
  match output with
  | None => mret (not_found domain)
  | Some r =>
      mret (st 200 "OK",
            [("result", PStr ("Domain " +:+ domain +:+ " exists"));
             ("holder", PStr (holder r)); ("tech_contact", PStr (tech r));
             ("admin_contact", PStr (admin r)); ("registrar", PInt (registrar r));
             ("created", PTime (created r))])
  end.

Definition handle_domain (domain0 method : string) (operation extra : option string)
    (length : Z) (body : option string) (user : option Z) (password : option string)
    : Py conn response :=
  let domain := str_lower domain0 in
  if negb (str_endswith domain ("." +:+ TLD)) then
    mret (st 400 ("Domain name must be under ." +:+ TLD), [])
  else match operation with
  | Some op =>
      if String.eqb op "transfer" then transfer_domain domain method extra user password
      else if String.eqb op "availability" then availability_domain domain method
      else mret (st 400 "Unknown operation",
                 [("result", PStr ("Unknown operation " +:+ op +:+ " for domain " +:+ domain))])
  | None =>
      if String.eqb method "HEAD" then
        output ← head_domain domain;
        match output with
        | None => mret (st 404 "Not found", [])
        | Some _ => mret (st 200 "OK", [])
        end
      else if String.eqb method "GET" then handle_domain_get domain
      else if String.eqb method "PUT" then handle_domain_put domain length body user password
      else if String.eqb method "PATCH" then handle_domain_patch domain length body user password
      else if String.eqb method "DELETE" then handle_domain_delete domain user password
      else mret (st 405 ("Method " +:+ method +:+ " not supported"), [])
  end.

(** The output of a successful GET (lines 352-357). *)
Definition get_output (domain : string) (r : domain_row) : dict :=
  [("result", PStr ("Domain " +:+ domain +:+ " exists"));
   ("holder", PStr (holder r)); ("tech_contact", PStr (tech r));
   ("admin_contact", PStr (admin r)); ("registrar", PInt (registrar r));
   ("created", PTime (created r))].

Lemma handle_domain_get_found domain c r :
  aborted c = false -> domains (work c) !! domain = Some r ->
  handle_domain_get domain c = (Ok (st 200 "OK", get_output domain r), c).
Proof. intros Hok Hr. unfold handle_domain_get, info_domain. query_step. by rewrite Hr. Qed.

(** ** Routing lemmas *)

(** A name [handle_domain] keeps as it is and accepts: lower-case and
    under [.example]. *)
Definition canonical_name (d : string) : bool :=
  String.eqb (str_lower d) d && str_endswith d ("." +:+ TLD).

Ltac route :=
  match goal with
  | H : canonical_name _ = true |- _ =>
      unfold handle_domain; apply andb_true_iff in H as [Hlow Hend];
      apply String.eqb_eq in Hlow; rewrite Hlow, Hend; reflexivity
  end.

Section Routes.
  Context (d : string) (Hd : canonical_name d = true).
  Context (extra : option string) (len : Z) (body : option string).
  Context (user : option Z) (password : option string).

Lemma route_put : handle_domain d "PUT" None extra len body user password =
                    handle_domain_put d len body user password.
  Proof. route. Qed.

Lemma route_patch : handle_domain d "PATCH" None extra len body user password =
                      handle_domain_patch d len body user password.
  Proof. route. Qed.

Lemma route_delete : handle_domain d "DELETE" None extra len body user password =
                       handle_domain_delete d user password.
  Proof. route. Qed.

Lemma route_get : handle_domain d "GET" None extra len body user password =
                    handle_domain_get d.
  Proof. route. Qed.

Lemma route_transfer method : handle_domain d method (Some "transfer") extra len body user password =
                                transfer_domain d method extra user password.
  Proof. route. Qed.

Lemma route_availability method :
    handle_domain d method (Some "availability") extra len body user password = availability_domain d method.
  Proof. route. Qed.
End Routes.

(** The availability check of a free name the rule refuses: 404, with the
    reason [registerable] gives, and nothing changed. *)
Lemma availability_free_refused d why c :
  aborted c = false -> domains (work c) !! d = None -> registerable d = Ok (NotRegisterable why) ->
  availability_domain d "GET" c =
    (Ok (st 404 "Not found",
         [("result", PStr ("Domain " +:+ d +:+ " NOT found. " +:+ ("It cannot be registered because " +:+ why)))]), c).
Proof.
  intros Hok Hnone Hreg. unfold availability_domain.
  rewrite (query_bind (head_domain d) _ _ c Hok), Hnone. cbn [String.eqb Ascii.eqb Bool.eqb].
  by rewrite Hreg.
Qed.

(** ** PUT through [store_domain] *)

(** The response of the two [try] blocks of the PUT branch to the outcome
    of [store_domain]. *)
Definition put_outcome (domain : string) (o : outcome exn unit) : outcome exn response :=
  match o with
  | Ok _ => Ok (st 201 "Created", [("result", PStr (domain +:+ " created"))])
  | Raise AlreadyExists => Ok (st 412 "Exists", [("result", PStr (domain +:+ " already exists"))])
  | Raise TooManyDomains => Ok (st 400 "Too many", [("result", PStr "Too many domains already")])
  | Raise Conflict => Ok (st 500 "Conflict", [("result", PStr "Internal conflict")])
  | Raise (ValidationError m) =>
      Ok (st 400 "Invalid JSON", [("result", PStr ("Invalid JSON body (" +:+ m +:+ ") for " +:+ domain))])
  | Raise JSONDecodeError => Ok (st 400 "Invalid", [("result", PStr ("Invalid JSON body for " +:+ domain))])
  | Raise e => Raise e
  end.

(** The three contacts of a creation body, when it decodes to a dict with
    string [holder], [tech] and [admin] ([data["holder"]], ... of line 377). *)
Definition body_contacts (b : string) (len : Z) : option (string * string * string) :=
  match Json.json_loads (read_body b len) with
  | Ok data =>
      match getitem data "holder", getitem data "tech", getitem data "admin" with
      | Ok (PStr h), Ok (PStr t), Ok (PStr a) => Some (h, t, a)
      | _, _, _ => None
      end
  | Raise _ => None
  end.

(** An authenticated PUT with a well-formed body is [store_domain] with the
    body's three contacts and the caller as registrar. *)
Lemma put_runs_store_domain domain len b u p c h t a :
  aborted c = false -> registrars (work c) !! u = Some p -> body_contacts b len = Some (h, t, a) ->
  handle_domain_put domain len (Some b) (Some u) (Some p) c =
    let '(o, c') := store_domain domain (PStr h) (PStr t) (PStr a) u c in (put_outcome domain o, c').
Proof.
  intros Hok Hr Hb. unfold body_contacts in Hb.
  destruct (Json.json_loads (read_body b len)) as [data|] eqn:Hj; [|done].
  destruct (getitem data "holder") as [[]|] eqn:Hh; try done;
  destruct (getitem data "tech") as [[]|] eqn:Ht; try done;
  destruct (getitem data "admin") as [[]|] eqn:Ha; try done. injection Hb as -> -> ->.
  unfold handle_domain_put. query_step. unfold authentic.
  rewrite (bool_decide_eq_true_2 _ Hr). simpl.
  rewrite (Schema.validate_put_ok _ _ _ _ _ Hj Hh Ht Ha). unfold eval, lift. st_unfold. simpl.
  rewrite Hh, Ht, Ha. simpl.
  destruct (store_domain domain (PStr h) (PStr t) (PStr a) u c) as [[[]|[]] c']; reflexivity.
Qed.

(** ** Domain creation *)

Section Put.
  Context (d : string) (Hd : canonical_name d = true).
  Context (extra : option string) (len : Z) (b : string) (u : Z) (p : string).
  Context (h t a : string) (Hb : body_contacts b len = Some (h, t, a)).
  Context (c : conn) (Hr : registrars (work c) !! u = Some p) (Hok : aborted c = false).

Lemma put_store :
    handle_domain d "PUT" None extra len (Some b) (Some u) (Some p) c =
      let '(o, c') := store_domain d (PStr h) (PStr t) (PStr a) u c in (put_outcome d o, c').
  Proof. rewrite route_put by done. by apply put_runs_store_domain. Qed.

  (** C1: an authenticated registrar creating a free name under the quota
      gets 201; the store commits the row with the body's contacts, the
      caller as registrar and the creation time, and nothing else. *)
Theorem put_creates_domain :
    domains (work c) !! d = None -> (domain_total c < MAX_DOMAINS)%Z ->
    serialization_fault c = false ->
    handle_domain d "PUT" None extra len (Some b) (Some u) (Some p) c =
      (Ok (st 201 "Created", [("result", PStr (d +:+ " created"))]),
       commit_conn (with_domain c d (mkDomain h t a u (clock c)))).
  Proof. intros Hfree Hn Hf. rewrite put_store. by rewrite store_domain_ok. Qed.

  (** C2: create then read: after a successful creation, a GET of the name
      (by anyone, with any body) returns 200 with the contacts just stored,
      the creating registrar and the creation time. *)
Theorem put_get_roundtrip extra' len' body' user' password' :
    domains (work c) !! d = None -> (domain_total c < MAX_DOMAINS)%Z ->
    serialization_fault c = false ->
    let c' := snd (handle_domain d "PUT" None extra len (Some b) (Some u) (Some p) c) in
    handle_domain d "GET" None extra' len' body' user' password' c' =
      (Ok (st 200 "OK", get_output d (mkDomain h t a u (clock c))), c').
  Proof.
    intros Hfree Hn Hf c'. subst c'. rewrite put_store, store_domain_ok by done. cbn [snd].
    rewrite route_get by done. apply handle_domain_get_found; [apply clean_usable, commit_conn_is_clean|].
    rewrite commit_conn_work by done. apply lookup_insert_eq.
  Qed.

  (** C15: PUT never consults [registerable] (lines 190-198).  On the same
      store, a free name the business rule refuses (a one-letter label, a
      label starting with 0) is reported by the availability check as one
      that cannot be registered, with [registerable]'s reason, and a PUT of
      it is created like any other name.  The spec (section 4.3) says the
      rule runs before every creation. *)
Theorem put_ignores_registerable why body' user' password' :
    registerable d = Ok (NotRegisterable why) ->
    domains (work c) !! d = None -> (domain_total c < MAX_DOMAINS)%Z ->
    serialization_fault c = false ->
    handle_domain d "GET" (Some "availability") extra len body' user' password' c =
      (Ok (st 404 "Not found",
           [("result", PStr ("Domain " +:+ d +:+ " NOT found. " +:+ ("It cannot be registered because " +:+ why)))]), c) /\
    handle_domain d "PUT" None extra len (Some b) (Some u) (Some p) c =
      (Ok (st 201 "Created", [("result", PStr (d +:+ " created"))]),
       commit_conn (with_domain c d (mkDomain h t a u (clock c)))).
  Proof.
    intros Hreg Hfree Hn Hf. split.
    - rewrite (route_availability d Hd). by apply availability_free_refused.
    - rewrite put_store. by rewrite store_domain_ok.
  Qed.

  (** C3: creating a name that exists yields 412 and, on a connection with
      no pending change, leaves the store exactly as it was. *)
Theorem put_duplicate_keeps_store row :
    domains (work c) !! d = Some row -> (domain_total c < MAX_DOMAINS)%Z ->
    serialization_fault c = false -> clean c ->
    handle_domain d "PUT" None extra len (Some b) (Some u) (Some p) c =
      (Ok (st 412 "Exists", [("result", PStr (d +:+ " already exists"))]), c).
  Proof.
    intros Hrow Hn Hf Hc. rewrite put_store.
    erewrite store_domain_dup by eauto. by rewrite rollback_conn_clean.
  Qed.

  (** C4: once the store holds [MAX_DOMAINS] domains, creation yields 400
      "Too many" and changes nothing, whatever the name. *)
Theorem put_quota_refused :
    (MAX_DOMAINS <= domain_total c)%Z ->
    handle_domain d "PUT" None extra len (Some b) (Some u) (Some p) c =
      (Ok (st 400 "Too many", [("result", PStr "Too many domains already")]), c).
  Proof. intros Hn. rewrite put_store. by rewrite store_domain_full. Qed.
End Put.

(** ** Patch *)

(** The change set of a patch body [{"change": {"tech"?: .., "admin"?: ..}}]
    whose members are strings. *)
Definition patch_change (b : string) (len : Z) : option (option string * option string) :=
  match Json.json_loads (read_body b len) with
  | Ok data =>
      match getitem data "change" with
      | Ok (PDict chd) =>
          match str_opt (dict_get chd "tech"), str_opt (dict_get chd "admin") with
          | Some ot, Some oa => Some (ot, oa)
          | _, _ => None
          end
      | _ => None
      end
  | Raise _ => None
  end.

Lemma str_opt_opt_str v o : str_opt v = Some o -> Schema.opt_str v = true.
Proof. destruct v as [[]|]; simpl; congruence. Qed.

Lemma patch_runs d len b u p c r ot oa :
  aborted c = false -> registrars (work c) !! u = Some p -> patch_change b len = Some (ot, oa) ->
  domains (work c) !! d = Some r ->
  handle_domain_patch d len (Some b) (Some u) (Some p) c =
    (Ok (st 204 "Updated", [("result", PStr "Update done")]),
     commit_conn (set_work c (set_domains (work c) (<[d := patched ot oa r]> (domains (work c)))))).
Proof.
  intros Hok Hr Hb Hrow. unfold patch_change in Hb.
  destruct (Json.json_loads (read_body b len)) as [data|] eqn:Hj; [|done].
  destruct (getitem data "change") as [[]|] eqn:Hc; try done.
  destruct (str_opt (dict_get d0 "tech")) eqn:Ht, (str_opt (dict_get d0 "admin")) eqn:Ha; try done.
  injection Hb as -> ->.
  unfold handle_domain_patch. query_step. unfold authentic.
  rewrite (bool_decide_eq_true_2 _ Hr). simpl.
  rewrite (Schema.validate_patch_ok _ _ d0 Hj Hc) by
    (by rewrite (str_opt_opt_str _ _ Ht), (str_opt_opt_str _ _ Ha)).
  apply try_ok. erewrite bind_ok by reflexivity. apply try_ok.
  by apply (patch_domain_ok d data d0).
Qed.

Section Patch.
  Context (d : string) (Hd : canonical_name d = true).
  Context (extra : option string) (len : Z) (b : string) (u : Z) (p : string).
  Context (c : conn) (r : domain_row) (Hrow : domains (work c) !! d = Some r).
  Context (Hr : registrars (work c) !! u = Some p) (Hok : aborted c = false).

  (** C17: any authenticated registrar, sponsor of the domain or not,
      patches its technical and administrative contacts: 204 and the store
      commits the new values.  The spec (section 4.2) requires patch to
      check ownership; the code has a TODO there (line 405). *)
Theorem patch_without_ownership ot oa :
    patch_change b len = Some (ot, oa) ->
    handle_domain d "PATCH" None extra len (Some b) (Some u) (Some p) c =
      (Ok (st 204 "Updated", [("result", PStr "Update done")]),
       commit_conn (set_work c (set_domains (work c) (<[d := patched ot oa r]> (domains (work c)))))).
  Proof. intros Hb. rewrite route_patch by done. by apply patch_runs. Qed.

  (** C18: a patch with an empty change set answers 204 and leaves a clean
      store exactly as it was. *)
Theorem patch_empty_noop :
    patch_change b len = Some (None, None) -> clean c ->
    handle_domain d "PATCH" None extra len (Some b) (Some u) (Some p) c =
      (Ok (st 204 "Updated", [("result", PStr "Update done")]), c).
  Proof.
    intros Hb Hc. rewrite route_patch by done. rewrite (patch_runs d len b u p c r None None Hok Hr Hb Hrow).
    simpl. by rewrite (insert_id _ _ _ Hrow), set_domains_same, set_work_same, commit_conn_clean.
  Qed.
End Patch.

(** ** Domain deletion *)

(** The 403 of line 435. *)
Definition not_registrar (domain : string) (u : Z) (r : domain_row) : response :=
  (st 403 "Forbidden",
   [("result", PStr ("You (" +:+ str_of_Z u +:+ ") are not the registrar of "
                     +:+ domain +:+ " (" +:+ str_of_Z (registrar r) +:+ ")"))]).

Section Delete.
  Context (d : string) (extra : option string) (len : Z) (body : option string).
  Context (u : Z) (p : string) (c : conn) (r : domain_row).
  Context (Hrow : domains (work c) !! d = Some r) (Hok : aborted c = false).

Lemma delete_not_registrar :
    u <> registrar r ->
    handle_domain_delete d (Some u) (Some p) c = (Ok (not_registrar d u r), c).
  Proof.
    intros Hu. unfold handle_domain_delete, info_domain. query_step. rewrite Hrow.
    destruct (Z.eqb_spec u (registrar r)); [done|]. reflexivity.
  Qed.

  (** The owner, authenticated: what remains is [delete_domain] under its
      [try]. *)
Lemma delete_by_owner :
    registrar r = u -> registrars (work c) !! u = Some p ->
    handle_domain_delete d (Some u) (Some p) c =
      try_except (delete_domain d;; mret (st 202 "Accepted", [("result", PStr (d +:+ " deleted"))]))
        (fun e => match e with
          | DoesNotExist => Some (mret (st 404 "Not found", [("result", PStr (d +:+ " does not exist"))]))
          | Immutable => Some (mret (st 423 "Immutable", [("result", PStr (d +:+ " cannot be deleted"))]))
          | _ => None
          end) c.
  Proof.
    intros <- Hr. unfold handle_domain_delete, info_domain. query_step. rewrite Hrow.
    rewrite Z.eqb_refl. simpl. query_step. unfold authentic.
    by rewrite (bool_decide_eq_true_2 _ Hr).
  Qed.

  (** C12: the authenticated registrar of a domain other than [nic.example]
      deletes it: 202, and the store commits the table without the row. *)
Theorem delete_owner_ok :
    canonical_name d = true -> d <> nic_domain ->
    registrar r = u -> registrars (work c) !! u = Some p ->
    handle_domain d "DELETE" None extra len body (Some u) (Some p) c =
      (Ok (st 202 "Accepted", [("result", PStr (d +:+ " deleted"))]),
       commit_conn (set_work c (set_domains (work c) (delete d (domains (work c)))))).
  Proof.
    intros Hd Hn Hu Hr. rewrite route_delete by done. rewrite delete_by_owner by done.
    apply try_ok. erewrite bind_ok by (eapply delete_domain_ok; eauto). reflexivity.
  Qed.
End Delete.

Lemma nic_canonical : canonical_name nic_domain = true.
Proof. reflexivity. Qed.

(** C13: the authenticated registrar of [nic.example] cannot delete it: 423
    and the store is unchanged. *)
Theorem delete_nic_owner_immutable extra len body u p c r :
  aborted c = false -> domains (work c) !! nic_domain = Some r -> registrar r = u ->
  registrars (work c) !! u = Some p ->
  handle_domain nic_domain "DELETE" None extra len body (Some u) (Some p) c =
    (Ok (st 423 "Immutable", [("result", PStr (nic_domain +:+ " cannot be deleted"))]), c).
Proof.
  intros Hok Hrow Hu Hr. rewrite route_delete by apply nic_canonical.
  rewrite (delete_by_owner _ _ _ _ _ Hrow Hok Hu Hr).
  eapply try_caught; [apply bind_raise, delete_domain_nic | reflexivity | reflexivity].
Qed.

(** C14: a registrar that does not sponsor [nic.example] asking to delete
    it gets 403 "Forbidden", not 423: ownership is checked before
    immutability (lines 435-453), so the reserved name is reported as
    "Immutable" only to its own registrar. *)
Theorem delete_nic_non_owner_forbidden extra len body u p c r :
  aborted c = false -> domains (work c) !! nic_domain = Some r -> u <> registrar r ->
  handle_domain nic_domain "DELETE" None extra len body (Some u) (Some p) c =
    (Ok (not_registrar nic_domain u r), c).
Proof.
  intros Hok Hrow Hu. rewrite route_delete by apply nic_canonical.
  by apply delete_not_registrar.
Qed.

(** ** Transfers through [/domains/<name>/transfer] *)

Section Transfers.
  Context (d : string) (Hd : canonical_name d = true).
  Context (len : Z) (body : option string) (u : Z) (p : string).
  Context (c : conn) (r : domain_row).
  Context (Hrow : domains (work c) !! d = Some r).
  Context (Hauth : registrars (work c) !! u = Some p) (Hok : aborted c = false).

Definition transfer_post (extra : option string) : Py conn response :=
    handle_domain d "POST" (Some "transfer") extra len body (Some u) (Some p).

  (** C5: a registrar other than the sponsor requesting a transfer of a
      domain with none pending gets 200 "started"; the store commits one new
      pending row with the requester as winner. *)
Theorem transfer_request_opens :
    registrar r <> u -> List.find (pending_for d) (transfers (work c)) = None ->
    serialization_fault c = false ->
    transfer_post None c =
      (Ok (ok ("Domain " +:+ d +:+ " transfer to registrar " +:+ str_of_Z u +:+ " started")),
       commit_conn (with_transfer c d u)) /\
    view (commit_conn (with_transfer c d u)) d = Some (registrar r, Pending u).
  Proof.
    intros Hu Hn Hf. unfold transfer_post. rewrite route_transfer by done.
    split; [by apply (request_new d u p c r Hrow Hauth Hok) | by apply (view_with_transfer c d r Hrow Hok)].
  Qed.

  (** C10: the sponsoring registrar asking for a transfer of its own
      domain gets 200 "already the registrar" and the store is untouched. *)
Theorem transfer_request_by_owner :
    registrar r = u ->
    transfer_post None c = (Ok (ok (str_of_Z u +:+ " is already the registrar of " +:+ d)), c).
  Proof. intros Hu. unfold transfer_post. rewrite route_transfer by done. by apply (request_by_owner d u p c r Hrow Hauth Hok). Qed.

  (** C6: the sponsoring registrar approving the pending transfer gets 200;
      the store commits the domain moved to the winner with no transfer
      left pending. *)
Theorem transfer_approval_moves t :
    List.find (pending_for d) (transfers (work c)) = Some t -> single_pending (work c) ->
    registrar r = u ->
    let '(o, c') := transfer_post (Some "approval") c in
    o = Ok (ok ("Transfer of " +:+ d +:+ " approved")) /\ clean c' /\
    view c' d = Some (t_winner t, NoTransfer).
  Proof.
    intros Ht Hs Hu. unfold transfer_post. rewrite route_transfer by done.
    rewrite (approve_by_registrar d u p c r Hrow Hauth Hok t Ht Hu) by (eapply single_pending_find_one; eauto).
    split_and!; [done|apply commit_conn_is_clean|by apply (view_approved c d r Hok t)].
  Qed.

  (** C7: the sponsoring registrar rejecting the pending transfer, or its
      winner cancelling it, gets 200; the store commits the domain with no
      transfer pending and its registrar unchanged. *)
Theorem transfer_reject_or_cancel t x :
    List.find (pending_for d) (transfers (work c)) = Some t ->
    (x = "rejection" /\ registrar r = u) \/ (x = "cancelation" /\ t_winner t = u) ->
    let '(o, c') := transfer_post (Some x) c in
    (exists msg, o = Ok (ok msg)) /\ clean c' /\ view c' d = Some (registrar r, NoTransfer).
  Proof.
    intros Ht [[-> Hu]|[-> Hw]]; unfold transfer_post; rewrite route_transfer by done.
    - rewrite (reject_by_registrar d u p c r Hrow Hauth Hok t Ht Hu).
      split_and!; [by eexists|apply commit_conn_is_clean|by apply (view_without_pending c d r Hrow Hok)].
    - rewrite (cancel_by_winner d u p c r Hrow Hauth Hok t Ht Hw).
      split_and!; [by eexists|apply commit_conn_is_clean|by apply (view_without_pending c d r Hrow Hok)].
  Qed.

  (** C8: a second request while a transfer is pending returns the pending
      one (its winner and start time) and creates no row. *)
Theorem transfer_request_no_duplicate t :
    registrar r <> u -> List.find (pending_for d) (transfers (work c)) = Some t ->
    transfer_post None c =
      (Ok (ok ("Domain " +:+ d +:+ " already has a transfer to registrar "
               +:+ str_of_Z (t_winner t) +:+ " pending (since "
               +:+ datetime_format " " (t_created t) +:+ ")")), c).
  Proof.
    intros Hu Ht. unfold transfer_post. rewrite route_transfer by done.
    by apply (request_pending d u p c r Hrow Hauth Hok t).
  Qed.
  (** C19: with two pending rows for the domain (two requests that both
      passed the check-then-insert of lines 267-273 concurrently), the
      registrar's approval answers 500 "Update of transfer failed" without
      rolling back: both rows are marked completed in the open transaction,
      the registrar is unchanged, and the committed copy still has them
      pending. *)
Theorem approval_duplicate_leaks t :
    List.find (pending_for d) (transfers (work c)) = Some t ->
    length (pending_rows (work c) d) = 2 -> registrar r = u ->
    let '(o, c') := transfer_post (Some "approval") c in
    o = Ok (st 500 "Internal error", [("result", PStr "Update of transfer failed")]) /\
    pending_rows (work c') d = [] /\ domains (work c') !! d = Some r /\
    committed c' = committed c.
  Proof.
    intros Ht H2 Hu. unfold transfer_post. rewrite route_transfer by done.
    rewrite (approve_duplicate d u p c r Hrow Hauth Hok t Ht Hu) by lia.
    split_and!; [done | apply completed_pending_none | exact Hrow | done].
  Qed.

  (** C20: an unknown action on a domain with no pending transfer answers
      404 "No transfer", not the 400 "unknown transfer action" of the spec
      (section 4.5): the pending row is looked up before the action is
      parsed (lines 277-314). *)
Theorem unknown_action_not_found x :
    x <> "cancelation" -> x <> "approval" -> x <> "rejection" ->
    List.find (pending_for d) (transfers (work c)) = None ->
    transfer_post (Some x) c =
      (Ok (st 404 "No transfer", [("result", PStr ("No pending transfer of " +:+ d +:+ " to act on"))]), c).
  Proof.
    intros _ _ _ Hn. unfold transfer_post. rewrite route_transfer by done.
    by apply (action_no_pending d u p c r Hrow Hauth Hok).
  Qed.
End Transfers.

(** ** Invariants of every request on a domain *)

(** Whatever the name, method, operation, body and credentials, a request
    on [/domains/...] keeps at most one pending transfer per domain, on the
    working and the committed copy. *)
Lemma handle_domain_single_pending d method operation extra len body user password :
  preserves transfers_ok (handle_domain d method operation extra len body user password).
Proof.
  unfold handle_domain, handle_domain_put, handle_domain_patch, handle_domain_delete,
    handle_domain_get. preserve; auto using transfer_domain_single_pending.
Qed.

(** No request on [/domains/...] takes the number of domains above
    [MAX_DOMAINS] (5000) from a store within the quota. *)
Lemma handle_domain_quota d method operation extra len body user password :
  preserves quota_ok (handle_domain d method operation extra len body user password).
Proof.
  unfold handle_domain, handle_domain_put, handle_domain_patch, handle_domain_delete,
    handle_domain_get. preserve.
  all: auto using store_domain_quota, transfer_domain_quota.
Qed.

(** A request on [/domains/...] leaves an aborted connection as it is:
    each of its paths runs a statement before any [commit] or
    [rollback]. *)
Lemma handle_domain_inert d method operation extra len body user password :
  inert (handle_domain d method operation extra len body user password).
Proof.
  unfold handle_domain, handle_domain_put, handle_domain_patch, handle_domain_delete,
    handle_domain_get, transfer_domain, transfer_request, transfer_action, availability_domain,
    head_domain, info_domain, store_domain, patch_domain, patch_field, delete_domain, auth_registrar.
  inert_tac.
Qed.

(** C34: availability follows the spec's creation rule.  For a name under
    [.example] that no row holds, [GET .../availability] answers 404
    without changing anything, and says the name can be registered
    exactly when its first label has two characters or more and does not
    start with [0]; [registerable] never raises on such a name. *)
Theorem availability_follows_rule d extra len body user password c :
  canonical_name d = true -> aborted c = false -> domains (work c) !! d = None ->
  exists info,
    handle_domain d "GET" (Some "availability") extra len body user password c =
      (Ok (st 404 "Not found", [("result", PStr ("Domain " +:+ d +:+ " NOT found. " +:+ info))]), c) /\
    (info = "It can be registered" <-> rule_ok d = true).
Proof.
  intros Hd Hok Hnone. rewrite route_availability by done. unfold availability_domain.
  rewrite (query_bind (head_domain d) _ _ c Hok), Hnone. cbn [String.eqb Ascii.eqb Bool.eqb].
  apply andb_true_iff in Hd as [_ Hend].
  destruct (registerable_rule d (str_endswith_has_char "." d _ Hend eq_refl))
    as [[-> ->]|[why [-> ->]]]; eexists; (split; [reflexivity|]); [done|].
  split; [|done]. by intros [=].
Qed.

(** C32: names are case-insensitive.  [handle_domain] lower-cases the
    name before anything else (line 320), so a request on a name behaves
    exactly as the same request on its lower-case form: same outcome, same
    store, for every method, operation, body and credentials. *)
Theorem handle_domain_case_insensitive d method operation extra len body user password :
  handle_domain d method operation extra len body user password =
  handle_domain (str_lower d) method operation extra len body user password.
Proof. unfold handle_domain. by rewrite str_lower_idem. Qed.

End DomainHandler.
