(* ===== verification/Contact.v ===== *)
(** * Contacts: the [/entities/<handle>] resource

    [head_contact] and [info_contact] (lines 74-101 of [registry.py]),
    [store_contact] (148-159), [delete_contact] (171-179) and
    [handle_contact] (458-521).  The router passes the handle as the [str]
    that follows [/entities/] in the path; every statement binds it to the
    integer column [Contacts.handle], where PostgreSQL parses it
    ([Store.handle_param]) and aborts the transaction when it is not a
    32-bit integer.  [store_contact] has no [return] statement, so its
    result, which [handle_contact] reports as the new handle, is [None]. *)

From S2P Require Import Prelude PyBase Json Schema Store Domain.
Import Store Domain.

Module Contact.

(** Line 20. *)
Definition MAX_CONTACTS : Z := 5000.

(** Lines 74-82. *)
Definition head_contact (contact : string) : Py conn (option dict) :=
  h ← handle_param contact;
  data ← contact_select h;
  mret (match data with None => None | Some r => Some [("name", PStr (c_name r))] end).

(** Lines 94-101. *)
Definition info_contact (contact : string) : Py conn (option contact_row) :=
  h ← handle_param contact;
  contact_select h.

(** Lines 148-159: the function ends without [return], so it returns
    [None]. *)
Definition store_contact (name : string) : Py conn pyval :=
  num ← contact_count;
  if (MAX_CONTACTS <=? num)%Z then mthrow TooManyContacts
  else
    try_except (contact_insert name;; commit;; mret PNone)
      (fun e => match e with
                | SerializationFailure => Some (rollback;; mthrow Conflict)
                | _ => None
                end).

(** Lines 171-179.  [contact == 1] compares the path's [str] with an
    [int]. *)
Definition delete_contact (contact : string) : Py conn unit :=
  if py_eq (PStr contact) (PInt 1) then mthrow Immutable
  else
    h ← handle_param contact;
    n ← contact_delete h;
    if (n =? 0)%Z then rollback;; mthrow DoesNotExist
    else commit.

(** The [for component in root] loop of lines 482-486: the last [given]
    and the last [surname] value win. *)
Fixpoint scan_components (cs : list pyval) (given surname : pyval) : outcome exn (pyval * pyval) :=
  match cs with
  | [] => Ok (given, surname)
  | comp :: cs' =>
      k ← getitem comp "kind";
      given' ← (if py_eq k (PStr "given") then getitem comp "value" else Ok given);
      k' ← getitem comp "kind";
      surname' ← (if py_eq k' (PStr "surname") then getitem comp "value" else Ok surname);
      scan_components cs' given' surname'
  end.

Definition not_found (contact : string) : response :=
  (st 404 "Not found", [("result", PStr ("Contact " +:+ contact +:+ " NOT found"))]).

(** The PUT branch (lines 475-508), inside its two [try] blocks. *)
Definition handle_contact_put (length : Z) (body : option string) : Py conn response :=
  match body with
  | None => mret (st 400 "Empty", [("result", PStr "No JSON body to create contact")])
  | Some b =>
      let jinput := read_body b length in
      try_except
        (data ← eval (Schema.validate_json jinput "contact" "put");
         try_except
           (name ← eval (getitem data "name");
            root ← eval (getitem name "components");
            cs ← eval (py_iter root);
            '(given, surname) ← eval (scan_components cs (PStr EmptyString) PNone);
            if negb (py_truthy surname) then mthrow (Exception "No surname???")
            else
              g ← eval (str_add given (PStr " "));
              fullname ← eval (str_add (PStr g) surname);
              handle ← store_contact fullname;
              mret (st 201 "Created",
                    [("result", PStr (py_str handle +:+ " (" +:+ py_str name +:+ ") created"))]))
           (fun e => match e with
             | TooManyContacts => Some (mret (st 400 "Too many",
                                    [("result", PStr "Too many contacts already")]))
             | Conflict => Some (mret (st 500 "Conflict", [("result", PStr "Internal conflict")]))
             | _ => None
             end))
        (fun e => match e with
          | JSONDecodeError => Some (mret (st 400 "Invalid", [("result", PStr "Invalid JSON body")]))
          | _ => None
          end)
  end.

(** Lines 458-521. *)
Definition handle_contact (contact method : string) (length : Z) (body : option string)
    : Py conn response :=
  if String.eqb method "HEAD" then
    output ← head_contact contact;
    match output with
    | None => mret (not_found contact)
    | Some _ => mret (st 200 "OK", [("result", PStr ("Contact " +:+ contact +:+ " exists"))])
    end
  else if String.eqb method "GET" then
    output ← info_contact contact;
    match output with
    | None => mret (not_found contact)
    | Some r => mret (st 200 "OK", [("result", PStr ("Contact " +:+ contact +:+ " exists"));
                                    ("name", PStr (c_name r)); ("created", PTime (c_created r))])
    end
  else if String.eqb method "PUT" then handle_contact_put length body
  else if String.eqb method "DELETE" then
    try_except
      (delete_contact contact;;
       mret (st 202 "Accepted", [("result", PStr (contact +:+ " deleted"))]))
      (fun e => match e with
        | DoesNotExist => Some (mret (st 404 "Not found", [("result", PStr (contact +:+ " does not exist"))]))
        | Immutable => Some (mret (st 423 "Immutable", [("result", PStr (contact +:+ " cannot be deleted"))]))
        | _ => None
        end)
  else mret (st 405 ("Method " +:+ method +:+ " not supported"), []).

(** ** Runs *)

(** A [str] never equals an [int]: the test of line 172 is always false
    for the handles the router passes. *)
Lemma py_eq_str_int s z : py_eq (PStr s) (PInt z) = false.
Proof. reflexivity. Qed.

(** PostgreSQL's [int4] input fails only with these two errors. *)
Lemma pg_int4_error s e :
  pg_int4 s = Raise e -> e = InvalidTextRepresentation \/ e = NumericValueOutOfRange.
Proof.
  unfold pg_int4. repeat case_match; intros [= <-]; auto.
Qed.

Section ContactRuns.
Context (c : conn) (Hok : aborted c = false).

Lemma info_contact_run s h :
  pg_int4 s = Ok h -> info_contact s c = (Ok (contacts (work c) !! h), c).
Proof.
  intros Hs. unfold info_contact. erewrite bind_ok by (by apply handle_param_ok).
  unfold contact_select, select, stmt. by rewrite Hok.
Qed.

Lemma head_contact_run s h :
  pg_int4 s = Ok h ->
  head_contact s c =
    (Ok (match contacts (work c) !! h with
         | None => None | Some r => Some [("name", PStr (c_name r))] end), c).
Proof.
  intros Hs. unfold head_contact. erewrite bind_ok by (by apply handle_param_ok).
  by query_step.
Qed.

Lemma delete_contact_ok s h row :
  pg_int4 s = Ok h -> contacts (work c) !! h = Some row ->
  delete_contact s c =
    (Ok tt, commit_conn (set_work c (set_contacts (work c) (delete h (contacts (work c)))))).
Proof.
  intros Hs Hd. unfold delete_contact. rewrite py_eq_str_int.
  erewrite bind_ok by (by apply handle_param_ok).
  erewrite bind_ok by (by apply contact_delete_some with (row := row)). reflexivity.
Qed.

Lemma delete_contact_bad s e : pg_int4 s = Raise e -> delete_contact s c = (Raise e, abort c).
Proof.
  intros Hs. unfold delete_contact. rewrite py_eq_str_int.
  by erewrite bind_raise by (by apply handle_param_err).
Qed.

Lemma store_contact_full name :
  (MAX_CONTACTS <= contact_total c)%Z -> store_contact name c = (Raise TooManyContacts, c).
Proof.
  intros Hn. unfold store_contact. query_step.
  destruct (Z.leb_spec MAX_CONTACTS (contact_total c)); [reflexivity|lia].
Qed.

Lemma store_contact_ok name :
  (contact_total c < MAX_CONTACTS)%Z -> serialization_fault c = false ->
  contacts (work c) !! contact_seq c = None ->
  store_contact name c = (Ok PNone, commit_conn (with_contact c name)).
Proof.
  intros Hn Hf Hd. unfold store_contact. query_step.
  destruct (Z.leb_spec MAX_CONTACTS (contact_total c)); [lia|].
  apply try_ok. erewrite bind_ok by (by apply contact_insert_ok). reflexivity.
Qed.
End ContactRuns.

(** ** The contact handler *)

Section Handler.
Context (c : conn) (Hok : aborted c = false) (len : Z).

(** The handler of [DELETE] once [delete_contact] has run. *)
Lemma handle_delete_contact contact body :
  handle_contact contact "DELETE" len body c =
    try_except
      (delete_contact contact;;
       mret (st 202 "Accepted", [("result", PStr (contact +:+ " deleted"))]))
      (fun e => match e with
        | DoesNotExist => Some (mret (st 404 "Not found", [("result", PStr (contact +:+ " does not exist"))]))
        | Immutable => Some (mret (st 423 "Immutable", [("result", PStr (contact +:+ " cannot be deleted"))]))
        | _ => None
        end) c.
Proof. reflexivity. Qed.

(** C21: the registry-operator contact 1 is not protected.  [DELETE
    /entities/1] compares the path's ["1"] with the integer [1] (line 172),
    which is false, so the row of handle 1 is deleted and committed: 202.
    The spec (section 4.4) says this contact is permanently immutable. *)
Theorem contact_one_deletable body row :
  contacts (work c) !! 1%Z = Some row ->
  handle_contact "1" "DELETE" len body c =
    (Ok (st 202 "Accepted", [("result", PStr "1 deleted")]),
     commit_conn (set_work c (set_contacts (work c) (delete 1%Z (contacts (work c)))))).
Proof.
  intros Hd. rewrite handle_delete_contact. apply try_ok.
  erewrite bind_ok by (by apply (delete_contact_ok c Hok "1" 1%Z row)). reflexivity.
Qed.

(** A handle that is not a 32-bit integer (["abc"], ["99999999999"]) makes
    the [HEAD], [GET] or [DELETE] statement fail in PostgreSQL: the request
    raises the database error, which no [except] of the code catches, and
    the shared connection is left with its transaction aborted. *)
Lemma handle_contact_bad contact method body e :
  pg_int4 contact = Raise e ->
  method = "HEAD" \/ method = "GET" \/ method = "DELETE" ->
  handle_contact contact method len body c = (Raise e, abort c).
Proof.
  intros He Hm. pose proof (handle_param_err c Hok contact e He) as Hp.
  destruct Hm as [-> | [-> | ->]].
  - unfold handle_contact. rewrite String.eqb_refl. apply bind_raise.
    unfold head_contact. by apply bind_raise.
  - unfold handle_contact. change (String.eqb "GET" "HEAD") with false.
    rewrite String.eqb_refl. cbv beta iota. apply bind_raise. unfold info_contact. by apply bind_raise.
  - rewrite handle_delete_contact. eapply try_uncaught; [by apply bind_raise, delete_contact_bad|].
    by destruct (pg_int4_error contact e He) as [-> | ->].
Qed.

(** The body of a contact creation, up to the two name components. *)
Definition contact_body (b : string) : option (pyval * pyval * pyval) :=
  match Schema.validate_json (read_body b len) "contact" "put" with
  | Ok data =>
      match getitem data "name" with
      | Ok name =>
          match getitem name "components" ≫= py_iter with
          | Ok cs =>
              match scan_components cs (PStr EmptyString) PNone with
              | Ok (given, surname) => Some (name, given, surname)
              | Raise _ => None
              end
          | Raise _ => None
          end
      | Raise _ => None
      end
  | Raise _ => None
  end.

(** [PUT] with a body that passes the contact schema and names its
    components: what remains is the code after the [for] loop. *)
Lemma handle_put_contact contact b name given surname :
  contact_body b = Some (name, given, surname) ->
  handle_contact contact "PUT" len (Some b) c =
    try_except
      (try_except
         (if negb (py_truthy surname) then mthrow (Exception "No surname???")
          else
            g ← eval (str_add given (PStr " "));
            fullname ← eval (str_add (PStr g) surname);
            handle ← store_contact fullname;
            mret (st 201 "Created",
                  [("result", PStr (py_str handle +:+ " (" +:+ py_str name +:+ ") created"))]))
         (fun e => match e with
           | TooManyContacts => Some (mret (st 400 "Too many", [("result", PStr "Too many contacts already")]))
           | Conflict => Some (mret (st 500 "Conflict", [("result", PStr "Internal conflict")]))
           | _ => None
           end))
      (fun e => match e with
        | JSONDecodeError => Some (mret (st 400 "Invalid", [("result", PStr "Invalid JSON body")]))
        | _ => None
        end) c.
Proof.
  unfold contact_body. intros Hb. unfold handle_contact, handle_contact_put. simpl.
  destruct (Schema.validate_json (read_body b len) "contact" "put") as [data|]; [|done].
  destruct (getitem data "name") as [nm|] eqn:Hn; [|done].
  destruct (getitem nm "components") as [root|] eqn:Hr; [|done]. simpl in Hb.
  destruct (py_iter root) as [cs|] eqn:Hi; [|done].
  destruct (scan_components cs _ _) as [[g' s']|] eqn:Hs; [|done]. injection Hb as <- <- <-.
  unfold try_except at 1. unfold eval, lift. st_unfold. simpl. rewrite Hn. simpl.
  rewrite Hr, Hi, Hs. reflexivity.
Qed.

(** C23: a contact creation whose body names a non-empty surname, below the
    quota, answers 201 and commits a row whose handle is the sequence's next
    value and whose name is [given + " " + surname]; the message reports
    the handle as [None] because [store_contact] returns nothing (line 496),
    where the spec (section 4.4) says creation returns the new handle. *)
Theorem contact_put_creates contact b name g sn :
  contact_body b = Some (name, PStr g, PStr sn) -> sn <> EmptyString ->
  (contact_total c < MAX_CONTACTS)%Z -> serialization_fault c = false ->
  contacts (work c) !! contact_seq c = None ->
  handle_contact contact "PUT" len (Some b) c =
    (Ok (st 201 "Created", [("result", PStr ("None (" +:+ py_str name +:+ ") created"))]),
     commit_conn (with_contact c ((g +:+ " ") +:+ sn))).
Proof.
  intros Hb Hs Hn Hf Hd. rewrite (handle_put_contact contact b name _ _ Hb).
  replace (negb (py_truthy (PStr sn))) with false by (simpl; by destruct (String.eqb_spec sn EmptyString)).
  cbv beta iota. apply try_ok, try_ok.
  do 2 (erewrite bind_ok by reflexivity).
  erewrite bind_ok by (by apply store_contact_ok). reflexivity.
Qed.

(** C24: a contact body without a surname (or with an empty one) raises
    [Exception("No surname???")], which no [except] catches: the request
    fails with a server error, before any statement. *)
Theorem contact_put_no_surname contact b name given surname :
  contact_body b = Some (name, given, surname) -> py_truthy surname = false ->
  handle_contact contact "PUT" len (Some b) c = (Raise (Exception "No surname???"), c).
Proof. intros Hb Hs. rewrite (handle_put_contact contact b name _ _ Hb), Hs. reflexivity. Qed.

(** C25: once [MAX_CONTACTS] contacts exist, creation answers 400 "Too
    many" and changes nothing. *)
Theorem contact_put_quota contact b name g sn :
  contact_body b = Some (name, PStr g, PStr sn) -> sn <> EmptyString ->
  (MAX_CONTACTS <= contact_total c)%Z ->
  handle_contact contact "PUT" len (Some b) c =
    (Ok (st 400 "Too many", [("result", PStr "Too many contacts already")]), c).
Proof.
  intros Hb Hs Hn. rewrite (handle_put_contact contact b name _ _ Hb).
  replace (negb (py_truthy (PStr sn))) with false by (simpl; by destruct (String.eqb_spec sn EmptyString)).
  cbv beta iota. apply try_ok.
  eapply try_caught;
    [do 2 (erewrite bind_ok by reflexivity); apply bind_raise; by apply store_contact_full
    | reflexivity..].
Qed.
End Handler.

(** ** Invariants *)

(** The contact quota: at most [MAX_CONTACTS] rows in [Contacts]. *)
Definition under_contact_quota (w : db) : Prop :=
  (Z.of_nat (size (contacts w)) <= MAX_CONTACTS)%Z.

Definition contact_quota_ok : conn -> Prop := both under_contact_quota.

Lemma contact_delete_cquota h : preserves contact_quota_ok (contact_delete h).
Proof.
  apply both_write. intros c Hc. simpl. destruct (contacts (work c) !! h) eqn:E; [|done].
  unfold under_contact_quota in *. simpl. rewrite map_size_delete_Some by eauto. lia.
Qed.

(** An INSERT into a table holding fewer than [MAX_CONTACTS] rows. *)
Lemma contact_insert_cquota c name :
  contact_quota_ok c -> (contact_total c < MAX_CONTACTS)%Z ->
  contact_quota_ok (snd (contact_insert name c)).
Proof.
  intros [Hw Hc] Hn. unfold contact_insert, stmt.
  destruct (aborted c), (serialization_fault c); [done..|].
  destruct (contacts (work c) !! contact_seq c) eqn:E; [done|]. split; [|done].
  unfold under_contact_quota, contact_total in *. simpl. rewrite map_size_insert_None by done. lia.
Qed.

Lemma store_contact_cquota name : preserves contact_quota_ok (store_contact name).
Proof.
  intros c Hc. unfold store_contact. destruct (aborted c) eqn:Hab.
  { by rewrite (query_bind_abort contact_count contact_total). }
  query_step. destruct (Z.leb_spec MAX_CONTACTS (contact_total c)); [done|].
  unfold try_except, mbind, ST_bind.
  pose proof (contact_insert_cquota c name Hc ltac:(lia)) as Hq.
  destruct (contact_insert name c) as [[] c'] eqn:E; simpl in *; [by apply both_commit|].
  destruct e; simpl; try done; by apply (both_rollback _ c').
Qed.

(** Statements on contacts leave the domains and transfers alone. *)
Lemma contact_delete_quota h : preserves quota_ok (contact_delete h).
Proof. apply both_write. intros c Hc. simpl. by destruct (contacts (work c) !! h). Qed.

Lemma contact_insert_quota name : preserves quota_ok (contact_insert name).
Proof.
  apply both_insert. intros c [Hw Hc]. cbn.
  destruct (serialization_fault c); [done|]. by destruct (contacts (work c) !! contact_seq c).
Qed.

#[export] Hint Resolve contact_delete_cquota store_contact_cquota contact_delete_quota
  contact_insert_quota : rpp.

Lemma store_contact_transfers name : preserves transfers_ok (store_contact name).
Proof. unfold store_contact. preserve. Qed.

Lemma store_contact_quota name : preserves quota_ok (store_contact name).
Proof. unfold store_contact. preserve. Qed.

#[export] Hint Resolve store_contact_transfers store_contact_quota : rpp.

(** No request on [/entities/...] takes the number of contacts above
    [MAX_CONTACTS] (5000) from a store within the quota. *)
Lemma handle_contact_cquota contact method len body :
  preserves contact_quota_ok (handle_contact contact method len body).
Proof.
  unfold handle_contact, handle_contact_put, head_contact, info_contact, delete_contact. preserve.
Qed.

Lemma handle_contact_transfers contact method len body :
  preserves transfers_ok (handle_contact contact method len body).
Proof.
  unfold handle_contact, handle_contact_put, head_contact, info_contact, delete_contact. preserve.
Qed.

Lemma handle_contact_quota contact method len body :
  preserves quota_ok (handle_contact contact method len body).
Proof.
  unfold handle_contact, handle_contact_put, head_contact, info_contact, delete_contact. preserve.
Qed.

(** A request on [/entities/...] leaves an aborted connection as it is. *)
Lemma handle_contact_inert contact method len body :
  inert (handle_contact contact method len body).
Proof.
  unfold handle_contact, handle_contact_put, head_contact, info_contact, delete_contact,
    store_contact.
  inert_tac.
Qed.

End Contact.
