(* ===== verification/Router.v ===== *)
(** * The WSGI application: [dispatch] and [send]

    [dispatch] (lines 523-599 of [registry.py]) checks the path prefix,
    reads [CONTENT_LENGTH] and the Basic credentials, and hands the request
    to [handle_domain], [handle_contact] or [list_domains]; [send] (lines
    44-62) adds [status_code] and [status_message] to the output, serialises
    it as JSON and writes the status line and headers.  A request is the
    part of the environ the code reads, with the value
    [random.randint(0, 999999)] draws for it; the reply is what [send]
    passes to [start_response] and returns, with the message it logs
    (line 57; the log file itself is modelled in [Logging]).  An exception that escapes
    [dispatch] is an [Raise] outcome: the WSGI server answers it with its
    own error page, and the connection keeps whatever state the request
    left.  [serve] runs requests one after the other on the one connection,
    as the single-threaded test server does. *)

From S2P Require Import Prelude PyBase Json JsonFacts Wire Store Auth Domain Transfer DomainHandler Contact.
Import Store Auth Domain Transfer DomainHandler Contact.

Module Router.

Record request := mkRequest {
  req_method : string;             (** [REQUEST_METHOD] *)
  req_path : string;               (** [PATH_INFO] *)
  req_cltrid : option string;      (** [HTTP_RPP_CLTRID] *)
  req_length : option string;      (** [CONTENT_LENGTH] *)
  req_auth : option string;        (** [HTTP_AUTHORIZATION] *)
  req_input : string;              (** what [wsgi.input] holds *)
  req_svtrid : Z                   (** [random.randint(0, 999999)] *)
}.

Record reply := mkReply {
  r_status : string;
  r_headers : list (string * string);
  r_body : string;
  r_log : string                   (** the message [send] gives [logger.info] *)
}.

Definition crlf : string := String (ascii_of_nat 13) (String (ascii_of_nat 10) EmptyString).

(** Lines 44-62: [status] carries the optional [cltrid] and [svtrid]. *)
Definition send (s : status) (cltrid : option string) (svtrid : option Z) (output : dict) : reply :=
  let output := dict_set (dict_set output "status_code" (PInt (code s)))
                  "status_message" (PStr (message s)) in
  let joutput := Json.json_dumps (PDict output) +:+ crlf in
  let headers :=
    [("Content-Type", "application/rpp+json");
     ("Content-Length", str_of_Z (Z.of_nat (String.length joutput)))]
    ++ match svtrid with Some n => [("RPP-Svtrid", str_of_Z n)] | None => [] end
    ++ match cltrid with Some t => [("RPP-Cltrid", t)] | None => [] end in
  let svtrid_text := match svtrid with Some n => str_of_Z n | None => "(None)" end in
  mkReply (str_of_Z (code s) +:+ " " +:+ message s) headers joutput
    ("Completing transaction " +:+ svtrid_text).

(** Lines 538-541: [int(environ.get("CONTENT_LENGTH", 0))], [0] on
    [ValueError]. *)
Definition body_size (length : option string) : Z :=
  match length with
  | None => 0
  | Some s => match Wire.py_int s with Ok n => n | Raise _ => 0%Z end
  end.

(** Lines 542-551: the Basic credentials.  [header[6:]] drops ["Basic "];
    the decoding errors and [int(user)]'s [ValueError] are not caught. *)
Definition parse_auth (header : option string) : outcome exn (option Z * option string) :=
  match header with
  | None => Ok (None, None)
  | Some h =>
      if negb (String.eqb h EmptyString) && str_startswith h "Basic" then
        raw ← Wire.b64decode (Wire.encode_utf8 (String.substring 6 (String.length h - 6) h));
        allauth ← Wire.utf8_decode raw;
        match str_split ":" allauth with
        | [user; password] => uid ← Wire.py_int user; Ok (Some uid, Some password)
        | _ => Ok (None, None)
        end
      else Ok (None, None)
  end.

(** Lines 554-577: the name, the operation and the extra of a
    [/domains/...] path, or the 400 of a path with more than three parts. *)
Definition split_domain (domain : string) : option (string * option string * option string) :=
  if str_has_char "/" domain then
    let array := str_split "/" domain in
    if 3 <? length array then None
    else Some (nth 0 array EmptyString, nth_error array 1, nth_error array 2)
  else Some (domain, None, None).

Definition dispatch (r : request) : Py conn reply :=
  let method := req_method r in
  let path := req_path r in
  if negb (str_startswith path "/domains/") && negb (str_startswith path "/entities/")
     && negb (str_startswith path "/list-domains") then
    mret (send (st 400 "Path must start with /domains, /entities or be /list-domains") None None [])
  else
    let size := body_size (req_length r) in
    '(user, password) ← eval (parse_auth (req_auth r));
    if String.eqb path "/list-domains" then
      if String.eqb method "GET" then
        output ← list_domains;
        mret (send (st 200 "OK") None None output)
      else mret (send (st 405 ("Method " +:+ method +:+ " not supported for /list-domains")) None None [])
    else if str_startswith path "/domains/" then
      let domain := str_removeprefix path "/domains/" in
      if String.eqb domain EmptyString then mthrow (Exception "Empty domain")
      else match split_domain domain with
      | None =>
          mret (send (st 400 "Invalid path syntax") None None
                  [("result", PStr ("Invalid path syntax for " +:+ domain))])
      | Some (d, operation, extra) =>
          result ← handle_domain d method operation extra size (Some (req_input r)) user password;
          mret (send (fst result) (req_cltrid r) (Some (req_svtrid r)) (snd result))
      end
    else if str_startswith path "/entities/" then
      let contact := str_removeprefix path "/entities/" in
      result ← handle_contact contact method size (Some (req_input r));
      mret (send (fst result) (req_cltrid r) (Some (req_svtrid r)) (snd result))
    else mret (send (st 500 "Internal error, should not happen") None None []).

(** Requests served one after the other on the module's connection. *)
Fixpoint serve (rs : list request) (c : conn) : list (outcome exn reply) * conn :=
  match rs with
  | [] => ([], c)
  | r :: rs' =>
      let '(o, c1) := dispatch r c in
      let '(os, c2) := serve rs' c1 in
      (o :: os, c2)
  end.

(** ** Every request, and every sequence of requests *)

(** On an aborted connection a request changes nothing: every path that
    reaches the store starts with a statement. *)
Lemma dispatch_inert r : inert (dispatch r).
Proof. unfold dispatch, list_domains. inert_tac; auto using handle_domain_inert, handle_contact_inert. Qed.

Lemma serve_inert rs c : aborted c = true -> snd (serve rs c) = c.
Proof.
  revert c. induction rs as [|r rs IH]; intros c H; simpl; [done|].
  pose proof (dispatch_inert r c H) as Hr.
  destruct (dispatch r c) as [o c1]; simpl in Hr; subst c1.
  specialize (IH c H). destruct (serve rs c); simpl in *. done.
Qed.

(** An invariant every request keeps holds after any sequence of them. *)
Lemma serve_preserves (P : conn -> Prop) rs c :
  (forall r, preserves P (dispatch r)) -> P c -> P (snd (serve rs c)).
Proof.
  intros HP. revert c. induction rs as [|r rs IH]; intros c Hc; simpl; [done|].
  specialize (HP r c Hc). destruct (dispatch r c) as [o c1]; simpl in HP.
  specialize (IH c1 HP). destruct (serve rs c1); simpl in *. done.
Qed.

Lemma dispatch_transfers r : preserves transfers_ok (dispatch r).
Proof.
  unfold dispatch, list_domains. preserve; auto using handle_domain_single_pending, handle_contact_transfers.
Qed.

Lemma dispatch_quota r : preserves quota_ok (dispatch r).
Proof. unfold dispatch, list_domains. preserve; auto using handle_domain_quota, handle_contact_quota. Qed.

(** Requests on domains leave the contacts alone. *)
Lemma handle_domain_cquota d method operation extra len body user password :
  preserves contact_quota_ok (handle_domain d method operation extra len body user password).
Proof.
  unfold handle_domain, handle_domain_put, handle_domain_patch, handle_domain_delete,
    handle_domain_get, transfer_domain, transfer_request, transfer_action, availability_domain,
    store_domain, patch_domain, patch_field, delete_domain.
  preserve; try (apply both_write; intros c' Hc'; simpl; repeat case_match; done).
  all: try (apply both_insert; intros c' [Hw Hc']; cbn; repeat case_match; done).
Qed.

Lemma dispatch_cquota r : preserves contact_quota_ok (dispatch r).
Proof. unfold dispatch, list_domains. preserve; auto using handle_domain_cquota, handle_contact_cquota. Qed.

(** C11: whatever requests arrive, in whatever order, the tables keep at
    most one pending transfer per domain, on the working and on the
    committed copy (spec, section 3). *)
Theorem serve_single_pending rs c : transfers_ok c -> transfers_ok (snd (serve rs c)).
Proof. apply serve_preserves, dispatch_transfers. Qed.

(** C16: whatever requests arrive, the store never holds more than
    [MAX_DOMAINS] domains or more than [MAX_CONTACTS] contacts. *)
Theorem serve_quotas rs c :
  quota_ok c -> contact_quota_ok c ->
  quota_ok (snd (serve rs c)) /\ contact_quota_ok (snd (serve rs c)).
Proof. intros Hq Hc. split; apply serve_preserves; auto using dispatch_quota, dispatch_cquota. Qed.

(** ** What one request does *)

(** The part of [dispatch] after the prefix check and the credentials. *)
Definition route (r : request) (user : option Z) (password : option string) : Py conn reply :=
  let method := req_method r in
  let path := req_path r in
  let size := body_size (req_length r) in
  if String.eqb path "/list-domains" then
    if String.eqb method "GET" then
      output ← list_domains;
      mret (send (st 200 "OK") None None output)
    else mret (send (st 405 ("Method " +:+ method +:+ " not supported for /list-domains")) None None [])
  else if str_startswith path "/domains/" then
    let domain := str_removeprefix path "/domains/" in
    if String.eqb domain EmptyString then mthrow (Exception "Empty domain")
    else match split_domain domain with
    | None =>
        mret (send (st 400 "Invalid path syntax") None None
                [("result", PStr ("Invalid path syntax for " +:+ domain))])
    | Some (d, operation, extra) =>
        result ← handle_domain d method operation extra size (Some (req_input r)) user password;
        mret (send (fst result) (req_cltrid r) (Some (req_svtrid r)) (snd result))
    end
  else if str_startswith path "/entities/" then
    let contact := str_removeprefix path "/entities/" in
    result ← handle_contact contact method size (Some (req_input r));
    mret (send (fst result) (req_cltrid r) (Some (req_svtrid r)) (snd result))
  else mret (send (st 500 "Internal error, should not happen") None None []).

Lemma prefix_checked r :
  (str_startswith (req_path r) "/domains/" || str_startswith (req_path r) "/entities/"
   || str_startswith (req_path r) "/list-domains") = true ->
  negb (str_startswith (req_path r) "/domains/") && negb (str_startswith (req_path r) "/entities/")
  && negb (str_startswith (req_path r) "/list-domains") = false.
Proof. by destruct (str_startswith _ "/domains/"), (str_startswith _ "/entities/"), (str_startswith _ "/list-domains"). Qed.

(** A path under one of the three prefixes, with credentials that parse. *)
Lemma dispatch_route r c user password :
  (str_startswith (req_path r) "/domains/" || str_startswith (req_path r) "/entities/"
   || str_startswith (req_path r) "/list-domains") = true ->
  parse_auth (req_auth r) = Ok (user, password) ->
  dispatch r c = route r user password c.
Proof.
  intros Hp Ha. unfold dispatch. rewrite (prefix_checked r Hp). cbv zeta.
  erewrite bind_ok by (unfold eval, lift; by rewrite Ha). reflexivity.
Qed.

(** C22: one request on [/entities/<h>] with a handle PostgreSQL cannot
    read as an [int4] wedges the server.  The request fails with the
    database error, which nothing catches or rolls back, and leaves the
    shared connection in an aborted transaction; from then on every
    request, whatever it is, leaves the connection exactly as it found it
    (every path reaches a statement, which fails, before any [commit] or
    [rollback]).  The spec (section 5) expects every request to run in a
    unit of work of its own. *)
Theorem contact_error_wedges r c contact e user password :
  aborted c = false -> req_path r = "/entities/" +:+ contact -> pg_int4 contact = Raise e ->
  req_method r = "HEAD" \/ req_method r = "GET" \/ req_method r = "DELETE" ->
  parse_auth (req_auth r) = Ok (user, password) ->
  dispatch r c = (Raise e, abort c) /\ forall rs, snd (serve rs (abort c)) = abort c.
Proof.
  intros Hok Hp He Hm Ha. split; [|intros rs; by apply serve_inert].
  rewrite (dispatch_route r c user password); [|by rewrite Hp, str_startswith_app, orb_true_r|done].
  unfold route. rewrite Hp.
  replace (String.eqb ("/entities/" +:+ contact) "/list-domains") with false by reflexivity.
  replace (str_startswith ("/entities/" +:+ contact) "/domains/") with false by reflexivity.
  rewrite str_startswith_app, str_removeprefix_app. cbv beta iota zeta.
  apply bind_raise. by apply handle_contact_bad.
Qed.


(** C27: a path that starts with [/list-domains] but is longer passes the
    prefix check, matches no branch, and gets the 500 "should not happen"
    (line 589) instead of the 400 of the spec (section 4.6) for other path
    shapes. *)
Theorem list_domains_suffix_500 r c s user password :
  req_path r = "/list-domains" +:+ s -> s <> EmptyString ->
  parse_auth (req_auth r) = Ok (user, password) ->
  dispatch r c = (Ok (send (st 500 "Internal error, should not happen") None None []), c).
Proof.
  intros Hp Hs Ha. rewrite (dispatch_route r c user password); [|by rewrite Hp, str_startswith_app, !orb_true_r|done].
  unfold route. rewrite Hp, eqb_append_self by done.
  replace (str_startswith ("/list-domains" +:+ s) "/domains/") with false by reflexivity.
  replace (str_startswith ("/list-domains" +:+ s) "/entities/") with false by reflexivity.
  reflexivity.
Qed.

(** C29: [GET /list-domains] answers without the [RPP-Svtrid] header (and
    its body without [svtrid]): only the replies of [handle_domain] and
    [handle_contact] get a server transaction id, where the spec (section
    4.6) says one is always attached. *)
Theorem list_domains_no_svtrid r c user password :
  req_path r = "/list-domains" -> req_method r = "GET" -> aborted c = false ->
  parse_auth (req_auth r) = Ok (user, password) ->
  exists rep, dispatch r c = (Ok rep, c) /\ Forall (fun h => fst h <> "RPP-Svtrid") (r_headers rep).
Proof.
  intros Hp Hm Hok Ha. rewrite (dispatch_route r c user password); [|by rewrite Hp|done].
  unfold route. rewrite Hp, Hm. cbn [String.eqb Ascii.eqb Bool.eqb]. unfold list_domains. rewrite bind_assoc, (query_bind domain_names _ _ c Hok).
  eexists. split; [reflexivity|]. repeat constructor; simpl; discriminate.
Qed.

(** The header a client sends for [user:password]. *)
Definition basic_header (user password : string) : string :=
  "Basic " +:+ Wire.string_of (Wire.b64encode (Wire.bytes_of (user +:+ ":" +:+ password))).

Lemma parse_basic user pw u :
  Wire.py_int user = Ok u -> str_has_char ":" user = false -> str_has_char ":" pw = false ->
  Forall Wire.ascii_byte (Wire.bytes_of (user +:+ ":" +:+ pw)) ->
  parse_auth (Some (basic_header user pw)) = Ok (Some u, Some pw).
Proof.
  intros Hu Hcu Hcp Hascii. unfold basic_header. set (bs := Wire.bytes_of (user +:+ ":" +:+ pw)).
  unfold parse_auth. change (String.eqb ("Basic " +:+ Wire.string_of (Wire.b64encode bs)) EmptyString) with false.
  change ("Basic " +:+ Wire.string_of (Wire.b64encode bs))
    with ("Basic" +:+ (" " +:+ Wire.string_of (Wire.b64encode bs))) at 1.
  rewrite str_startswith_app. cbn [negb andb].
  change ("Basic" +:+ (" " +:+ Wire.string_of (Wire.b64encode bs)))
    with ("Basic " +:+ Wire.string_of (Wire.b64encode bs)).
  change 6 with (String.length "Basic "). rewrite substring_app.
  rewrite Wire.encode_utf8_ascii by (apply Wire.b64encode_ascii, Wire.bytes_of_bytes).
  unfold Wire.b64decode. rewrite Wire.a2b_encode by apply Wire.bytes_of_bytes. simpl.
  unfold Wire.utf8_decode. rewrite Wire.utf8_valid_ascii by exact Hascii. simpl.
  subst bs. rewrite Wire.string_of_bytes_of. change (":" +:+ pw) with (String ":" pw).
  rewrite str_split_app by done. simpl. by rewrite Hu.
Qed.

(** C28: credentials round trip.  A client that sends [Basic] and the
    base64 of [user:password] (an ASCII [user] that [int()] reads as [u],
    neither part holding a colon) is seen by the handlers as [u] with that
    password. *)
Theorem basic_auth_roundtrip user pw u :
  Wire.py_int user = Ok u -> str_has_char ":" user = false -> str_has_char ":" pw = false ->
  Forall Wire.ascii_byte (Wire.bytes_of (user +:+ ":" +:+ pw)) ->
  parse_auth (Some ("Basic " +:+ Wire.string_of (Wire.b64encode (Wire.bytes_of (user +:+ ":" +:+ pw)))))
    = Ok (Some u, Some pw).
Proof. exact (parse_basic user pw u). Qed.

(** C33: the reply is well formed.  Whatever the status, ids and output,
    [send] writes a body of 7-bit characters ([json.dumps] escapes the
    rest), so [Content-Length], computed from the characters of
    [joutput] (line 51), is the number of bytes [joutput.encode()] puts
    on the wire (line 62). *)
Theorem send_content_length s cltrid svtrid output :
  let rep := send s cltrid svtrid output in
  Forall Wire.ascii_byte (Wire.encode_utf8 (r_body rep)) /\
  In ("Content-Length", str_of_Z (Z.of_nat (length (Wire.encode_utf8 (r_body rep))))) (r_headers rep).
Proof.
  unfold send. cbn [r_body r_headers].
  match goal with |- context [Wire.encode_utf8 ?b] =>
    destruct (Wire.encode_utf8_is_ascii b) as [Ha ->]; [by rewrite is_ascii_app, JsonFacts.json_dumps_ascii|]
  end.
  split; [done|]. simpl. auto.
Qed.

(** [crlf] ends a value and is blank. *)
Lemma crlf_blank : JsonFacts.ends_value crlf = true /\ Json.skip_ws crlf = EmptyString.
Proof. done. Qed.

(** C35: the reply envelope.  For an output dict the serialiser
    round-trips and a status message of printable text, a client that
    decodes the body [send] writes (lines 47-49) with [json.loads] gets a
    dict whose [status_code] is the status code, whose [status_message] is
    the status message, and whose every other member is the handler's
    output member, timestamps as their ISO 8601 strings.  This is the
    envelope of section 6 of the spec. *)
Theorem send_envelope s cltrid svtrid output :
  JsonFacts.wire_safe (PDict output) = true -> JsonFacts.wire_str (message s) = true ->
  exists d,
    Json.json_loads (r_body (send s cltrid svtrid output)) = Ok (PDict d) /\
    dict_get d "status_code" = Some (PInt (code s)) /\
    dict_get d "status_message" = Some (PStr (message s)) /\
    (forall k, k <> "status_code" -> k <> "status_message" ->
       dict_get d k = option_map JsonFacts.json_image (dict_get output k)).
Proof.
  intros Hw Hm. unfold send. cbn [r_body].
  set (out := dict_set (dict_set output "status_code" (PInt (code s))) "status_message" (PStr (message s))).
  assert (Hout : JsonFacts.wire_safe (PDict out) = true)
    by (apply JsonFacts.wire_safe_set; [apply JsonFacts.wire_safe_set|..]; done).
  destruct crlf_blank as [Hc1 Hc2].
  rewrite (JsonFacts.json_loads_dumps _ _ Hout Hc1 Hc2). cbn [JsonFacts.json_image].
  eexists. split_and!; [reflexivity| | |intros k H1 H2]; rewrite dict_get_map; unfold out.
  - rewrite (dict_get_set_ne _ "status_message") by done. by rewrite dict_get_set_eq.
  - by rewrite dict_get_set_eq.
  - by rewrite !dict_get_set_ne.
Qed.

End Router.
