(* ===== verification/Logging.v ===== *)
(** * The log file: the [RPP] logger, its [FileHandler] and the logged server

    Lines 601-610 of [registry.py] set up the logger ["RPP"] at level
    [DEBUG] with one [FileHandler] on [loggingstr] (line 604, built from
    [LOGFILENAME] of line 21) and the formatter
    ['RPP - %(levelname)s - %(asctime)s - %(message)s'], whose dates are
    written ['%Y-%m-%d %H:%M:%SZ'] in UTC ([ft.converter = time.gmtime]).
    The code logs twice: ["Server starts"] once the database connection is
    open (line 617), and ["Completing transaction <svtrid>"] in [send]
    (line 57) for every reply.  The file's content is a string; the handler
    opens it in append mode, so start-up keeps what an earlier run wrote.
    A [server] is the connection and the log file; [serve_logged] runs
    requests, each with the time the [logging] module reads for its record.
    The main theorem says that logging changes nothing else and that the
    file gets exactly one line per reply, carrying the reply's
    [RPP-Svtrid]. *)

From S2P Require Import Prelude PyBase Store Router.
Import Store Router.

Module Logging.

(** Line 21 and line 604. *)
Definition LOGFILENAME : string := "rpp.log".
Definition loggingstr : string := "/home/stephane/tmp/" +:+ LOGFILENAME.

(** The levels of [logging], with their numbers and names. *)
Inductive level := DEBUG | INFO | WARNING | ERROR | CRITICAL.

Definition levelno (l : level) : Z :=
  match l with DEBUG => 10 | INFO => 20 | WARNING => 30 | ERROR => 40 | CRITICAL => 50 end.

Definition levelname (l : level) : string :=
  match l with
  | DEBUG => "DEBUG" | INFO => "INFO" | WARNING => "WARNING" | ERROR => "ERROR"
  | CRITICAL => "CRITICAL"
  end.

(** Line 603: [logger.setLevel(logging.DEBUG)]. *)
Definition logger_level : level := DEBUG.

Definition isEnabledFor (l : level) : bool := (levelno logger_level <=? levelno l)%Z.

(** Lines 606-608: [time.strftime('%Y-%m-%d %H:%M:%SZ', time.gmtime(t))]
    for a record created at [t] seconds since the epoch. *)
Definition asctime (t : Z) : string :=
  let '(y, m, d) := civil_of_days (t / 86400) in
  let r := (t mod 86400)%Z in
  String.concat EmptyString [str_of_Z y; "-"; pad 2 m; "-"; pad 2 d; " ";
                    pad 2 (r / 3600); ":"; pad 2 ((r / 60) mod 60); ":";
                    pad 2 (r mod 60); "Z"].

(** Lines 606-607: [Formatter.format] of a record without exception. *)
Definition format (l : level) (t : Z) (msg : string) : string :=
  "RPP - " +:+ levelname l +:+ " - " +:+ asctime t +:+ " - " +:+ msg.

Definition newline : string := String (ascii_of_nat 10) EmptyString.

(** Lines 605 and 609-610: [FileHandler.emit] writes the formatted record
    and its terminator at the end of the file. *)
Definition emit (l : level) (t : Z) (msg : string) (file : string) : string :=
  file +:+ format l t msg +:+ newline.

(** [logger.log(l, msg)]: the record reaches the one handler (level
    [NOTSET]) when the logger's level lets it through. *)
Definition log (l : level) (t : Z) (msg : string) (file : string) : string :=
  if isEnabledFor l then emit l t msg file else file.

Definition info : Z -> string -> string -> string := log INFO.

(** ** The server with its log *)

Record server := mkServer { srv_conn : conn; srv_log : string }.

(** Lines 601-617: the module's start-up, once the connection [c] is open;
    [file] is what the log file held before. *)
Definition start (t : Z) (file : string) (c : conn) : server :=
  mkServer c (info t "Server starts" file).

(** One request at time [t]: [dispatch], and the record [send] logs with
    its reply.  An exception that escapes [dispatch] is reported by the
    WSGI server on its error stream, not in this file. *)
Definition handle (r : request) (t : Z) (s : server) : outcome exn reply * server :=
  let '(o, c) := dispatch r (srv_conn s) in
  match o with
  | Ok rep => (o, mkServer c (info t (r_log rep) (srv_log s)))
  | Raise _ => (o, mkServer c (srv_log s))
  end.

Fixpoint serve_logged (rs : list (request * Z)) (s : server) : list (outcome exn reply) * server :=
  match rs with
  | [] => ([], s)
  | (r, t) :: rs' =>
      let '(o, s1) := handle r t s in
      let '(os, s2) := serve_logged rs' s1 in
      (o :: os, s2)
  end.

(** ** What the log says *)

(** The value of a header, as a client reads it. *)
Fixpoint header (name : string) (hs : list (string * string)) : option string :=
  match hs with
  | [] => None
  | (n, v) :: hs' => if String.eqb n name then Some v else header name hs'
  end.

(** The line the log holds for a reply sent at [t]: the server transaction
    id of its [RPP-Svtrid] header, or ["(None)"]. *)
Definition completion_line (t : Z) (rep : reply) : string :=
  let svtrid := match header "RPP-Svtrid" (r_headers rep) with Some v => v | None => "(None)" end in
  format INFO t ("Completing transaction " +:+ svtrid) +:+ newline.

Fixpoint completion_log (os : list (outcome exn reply)) (ts : list Z) : string :=
  match os, ts with
  | Ok rep :: os', t :: ts' => completion_line t rep +:+ completion_log os' ts'
  | Raise _ :: os', _ :: ts' => completion_log os' ts'
  | _, _ => EmptyString
  end.

Definition logged (rep : reply) : Prop :=
  r_log rep = "Completing transaction " +:+
    match header "RPP-Svtrid" (r_headers rep) with Some v => v | None => "(None)" end.

Lemma send_logged s cltrid svtrid output : logged (send s cltrid svtrid output).
Proof. unfold logged, send. by destruct svtrid, cltrid. Qed.

Local Ltac returned :=
  repeat match goal with
  | |- returns _ (_ ≫= _) => apply returns_bind; intros ?
  | |- returns _ (mret _) => apply returns_ret
  | |- returns _ (mthrow _) => apply returns_throw
  | |- returns _ (if ?b then _ else _) => destruct b
  | |- returns _ (match ?x with _ => _ end) => destruct x
  | |- returns _ (let '(_, _) := ?x in _) => destruct x
  end; try apply send_logged.

(** Every reply of [dispatch] is made by [send]. *)
Lemma dispatch_logged r : returns logged (dispatch r).
Proof. unfold dispatch. returned. Qed.

Lemma info_completion t rep file : logged rep -> info t (r_log rep) file = file +:+ completion_line t rep.
Proof. unfold logged, info, log, emit, completion_line. by intros ->. Qed.

Lemma serve_logged_correct rs s :
  serve_logged rs s =
    let '(os, c) := serve (map fst rs) (srv_conn s) in
    (os, mkServer c (srv_log s +:+ completion_log os (map snd rs))).
Proof.
  revert s. induction rs as [|[r t] rs IH]; intros s; cbn [serve_logged serve map fst snd].
  - destruct s. by rewrite str_app_nil.
  - unfold handle. pose proof (dispatch_logged r (srv_conn s)) as Hl.
    destruct (dispatch r (srv_conn s)) as [[rep|e] c1]; rewrite IH; cbn [srv_conn srv_log];
      destruct (serve (map fst rs) c1) as [os c2]; cbn [completion_log].
    + by rewrite (info_completion t rep), str_app_assoc by eauto.
    + done.
Qed.

(** C36: the log correlates replies with server transaction ids.  Serving
    requests with logging gives the same replies and the same connection
    as [serve]; the log file keeps what it held and gets, in the order of
    the requests, one line per reply: ["RPP - INFO - <UTC time> -
    Completing transaction <id>"], where [<id>] is the reply's
    [RPP-Svtrid] header, or ["(None)"] when it has none.  A request whose
    exception escapes [dispatch] adds no line. *)
Theorem serve_logged_log rs s :
  serve_logged rs s =
    let '(os, c) := serve (map fst rs) (srv_conn s) in
    (os, mkServer c (srv_log s +:+ completion_log os (map snd rs))).
Proof. exact (serve_logged_correct rs s). Qed.

End Logging.
