(* ===== verification/TestServer.v ===== *)
(** * The test server ([src/test-server.py])

    The script imports [registry], which runs the module's start-up
    ([Logging.start]: the logger, the database connection, ["Server
    starts"]; then [Schema.load_schemas]: the three schema files), binds a [wsgiref] server on [port] with [registry.dispatch]
    as the application, sets the [Server] header's value, prints a banner
    and serves requests one at a time until it is killed.  [main] is that
    run on a finite sequence of requests, each with its arrival time; when
    a schema file is not JSON the import raises and the script stops before
    its banner, the log keeping the start-up record. *)

From S2P Require Import Prelude PyBase Json Schema Store Router Logging.
Import Store Router Logging.

Module TestServer.

(** Lines 8-9. *)
Definition port : Z := 8080.
Definition VERSION : string := "0.0".

(** Line 12: [server_software], the [Server] header [wsgiref] writes
    before the application's headers; [pyver] is the interpreter's version,
    [sys.version.split()[0]]. *)
Definition server_software (pyver : string) : string :=
  "RPP-Afnic/" +:+ VERSION +:+ " CPython/" +:+ pyver.

(** Line 13: the banner on standard output. *)
Definition banner : string := "Serving HTTP on port " +:+ str_of_Z port +:+ "...".

(** What a run of the script leaves: its standard output, the exception
    that stopped the import of [registry] if one did, the outcome of every
    request, the connection and the log file. *)
Record run := mkRun {
  stdout : string;
  import_error : option exn;
  outcomes : list (outcome exn reply);
  final_server : server
}.

(** Lines 6-15, started at [t0] with [file] in the log file, the
    connection [c] the module opens, and the texts of the three schema
    files.  [validate_json] reads the module's globals, which are the
    documents of [Schema] when the files hold them. *)
Definition main (t0 : Z) (file : string) (c : conn) (schema_files : string * string * string)
    (rs : list (request * Z)) : run :=
  let s := start t0 file c in
  let '(domain_file, patch_file, entity_file) := schema_files in
  match Schema.load_schemas domain_file patch_file entity_file with
  | Raise e => mkRun EmptyString (Some e) [] s
  | Ok _ =>
      let out := banner +:+ newline in
      let '(os, s') := serve_logged rs s in
      mkRun out None os s'
  end.

(** With schema files that load to the documents, a run serves the
    requests as [serve] does, on the connection the module opened, and
    its log is the start-up line followed by one line per reply. *)
Lemma main_serves t0 file c fd fp fe rs :
  Schema.load_schemas fd fp fe = Ok (Schema.domain_schema, Schema.patch_domain_schema, Schema.entity_schema) ->
  let '(os, c') := serve (map fst rs) c in
  main t0 file c (fd, fp, fe) rs =
    mkRun (banner +:+ newline) None os
      (mkServer c' (info t0 "Server starts" file +:+ completion_log os (map snd rs))).
Proof.
  intros Hl. unfold main, start. rewrite Hl, serve_logged_correct. cbn [srv_conn srv_log].
  by destruct (serve (map fst rs) c).
Qed.

(** A schema file that is not JSON stops the script at the import: no
    banner, no request served, and the log holds the start-up record. *)
Lemma main_bad_schema t0 file c fd fp fe rs e :
  Schema.load_schemas fd fp fe = Raise e ->
  main t0 file c (fd, fp, fe) rs = mkRun EmptyString (Some e) [] (start t0 file c).
Proof. intros Hl. unfold main. by rewrite Hl. Qed.

End TestServer.
