(* ===== verification/Reserved.v ===== *)
(** * The reserved domain is never deleted

    [delete_domain] (lines 161-169 of [registry.py]) refuses to delete
    ["nic.example"] ([Immutable]); no other statement of the code removes a
    row of [Domains].  This file proves the safety property this guard is
    for: once [nic.example] is in the tables, on the committed and on the
    working copy, no sequence of requests removes it.  Every statement but
    [domain_delete] keeps the row; [domain_delete] is only reached through
    [delete_domain], after its guard. *)

From S2P Require Import Prelude PyBase Json Store Auth Domain Transfer DomainHandler Contact Router.
Import Store Auth Domain Transfer DomainHandler Contact Router.

Module Reserved.

Definition nic_present (w : db) : Prop := is_Some (domains w !! nic_domain).

Definition nic_ok : conn -> Prop := both nic_present.

(** ** The tables' updates that keep the row *)

Lemma nic_present_insert w k r :
  nic_present w -> nic_present (set_domains w (<[k := r]> (domains w))).
Proof.
  unfold nic_present. simpl. destruct (decide (k = nic_domain)) as [->|Hk].
  - by rewrite lookup_insert_eq.
  - by rewrite lookup_insert_ne.
Qed.

Lemma nic_present_contacts w m : nic_present w -> nic_present (set_contacts w m).
Proof. done. Qed.

Lemma nic_present_transfers w l : nic_present w -> nic_present (set_transfers w l).
Proof. done. Qed.

Create HintDb nic discriminated.
#[local] Hint Resolve nic_present_insert nic_present_contacts nic_present_transfers : nic.

(** A write or an INSERT other than a DELETE on [Domains]: the row stays. *)
Local Ltac nic_write :=
  first
  [ apply both_write; intros ? ?; simpl; repeat case_match; by eauto with nic
  | apply both_insert; intros ? [? ?]; repeat case_match; cbn; split; try done;
    unfold set_work, next_contact; cbn; by eauto with nic ].

Lemma domain_insert_nic name h t a r : preserves nic_ok (domain_insert name h t a r).
Proof. unfold domain_insert. nic_write. Qed.

Lemma contact_insert_nic name : preserves nic_ok (contact_insert name).
Proof. unfold contact_insert. nic_write. Qed.

(** ** The guard *)

Lemma domain_delete_nic name : name <> nic_domain -> preserves nic_ok (domain_delete name).
Proof.
  intros Hn. apply both_write. intros c Hc. simpl. case_match; [|done].
  unfold nic_present. simpl. by rewrite lookup_delete_ne.
Qed.

Lemma delete_domain_keeps_nic d : preserves nic_ok (delete_domain d).
Proof.
  unfold delete_domain. destruct (String.eqb_spec d nic_domain) as [_|Hd].
  - apply preserves_throw.
  - apply preserves_bind; [by apply domain_delete_nic|intros n]. preserve.
Qed.

(** ** Every handler *)

Lemma handle_domain_nic d method operation extra len body user password :
  preserves nic_ok (handle_domain d method operation extra len body user password).
Proof.
  unfold handle_domain, handle_domain_put, handle_domain_patch, handle_domain_delete,
    handle_domain_get, transfer_domain, transfer_request, transfer_action, availability_domain,
    store_domain, patch_domain, patch_field.
  preserve; first [by apply delete_domain_keeps_nic | by apply domain_insert_nic | nic_write].
Qed.

Lemma handle_contact_nic contact method len body :
  preserves nic_ok (handle_contact contact method len body).
Proof.
  unfold handle_contact, handle_contact_put, head_contact, info_contact, delete_contact,
    store_contact.
  preserve; first [by apply contact_insert_nic | nic_write].
Qed.

Lemma dispatch_nic r : preserves nic_ok (dispatch r).
Proof. unfold dispatch, list_domains. preserve; auto using handle_domain_nic, handle_contact_nic. Qed.

(** C30: safety of the reserved domain.  Whatever requests arrive, in
    whatever order, with whatever bodies and credentials, [nic.example]
    stays in the committed and in the working copy of [Domains] once it is
    there. *)
Theorem reserved_domain_kept rs c : nic_ok c -> nic_ok (snd (serve rs c)).
Proof. intros Hc. apply serve_preserves; [apply dispatch_nic|exact Hc]. Qed.

End Reserved.
