(* ===== verification/TransferProgress.v ===== *)
(** * A pending transfer can always be ended

    The spec's transfer machine ([Transfer.tstep]) leaves [Pending] by
    approval, rejection or cancellation.  This file proves that the
    program offers this way out through the whole stack: whatever else the
    store holds, the sponsoring registrar can end a pending transfer with
    one request, [POST /domains/<name>/transfer/rejection] with its
    credentials, which [dispatch] (Router), [handle_domain]
    (DomainHandler) and [transfer_domain] (Transfer) carry to the
    [DELETE] of the pending row and a commit. *)

From S2P Require Import Prelude PyBase Json Wire Store Auth Domain Transfer DomainHandler Router.
Import Store Auth Domain Transfer DomainHandler Router.

Module TransferProgress.

(** The request of the sponsor [user] (its id as it writes it) with
    password [p], rejecting the pending transfer of [d]; [n] is the server
    transaction id [dispatch] draws. *)
Definition reject_request (d user p : string) (n : Z) : request :=
  mkRequest "POST" ("/domains/" +:+ d +:+ "/transfer/rejection") None None
    (Some (basic_header user p)) EmptyString n.

Section Reject.
  Context (d user p : string) (u n : Z) (c : conn) (row : domain_row) (t : transfer_row).
  Context (Hd : canonical_name d = true) (Hslash : str_has_char "/" d = false).
  Context (Hrow : domains (work c) !! d = Some row) (Hreg : registrar row = u).
  Context (Hauth : registrars (work c) !! u = Some p) (Hok : aborted c = false).
  Context (Ht : List.find (pending_for d) (transfers (work c)) = Some t).
  Context (Hu : Wire.py_int user = Ok u) (Hcu : str_has_char ":" user = false)
    (Hcp : str_has_char ":" p = false)
    (Hascii : Forall Wire.ascii_byte (Wire.bytes_of (user +:+ ":" +:+ p))).

(** The path splits into the name, [transfer] and [rejection]. *)
Lemma split_reject : split_domain (d +:+ "/transfer/rejection") = Some (d, Some "transfer", Some "rejection").
  Proof.
    unfold split_domain. change "/transfer/rejection" with (String "/" "transfer/rejection").
    by rewrite str_has_char_sep, str_split_cons.
  Qed.

Lemma dispatch_reject :
    exists rep, dispatch (reject_request d user p n) c =
      (Ok rep, commit_conn (set_work c (without_pending (work c) d))).
  Proof.
    rewrite (dispatch_route _ c (Some u) (Some p)); cycle 1.
    { unfold reject_request. cbn [req_path]. by rewrite str_startswith_app. }
    { by apply parse_basic. }
    unfold route, reject_request. cbn [req_path req_method req_input req_length].
    replace (String.eqb ("/domains/" +:+ d +:+ "/transfer/rejection") "/list-domains") with false
      by reflexivity.
    rewrite str_startswith_app, str_removeprefix_app.
    change "/transfer/rejection" with (String "/" "transfer/rejection") at 1.
    rewrite eqb_append_nonempty. change (String "/" "transfer/rejection") with "/transfer/rejection".
    rewrite split_reject, route_transfer by done.
    erewrite bind_ok by (apply (reject_by_registrar d u p c row Hrow Hauth Hok t Ht Hreg)).
    by eexists.
  Qed.
  (** C31: liveness of the transfer machine.  On a usable connection,
      whatever the tables hold, a pending transfer of [d] is ended by one
      request of its sponsor: after [POST /domains/d/transfer/rejection]
      with the sponsor's credentials the committed store has no pending
      transfer for [d] and [d] keeps its registrar. *)
Theorem pending_transfer_ends :
    let c' := snd (serve [reject_request d user p n] c) in
    clean c' /\ view c' d = Some (registrar row, NoTransfer).
  Proof.
    destruct dispatch_reject as [rep E]. cbn [serve]. rewrite E. cbn [snd].
    split; [apply commit_conn_is_clean|by apply view_without_pending].
  Qed.
End Reject.

End TransferProgress.
