(* ===== verification/Scenarios.v ===== *)
(** * Concrete scenarios

    Small stores, request bodies and requests, and for each theorem of the library
    with hypotheses a lemma that applies it to them, the hypotheses being
    checked by evaluation.  The stores hold the reserved [nic.example]
    (registrar 1) and the registry-operator contact 1; registrars 1, 5
    and 6 have passwords [pw1], [pw5], [pw6]. *)

From S2P Require Import Prelude PyBase Json JsonFacts Schema Store Auth Domain Transfer DomainHandler Contact Wire Router Logging TestServer Reserved TransferProgress.
Import Store Auth Domain Transfer DomainHandler Contact Router Logging TestServer Reserved TransferProgress.

Module Scenarios.

(** ** Request bodies *)

Definition q : string := String dquote EmptyString.
Definition jstr (s : string) : string := q +:+ s +:+ q.

(** [{"holder":"H1","tech":"H1","admin":"H1"}] *)
Definition create_body : string :=
  "{" +:+ jstr "holder" +:+ ":" +:+ jstr "H1" +:+ "," +:+ jstr "tech" +:+ ":"
      +:+ jstr "H1" +:+ "," +:+ jstr "admin" +:+ ":" +:+ jstr "H1" +:+ "}".
Definition create_len : Z := Z.of_nat (String.length create_body).

(** [{"change":{"tech":"T2"}}] and [{"change":{}}] *)
Definition patch_body : string :=
  "{" +:+ jstr "change" +:+ ":{" +:+ jstr "tech" +:+ ":" +:+ jstr "T2" +:+ "}}".
Definition patch_len : Z := Z.of_nat (String.length patch_body).
Definition empty_patch : string := "{" +:+ jstr "change" +:+ ":{}}".
Definition empty_patch_len : Z := Z.of_nat (String.length empty_patch).

(** ** Stores *)

Definition ex : string := "example.example".
Definition nic_row : domain_row := mkDomain "1" "1" "1" 1 0.
Definition ex_row : domain_row := mkDomain "H1" "H1" "H1" 5 1600000000.

Definition regs : gmap Z string := <[1%Z := "pw1"]> (<[5%Z := "pw5"]> (<[6%Z := "pw6"]> ∅)).

Definition base_db (doms : gmap string domain_row) (ts : list transfer_row) : db :=
  mkDb doms (<[1%Z := mkContact "Registry Operator" 0]> ∅) regs ts.

Definition conn_of (w : db) : conn := mkConn w w 2 3 1700000000 false false.

(** Only [nic.example]. *)
Definition c_empty : conn := conn_of (base_db (<[nic_domain := nic_row]> ∅) []).
(** [example.example] registered by 5. *)
Definition c_ex : conn := conn_of (base_db (<[ex := ex_row]> (<[nic_domain := nic_row]> ∅)) []).
(** ... with a transfer to 6 pending. *)
Definition pend6 : transfer_row := mkTransfer 1 ex 6 1650000000 false.
Definition c_pending : conn :=
  conn_of (base_db (<[ex := ex_row]> (<[nic_domain := nic_row]> ∅)) [pend6]).
(** ... with two transfers pending, to 6 and to 1. *)
Definition pend1 : transfer_row := mkTransfer 2 ex 1 1650000100 false.
Definition c_two : conn :=
  conn_of (base_db (<[ex := ex_row]> (<[nic_domain := nic_row]> ∅)) [pend6; pend1]).
(** A store holding exactly [MAX_DOMAINS] domains. *)
Definition full_domains : gmap string domain_row :=
  list_to_map (map (fun n => (str_of_Z (Z.of_nat n) +:+ ".example", ex_row)) (seq 0 5000)).
Definition c_full : conn := conn_of (base_db full_domains []).

(** Contact bodies: [{"name":{"components":[{"kind":"given","value":"Ada"},
    {"kind":"surname","value":"Lovelace"}]}}], and the same without the
    surname. *)
Definition jcomp (k v : string) : string :=
  "{" +:+ jstr "kind" +:+ ":" +:+ jstr k +:+ "," +:+ jstr "value" +:+ ":" +:+ jstr v +:+ "}".
Definition jcontact (comps : string) : string :=
  "{" +:+ jstr "name" +:+ ":{" +:+ jstr "components" +:+ ":[" +:+ comps +:+ "]}}".
Definition ada_body : string := jcontact (jcomp "given" "Ada" +:+ "," +:+ jcomp "surname" "Lovelace").
Definition ada_len : Z := Z.of_nat (String.length ada_body).
Definition given_only : string := jcontact (jcomp "given" "Ada").
Definition given_only_len : Z := Z.of_nat (String.length given_only).

Definition pcomp (k v : string) : pyval := PDict [("kind", PStr k); ("value", PStr v)].
Definition ada_name : pyval :=
  PDict [("components", PList [pcomp "given" "Ada"; pcomp "surname" "Lovelace"])].

(** A store holding exactly [MAX_CONTACTS] contacts. *)
Definition full_contacts : gmap Z contact_row :=
  list_to_map (map (fun n => (Z.of_nat n, mkContact "X" 0)) (seq 1 5000)).
Definition c_full_contacts : conn :=
  conn_of (mkDb (<[nic_domain := nic_row]> ∅) full_contacts regs []).

Ltac discharge :=
  first [ vm_compute; reflexivity | vm_compute; lia
        | vm_compute; discriminate | vm_compute; intros [=] | done
        | apply single_pending_short; vm_compute; lia
        | split; apply single_pending_short; vm_compute; lia ].

(** ** Witnesses *)

Lemma put_creates_domain_witness :
  handle_domain ex "PUT" None None create_len (Some create_body) (Some 5%Z) (Some "pw5") c_empty =
    (Ok (st 201 "Created", [("result", PStr (ex +:+ " created"))]),
     commit_conn (with_domain c_empty ex (mkDomain "H1" "H1" "H1" 5 (clock c_empty)))).
Proof. apply put_creates_domain; discharge. Defined.

Lemma put_get_roundtrip_witness :
  let c' := snd (handle_domain ex "PUT" None None create_len (Some create_body) (Some 5%Z) (Some "pw5") c_empty) in
  handle_domain ex "GET" None None 0 None None None c' =
    (Ok (st 200 "OK", get_output ex (mkDomain "H1" "H1" "H1" 5 (clock c_empty))), c').
Proof. apply put_get_roundtrip; discharge. Defined.

Lemma put_duplicate_keeps_store_witness :
  handle_domain ex "PUT" None None create_len (Some create_body) (Some 6%Z) (Some "pw6") c_ex =
    (Ok (st 412 "Exists", [("result", PStr (ex +:+ " already exists"))]), c_ex).
Proof. unshelve eapply (put_duplicate_keeps_store _ _ _ _ _ _ _ "H1" "H1" "H1" _ _ _ _ ex_row); discharge. Defined.

Lemma put_quota_refused_witness :
  handle_domain ex "PUT" None None create_len (Some create_body) (Some 5%Z) (Some "pw5") c_full =
    (Ok (st 400 "Too many", [("result", PStr "Too many domains already")]), c_full).
Proof. unshelve eapply (put_quota_refused _ _ _ _ _ _ _ "H1" "H1" "H1"); discharge. Defined.

Lemma transfer_request_opens_witness :
  transfer_post ex 0 None 6 "pw6" None c_ex =
    (Ok (ok ("Domain " +:+ ex +:+ " transfer to registrar " +:+ str_of_Z 6 +:+ " started")),
     commit_conn (with_transfer c_ex ex 6)) /\
  view (commit_conn (with_transfer c_ex ex 6)) ex = Some (registrar ex_row, Pending 6).
Proof. apply transfer_request_opens; discharge. Defined.

Lemma transfer_approval_moves_witness :
  let '(o, c') := transfer_post ex 0 None 5 "pw5" (Some "approval") c_pending in
  o = Ok (ok ("Transfer of " +:+ ex +:+ " approved")) /\ clean c' /\
  view c' ex = Some (t_winner pend6, NoTransfer).
Proof. apply transfer_approval_moves with (r := ex_row); discharge. Defined.

Lemma transfer_reject_or_cancel_witness :
  let '(o, c') := transfer_post ex 0 None 6 "pw6" (Some "cancelation") c_pending in
  (exists msg, o = Ok (ok msg)) /\ clean c' /\ view c' ex = Some (registrar ex_row, NoTransfer).
Proof.
  apply transfer_reject_or_cancel with (r := ex_row) (t := pend6); try discharge.
  right. split; discharge.
Defined.

Lemma transfer_request_no_duplicate_witness :
  transfer_post ex 0 None 1 "pw1" None c_pending =
    (Ok (ok ("Domain " +:+ ex +:+ " already has a transfer to registrar "
             +:+ str_of_Z (t_winner pend6) +:+ " pending (since "
             +:+ datetime_format " " (t_created pend6) +:+ ")")), c_pending).
Proof. unshelve eapply (transfer_request_no_duplicate _ _ _ _ _ _ _ ex_row); discharge. Defined.

Lemma transfer_refines_witness :
  let v := (registrar ex_row, abs_pending (work c_pending) ex) in
  let '(o, c') := transfer_domain ex "POST" (Some "approval") (Some 5%Z) (Some "pw5") c_pending in
  clean c' /\ transfers_ok c' /\ view c' ex = Some (default v (tnext v (Approve 5))) /\
  exists resp, o = Ok resp /\ (code (fst resp) = 200%Z <-> is_Some (tnext v (Approve 5))).
Proof.
  apply transfer_refines; discharge.
Defined.

Lemma transfer_request_by_owner_witness :
  transfer_post ex 0 None 5 "pw5" None c_ex =
    (Ok (ok (str_of_Z 5 +:+ " is already the registrar of " +:+ ex)), c_ex).
Proof. unshelve eapply (transfer_request_by_owner _ _ _ _ _ _ _ ex_row); discharge. Defined.

Lemma delete_owner_ok_witness :
  handle_domain ex "DELETE" None None 0 None (Some 5%Z) (Some "pw5") c_ex =
    (Ok (st 202 "Accepted", [("result", PStr (ex +:+ " deleted"))]),
     commit_conn (set_work c_ex (set_domains (work c_ex) (delete ex (domains (work c_ex)))))).
Proof. unshelve eapply (delete_owner_ok _ _ _ _ _ _ _ ex_row); discharge. Defined.

Lemma delete_nic_owner_immutable_witness :
  handle_domain nic_domain "DELETE" None None 0 None (Some 1%Z) (Some "pw1") c_empty =
    (Ok (st 423 "Immutable", [("result", PStr (nic_domain +:+ " cannot be deleted"))]), c_empty).
Proof. unshelve eapply (delete_nic_owner_immutable _ _ _ _ _ _ nic_row); discharge. Defined.

Lemma delete_nic_non_owner_forbidden_witness :
  handle_domain nic_domain "DELETE" None None 0 None (Some 5%Z) (Some "pw5") c_empty =
    (Ok (not_registrar nic_domain 5 nic_row), c_empty).
Proof. apply delete_nic_non_owner_forbidden; discharge. Defined.

Lemma put_ignores_registerable_witness :
  handle_domain "0a.example" "GET" (Some "availability") None create_len None None None c_empty =
    (Ok (st 404 "Not found",
         [("result", PStr ("Domain " +:+ "0a.example" +:+ " NOT found. " +:+
                           ("It cannot be registered because " +:+ "Domains must not start with a zero")))]), c_empty) /\
  handle_domain "0a.example" "PUT" None None create_len (Some create_body) (Some 5%Z) (Some "pw5") c_empty =
    (Ok (st 201 "Created", [("result", PStr ("0a.example" +:+ " created"))]),
     commit_conn (with_domain c_empty "0a.example" (mkDomain "H1" "H1" "H1" 5 (clock c_empty)))).
Proof.
  unshelve eapply (put_ignores_registerable _ _ _ _ _ _ _ "H1" "H1" "H1" _ _ _ _
           "Domains must not start with a zero" None None None); discharge.
Defined.

Lemma patch_without_ownership_witness :
  handle_domain ex "PATCH" None None patch_len (Some patch_body) (Some 6%Z) (Some "pw6") c_ex =
    (Ok (st 204 "Updated", [("result", PStr "Update done")]),
     commit_conn (set_work c_ex (set_domains (work c_ex)
       (<[ex := patched (Some "T2") None ex_row]> (domains (work c_ex)))))).
Proof. apply patch_without_ownership; discharge. Defined.

Lemma patch_empty_noop_witness :
  handle_domain ex "PATCH" None None empty_patch_len (Some empty_patch) (Some 6%Z) (Some "pw6") c_ex =
    (Ok (st 204 "Updated", [("result", PStr "Update done")]), c_ex).
Proof. unshelve eapply (patch_empty_noop _ _ _ _ _ _ _ _ ex_row); discharge. Defined.

Lemma approval_duplicate_leaks_witness :
  let '(o, c') := transfer_post ex 0 None 5 "pw5" (Some "approval") c_two in
  o = Ok (st 500 "Internal error", [("result", PStr "Update of transfer failed")]) /\
  pending_rows (work c') ex = [] /\ domains (work c') !! ex = Some ex_row /\
  committed c' = committed c_two.
Proof. apply approval_duplicate_leaks with (r := ex_row) (t := pend6); discharge. Defined.

Lemma unknown_action_not_found_witness :
  transfer_post ex 0 None 5 "pw5" (Some "bogus") c_ex =
    (Ok (st 404 "No transfer", [("result", PStr ("No pending transfer of " +:+ ex +:+ " to act on"))]), c_ex).
Proof. unshelve eapply (unknown_action_not_found _ _ _ _ _ _ _ ex_row); discharge. Defined.

Lemma contact_one_deletable_witness :
  handle_contact "1" "DELETE" 0 None c_empty =
    (Ok (st 202 "Accepted", [("result", PStr "1 deleted")]),
     commit_conn (set_work c_empty (set_contacts (work c_empty) (delete 1%Z (contacts (work c_empty)))))).
Proof. apply contact_one_deletable with (row := mkContact "Registry Operator" 0); discharge. Defined.

Lemma contact_put_creates_witness :
  handle_contact "new" "PUT" ada_len (Some ada_body) c_empty =
    (Ok (st 201 "Created", [("result", PStr ("None (" +:+ py_str ada_name +:+ ") created"))]),
     commit_conn (with_contact c_empty (("Ada" +:+ " ") +:+ "Lovelace"))).
Proof. apply contact_put_creates; discharge. Defined.

Lemma contact_put_no_surname_witness :
  handle_contact "new" "PUT" given_only_len (Some given_only) c_empty =
    (Raise (Exception "No surname???"), c_empty).
Proof.
  apply contact_put_no_surname with (name := PDict [("components", PList [pcomp "given" "Ada"])])
    (given := PStr "Ada") (surname := PNone); discharge.
Defined.

Lemma contact_put_quota_witness :
  handle_contact "new" "PUT" ada_len (Some ada_body) c_full_contacts =
    (Ok (st 400 "Too many", [("result", PStr "Too many contacts already")]), c_full_contacts).
Proof. apply contact_put_quota with (name := ada_name) (g := "Ada") (sn := "Lovelace"); discharge. Defined.

(** ** Requests *)

(** [GET path] with no credentials, no body, server id 42. *)
Definition get (path : string) : request := mkRequest "GET" path None None None EmptyString 42.
Definition get_contact : request := get "/entities/abc".
Definition get_list : request := get "/list-domains".

Lemma serve_single_pending_witness :
  transfers_ok c_pending /\ transfers_ok (snd (serve [get_contact; get_list] c_pending)).
Proof. split; [|apply serve_single_pending]; discharge. Defined.

Lemma serve_quotas_witness :
  quota_ok (snd (serve [get_list; get_contact] c_ex)) /\ contact_quota_ok (snd (serve [get_list; get_contact] c_ex)).
Proof. apply serve_quotas; split; apply Z.leb_le; vm_compute; reflexivity. Defined.

Lemma contact_error_wedges_witness :
  dispatch get_contact c_ex = (Raise InvalidTextRepresentation, abort c_ex) /\
  forall rs, snd (serve rs (abort c_ex)) = abort c_ex.
Proof.
  apply (contact_error_wedges get_contact c_ex "abc" InvalidTextRepresentation None None); [discharge..| |discharge].
  right; left; reflexivity.
Defined.


Lemma list_domains_suffix_500_witness :
  dispatch (get "/list-domains/x") c_ex = (Ok (send (st 500 "Internal error, should not happen") None None []), c_ex).
Proof. apply (list_domains_suffix_500 _ _ "/x" None None); discharge. Defined.

Lemma list_domains_no_svtrid_witness :
  exists rep, dispatch get_list c_ex = (Ok rep, c_ex) /\ Forall (fun h => fst h <> "RPP-Svtrid") (r_headers rep).
Proof. apply (list_domains_no_svtrid _ _ None None); discharge. Defined.

Lemma basic_auth_roundtrip_witness :
  parse_auth (Some ("Basic " +:+ Wire.string_of (Wire.b64encode (Wire.bytes_of ("5" +:+ ":" +:+ "pw5")))))
    = Ok (Some 5%Z, Some "pw5").
Proof. apply basic_auth_roundtrip; [discharge..|]. apply List.Forall_forall; intros b Hb.
  assert (H : forallb (fun b => Z.leb 0 b && Z.ltb b 128) (Wire.bytes_of ("5" +:+ ":" +:+ "pw5")) = true)
    by reflexivity.
  eapply forallb_forall in H; [|exact Hb]. apply andb_prop in H as [H1 H2]. apply Z.leb_le in H1. apply Z.ltb_lt in H2.
  unfold Wire.ascii_byte; lia.
Defined.

(** Checking that a concrete string is ASCII by evaluation. *)
Lemma ascii_bytes_check s :
  forallb (fun b => Z.leb 0 b && Z.ltb b 128) (Wire.bytes_of s) = true -> Forall Wire.ascii_byte (Wire.bytes_of s).
Proof.
  intros H. apply List.Forall_forall. intros b Hb. eapply forallb_forall in H; [|exact Hb].
  apply andb_prop in H as [H1 H2]. apply Z.leb_le in H1. apply Z.ltb_lt in H2. unfold Wire.ascii_byte; lia.
Qed.

Lemma reserved_domain_kept_witness : nic_ok c_ex /\ nic_ok (snd (serve [get_list; get_contact] c_ex)).
Proof.
  assert (H : nic_ok c_ex) by (split; unfold nic_present; vm_compute; eexists; reflexivity).
  split; [exact H|]. by apply reserved_domain_kept.
Defined.

Lemma pending_transfer_ends_witness :
  let c' := snd (serve [reject_request ex "5" "pw5" 7] c_pending) in
  clean c' /\ view c' ex = Some (registrar ex_row, NoTransfer).
Proof.
  apply (pending_transfer_ends ex "5" "pw5" 5 7 c_pending ex_row pend6); try discharge.
  apply ascii_bytes_check. reflexivity.
Defined.

Lemma availability_follows_rule_witness :
  exists info,
    handle_domain ex "GET" (Some "availability") None 0 None None None c_empty =
      (Ok (st 404 "Not found", [("result", PStr ("Domain " +:+ ex +:+ " NOT found. " +:+ info))]), c_empty) /\
    (info = "It can be registered" <-> rule_ok ex = true).
Proof. apply availability_follows_rule; discharge. Defined.

(** A handler's output with a timestamp, a quote in a string, a list and
    a negative number. *)
Definition reply_output : dict :=
  [("result", PStr "Domain example.example exists"); ("created", PTime 1700000000);
   ("note", PStr ("a" +:+ q +:+ "b")); ("tags", PList [PInt (-3); PBool true; PNone])].

Lemma send_envelope_witness :
  (JsonFacts.wire_safe (PDict reply_output) = true /\ JsonFacts.wire_str (message (st 200 "OK")) = true) /\
  exists d,
    Json.json_loads (r_body (send (st 200 "OK") (Some "c1") (Some 42%Z) reply_output)) = Ok (PDict d) /\
    dict_get d "status_code" = Some (PInt (code (st 200 "OK"))) /\
    dict_get d "status_message" = Some (PStr (message (st 200 "OK"))) /\
    (forall k, k <> "status_code" -> k <> "status_message" ->
       dict_get d k = option_map JsonFacts.json_image (dict_get reply_output k)).
Proof.
  split; [split; vm_compute; reflexivity|].
  apply send_envelope; vm_compute; reflexivity.
Defined.

(** The timestamp of a record: 1700000000 is 2023-11-14 22:13:20 UTC. *)
Example asctime_example : asctime 1700000000 = "2023-11-14 22:13:20Z".
Proof. vm_compute. reflexivity. Qed.

(** The line [send] logs for a reply with server transaction id 42. *)
Example completion_line_example :
  completion_line 0 (send (st 200 "OK") None (Some 42%Z) [])
    = "RPP - INFO - 1970-01-01 00:00:00Z - Completing transaction 42" +:+ newline.
Proof. vm_compute. reflexivity. Qed.

(** A creation body without [admin] and with a number for [tech]: the
    error jsonschema reports is the missing member, the shallower one. *)
Example validation_message_example :
  Schema.validate_json ("{" +:+ jstr "holder" +:+ ":" +:+ jstr "H1" +:+ "," +:+ jstr "tech" +:+ ":5}")
    "domain" "put" = Raise (ValidationError ("'admin' is a required property")).
Proof. vm_compute. reflexivity. Qed.

(** The schema files, written as [json.dumps] writes the documents. *)
Definition schema_files : string * string * string :=
  (Json.json_dumps Schema.domain_schema, Json.json_dumps Schema.patch_domain_schema, Json.json_dumps Schema.entity_schema).

(** A run of the test server with no request: the banner, and the
    start-up record in the log. *)
Example main_example :
  main 0 EmptyString c_empty schema_files [] =
    mkRun (banner +:+ newline) None [] (mkServer c_empty ("RPP - INFO - 1970-01-01 00:00:00Z - Server starts" +:+ newline)).
Proof. vm_compute. reflexivity. Qed.

(** A schema file cut short stops the import with [JSONDecodeError]. *)
Example main_bad_schema_example :
  import_error (main 0 EmptyString c_empty ("{", Json.json_dumps Schema.patch_domain_schema, Json.json_dumps Schema.entity_schema) [])
    = Some JSONDecodeError.
Proof. vm_compute. reflexivity. Qed.

(** The test server's banner. *)
Example banner_example : banner = "Serving HTTP on port 8080...".
Proof. vm_compute. reflexivity. Qed.

End Scenarios.
